(** * metrics-sidecar: the health-check admission decision, verified

    A shallow embedding of the Go packages [config], [metrics], [k8s] and
    [handlers] of the metrics sidecar, and the properties of the
    [/healthz] and [/metrics] handlers.

    Modelling choices, fixed once for the whole development:

    - [float64] is IEEE 754 binary64, taken from the Standard Library's
      executable specification [SpecFloat] at precision 53 and maximal
      exponent 1024.  Conversions from integers round to nearest even, as
      Go's [float64(x)] does; comparisons are the IEEE ones (every
      comparison with a NaN is false).
    - Go's [int32] and [int64] are [Z]; the handlers only compare and
      convert them, so no wrap-around arises.  [int64_range] and
      [int32_range] bound them where a proof needs it.
    - Package-level variables ([resourceOverLoaded], [rng],
      [shouldRandomize]) live in a record [Globals].  A handler is a
      program ([Prog]) whose nodes are the single accesses to those
      variables, in source order.  [run] executes a program without
      interruption (one evaluation on its own); [interleave] executes
      several of them under a schedule, one access at a time.
    - [rng.Float64()] is an oracle: the generator carries the sequence of
      its outputs and the number of values drawn so far.
    - Logging is not modelled.  A response is the status code given to
      [WriteHeader] together with the value handed to the encoder. *)

From Stdlib Require Import ZArith Bool Lia.
From Stdlib Require Import Floats.SpecFloat.
From stdpp Require Import gmap strings pretty.

Open Scope Z_scope.

(** ** float64 *)

Module F64.

Definition prec : Z := 53.
Definition emax : Z := 1024.

Definition float64 : Type := spec_float.

(** [float64(z)] for an integer [z]. *)
Definition of_int (z : Z) : float64 := binary_normalize prec emax z 0 false.

Definition mul : float64 -> float64 -> float64 := SFmul prec emax.
Definition div : float64 -> float64 -> float64 := SFdiv prec emax.

Definition ltb : float64 -> float64 -> bool := SFltb.
Definition leb : float64 -> float64 -> bool := SFleb.
Definition gtb (x y : float64) : bool := SFltb y x.
Definition geb (x y : float64) : bool := SFleb y x.
Definition eqb : float64 -> float64 -> bool := SFeqb.

(** The literal [0.0]. *)
Definition zero : float64 := S754_zero false.

Definition is_nan (x : float64) : bool :=
  match x with S754_nan => true | _ => false end.

Definition is_zero (x : float64) : bool :=
  match x with S754_zero _ => true | _ => false end.

Definition is_inf (x : float64) : bool :=
  match x with S754_infinity _ => true | _ => false end.

Definition is_finite (x : float64) : bool :=
  match x with S754_zero _ | S754_finite _ _ _ => true | _ => false end.

Definition valid (x : float64) : bool := valid_binary prec emax x.

End F64.

Abbreviation float64 := F64.float64.

Arguments F64.of_int : simpl never.
Arguments F64.mul : simpl never.
Arguments F64.div : simpl never.
Arguments F64.ltb : simpl never.
Arguments F64.leb : simpl never.
Arguments F64.gtb : simpl never.
Arguments F64.geb : simpl never.

Declare Scope f64_scope.
Delimit Scope f64_scope with f64.
Infix "*" := F64.mul : f64_scope.
Infix "/" := F64.div : f64_scope.
Infix "<?" := F64.ltb : f64_scope.
Infix "<=?" := F64.leb : f64_scope.
Infix ">?" := F64.gtb : f64_scope.
Infix ">=?" := F64.geb : f64_scope.

Definition int64_range (z : Z) : Prop := - 2 ^ 63 <= z < 2 ^ 63.
Definition int32_range (z : Z) : Prop := - 2 ^ 31 <= z < 2 ^ 31.

(** ** Go values *)

(** A Go [error] is its message. *)
Definition error : Type := string.

(** The pair of a pointer and an [error] that a call returns: either a
    non-nil error, or a pointer that may itself be nil. *)
Inductive GoResult (A : Type) : Type :=
| Success (p : option A)
| Failure (err : error).
Arguments Success {A} p.
Arguments Failure {A} err.

(** ** package config *)

Module config.

Record Config : Type := {
  KubeconfigPath : string;
  InClusterConfig : bool;
  Namespace : string;
  DeploymentName : string;
  ContainerName : string;
  PodName : string;
  ResourceThresholdMemoryPercent : float64;
  ResourceThresholdCPUPercent : float64;
  MinimumPodsToKeepPercent : float64;
  HttpPort : string
}.

End config.

(** ** package metrics *)

Module metrics.

Record ContainerMetrics : Type := {
  Name : string;
  CPUUsage : Z;
  MemUsage : Z;
  Ready : bool
}.

Record ContainerLimits : Type := {
  CPULimit : Z;
  MemLimit : Z
}.

(** [Containers] is a [map[string]*ContainerMetrics]: the map may be nil
    ([None]) and a stored pointer may be nil. *)
Record PodMetrics : Type := {
  PodName : string;
  PodNamespace : string;
  Containers : option (gmap string (option ContainerMetrics))
}.

Record DeploymentMetrics : Type := {
  DeploymentName : string;
  DeploymentNamespace : string;
  Replicas : Z;
  AvailableReplicas : Z
}.

Record ResourceMetrics : Type := {
  DeploymentReplicas : Z;
  DeploymentAvailableReplicas : Z;
  ContainerName : string;
  ContainerCPULimit : Z;
  ContainerMemLimit : Z;
  ContainerReady : bool;
  ContainerCPUUsage : Z;
  ContainerMemUsage : Z
}.

(** Assignments to the fields of a [ResourceMetrics]. *)
Definition set_DeploymentReplicas (v : Z) (m : ResourceMetrics) : ResourceMetrics :=
  {| DeploymentReplicas := v;
     DeploymentAvailableReplicas := DeploymentAvailableReplicas m;
     ContainerName := ContainerName m;
     ContainerCPULimit := ContainerCPULimit m;
     ContainerMemLimit := ContainerMemLimit m;
     ContainerReady := ContainerReady m;
     ContainerCPUUsage := ContainerCPUUsage m;
     ContainerMemUsage := ContainerMemUsage m |}.

Definition set_DeploymentAvailableReplicas (v : Z) (m : ResourceMetrics)
    : ResourceMetrics :=
  {| DeploymentReplicas := DeploymentReplicas m;
     DeploymentAvailableReplicas := v;
     ContainerName := ContainerName m;
     ContainerCPULimit := ContainerCPULimit m;
     ContainerMemLimit := ContainerMemLimit m;
     ContainerReady := ContainerReady m;
     ContainerCPUUsage := ContainerCPUUsage m;
     ContainerMemUsage := ContainerMemUsage m |}.

Definition set_ContainerCPULimit (v : Z) (m : ResourceMetrics) : ResourceMetrics :=
  {| DeploymentReplicas := DeploymentReplicas m;
     DeploymentAvailableReplicas := DeploymentAvailableReplicas m;
     ContainerName := ContainerName m;
     ContainerCPULimit := v;
     ContainerMemLimit := ContainerMemLimit m;
     ContainerReady := ContainerReady m;
     ContainerCPUUsage := ContainerCPUUsage m;
     ContainerMemUsage := ContainerMemUsage m |}.

Definition set_ContainerMemLimit (v : Z) (m : ResourceMetrics) : ResourceMetrics :=
  {| DeploymentReplicas := DeploymentReplicas m;
     DeploymentAvailableReplicas := DeploymentAvailableReplicas m;
     ContainerName := ContainerName m;
     ContainerCPULimit := ContainerCPULimit m;
     ContainerMemLimit := v;
     ContainerReady := ContainerReady m;
     ContainerCPUUsage := ContainerCPUUsage m;
     ContainerMemUsage := ContainerMemUsage m |}.

Definition set_ContainerReady (v : bool) (m : ResourceMetrics) : ResourceMetrics :=
  {| DeploymentReplicas := DeploymentReplicas m;
     DeploymentAvailableReplicas := DeploymentAvailableReplicas m;
     ContainerName := ContainerName m;
     ContainerCPULimit := ContainerCPULimit m;
     ContainerMemLimit := ContainerMemLimit m;
     ContainerReady := v;
     ContainerCPUUsage := ContainerCPUUsage m;
     ContainerMemUsage := ContainerMemUsage m |}.

Definition set_ContainerCPUUsage (v : Z) (m : ResourceMetrics) : ResourceMetrics :=
  {| DeploymentReplicas := DeploymentReplicas m;
     DeploymentAvailableReplicas := DeploymentAvailableReplicas m;
     ContainerName := ContainerName m;
     ContainerCPULimit := ContainerCPULimit m;
     ContainerMemLimit := ContainerMemLimit m;
     ContainerReady := ContainerReady m;
     ContainerCPUUsage := v;
     ContainerMemUsage := ContainerMemUsage m |}.

Definition set_ContainerMemUsage (v : Z) (m : ResourceMetrics) : ResourceMetrics :=
  {| DeploymentReplicas := DeploymentReplicas m;
     DeploymentAvailableReplicas := DeploymentAvailableReplicas m;
     ContainerName := ContainerName m;
     ContainerCPULimit := ContainerCPULimit m;
     ContainerMemLimit := ContainerMemLimit m;
     ContainerReady := ContainerReady m;
     ContainerCPUUsage := ContainerCPUUsage m;
     ContainerMemUsage := v |}.

(** Indexing a Go map: a missing key and a nil map both give the zero
    value of the element type, here the nil pointer. *)
Definition index (cs : option (gmap string (option ContainerMetrics)))
    (key : string) : option ContainerMetrics :=
  match cs with
  | None => None
  | Some m => mjoin (m !! key)
  end.

(** What the metrics API holds for one container of the pod: CPU in
    millicores ([Cpu().MilliValue()]) and memory in bytes
    ([Memory().Value()]). *)
Record ContainerUsage : Type := {
  UsageName : string;
  CpuMilliValue : Z;
  MemoryValue : Z
}.

Record MetricsCollector : Type := {
  Config : config.Config
}.

(** The loop of [GetPodMetrics]: every listed container bearing the
    configured name is stored under that name, later ones replacing
    earlier ones. *)
Fixpoint collectContainers (cfg : config.Config) (cs : list ContainerUsage)
    (acc : gmap string (option ContainerMetrics))
    : gmap string (option ContainerMetrics) :=
  match cs with
  | [] => acc
  | c :: rest =>
      if String.eqb (UsageName c) (config.ContainerName cfg)
      then collectContainers cfg rest
             (<[ UsageName c :=
                  Some {| Name := UsageName c;
                          CPUUsage := CpuMilliValue c;
                          MemUsage := Z.quot (MemoryValue c) (1024 * 1024);
                          Ready := false |} ]> acc)
      else collectContainers cfg rest acc
  end.

(** [api] is the answer of the metrics API to the request for the pod:
    an error, or the usage of its containers. *)
Definition GetPodMetrics (m : MetricsCollector)
    (api : error + list ContainerUsage) : GoResult PodMetrics :=
  match api with
  | inl err => Failure ("获取Pod度量指标失败: " +:+ err)
  | inr containers =>
      Success (Some {| PodName := config.PodName (Config m);
                       PodNamespace := config.Namespace (Config m);
                       Containers :=
                         Some (collectContainers (Config m) containers ∅) |})
  end.

Definition NewMetricsCollector (cfg : config.Config) : MetricsCollector :=
  {| Config := cfg |}.

End metrics.

(** ** package k8s *)

Module k8s.

(** The parts of the API objects the client reads. *)
Record Deployment : Type := {
  DeployName : string;
  DeployNamespace : string;
  StatusReplicas : Z;
  StatusAvailableReplicas : Z
}.

Record ContainerStatus : Type := {
  StatusName : string;
  StatusReady : bool
}.

Record Pod : Type := {
  PodName : string;
  PodNamespace : string;
  ContainerStatuses : list ContainerStatus
}.

(** What the cluster answers while one request is served.  A call that
    exceeds the deadline of the request answers with an error. *)
Record Cluster : Type := {
  Deployments : error + Deployment;
  Pods : error + Pod;
  PodMetricses : error + list metrics.ContainerUsage
}.

Record Client : Type := {
  Config : config.Config;
  ContainerLimits : option metrics.ContainerLimits
}.

Definition GetDeploymentInfo (c : Client) (api : Cluster)
    : GoResult metrics.DeploymentMetrics :=
  match Deployments api with
  | inl err => Failure ("获取Deployment失败: " +:+ err)
  | inr deploy =>
      Success (Some {| metrics.DeploymentName := DeployName deploy;
                       metrics.DeploymentNamespace := DeployNamespace deploy;
                       metrics.Replicas := StatusReplicas deploy;
                       metrics.AvailableReplicas :=
                         StatusAvailableReplicas deploy |})
  end.

(** On success the pointer returned is the cached one, just tested not to
    be nil. *)
Definition GetContainerLimits (c : Client) : metrics.ContainerLimits + error :=
  match ContainerLimits c with
  | None => inr "容器资源限制未初始化"
  | Some l => inl l
  end.

Fixpoint collectStatuses (cfg : config.Config) (cs : list ContainerStatus)
    (acc : gmap string (option metrics.ContainerMetrics))
    : gmap string (option metrics.ContainerMetrics) :=
  match cs with
  | [] => acc
  | s :: rest =>
      if String.eqb (StatusName s) (config.ContainerName cfg)
      then collectStatuses cfg rest
             (<[ StatusName s :=
                  Some {| metrics.Name := StatusName s;
                          metrics.CPUUsage := 0;
                          metrics.MemUsage := 0;
                          metrics.Ready := StatusReady s |} ]> acc)
      else collectStatuses cfg rest acc
  end.

Definition GetPodInfo (c : Client) (api : Cluster)
    : GoResult metrics.PodMetrics :=
  match Pods api with
  | inl err => Failure ("获取Pod失败: " +:+ err)
  | inr pod =>
      Success (Some {| metrics.PodName := PodName pod;
                       metrics.PodNamespace := PodNamespace pod;
                       metrics.Containers :=
                         Some (collectStatuses (Config c)
                                 (ContainerStatuses pod) ∅) |})
  end.

(** *** Start-up: the limits of the container

    [initContainerLimits] reads, from the deployment, the containers of
    the pod template with the limits they declare: CPU in millicores
    ([Limits.Cpu().MilliValue()]) and memory in bytes
    ([Limits.Memory().Value()]). *)
Record ContainerSpec : Type := {
  SpecName : string;
  LimitsCpuMilliValue : Z;
  LimitsMemoryValue : Z
}.

(** What the outside world answers while a client is built: the outcome
    of each constructor of the client libraries ([None] for no error), and
    the answer of the cluster to each attempt to read the deployment,
    numbered from 0. *)
Record Bootstrap : Type := {
  InClusterConfig : option error;
  BuildConfigFromFlags : string -> option error;
  KubernetesNewForConfig : option error;
  MetricsNewForConfig : option error;
  DeploymentsGet : nat -> error + list ContainerSpec
}.

Definition maxRetries : nat := 5.

(** The loop over the containers of one deployment.  Its [continue] on
    limits that are not valid goes on with the next container of the same
    deployment. *)
Fixpoint scanContainers (cfg : config.Config) (containers : list ContainerSpec)
    (lastErr : option error) : metrics.ContainerLimits + option error :=
  match containers with
  | [] => inr lastErr
  | container :: rest =>
      if String.eqb (SpecName container) (config.ContainerName cfg) then
        let cpuLimit := LimitsCpuMilliValue container in
        let memLimit := Z.quot (LimitsMemoryValue container) (1024 * 1024) in
        if (cpuLimit <=? 0) || (memLimit <=? 0) then
          scanContainers cfg rest
            (Some ("无效的资源限制值: CPU=" +:+ pretty cpuLimit +:+ "m, Memory="
                   +:+ pretty memLimit +:+ "Mi"))
        else
          inl {| metrics.CPULimit := cpuLimit; metrics.MemLimit := memLimit |}
      else scanContainers cfg rest lastErr
  end.

(** The loop over the attempts: [remaining] attempts are left, the next
    one is attempt [i]. *)
Fixpoint retryLoop (cfg : config.Config)
    (get : nat -> error + list ContainerSpec) (remaining i : nat)
    (lastErr : option error) : metrics.ContainerLimits + option error :=
  match remaining with
  | O => inr lastErr
  | S remaining' =>
      match get i with
      | inl err =>
          retryLoop cfg get remaining' (S i)
            (Some ("获取Deployment失败: " +:+ err))
      | inr containers =>
          match scanContainers cfg containers lastErr with
          | inl limits => inl limits
          | inr _ =>
              retryLoop cfg get remaining' (S i)
                (Some ("在Deployment[" +:+ config.DeploymentName cfg
                       +:+ "]中未找到容器[" +:+ config.ContainerName cfg
                       +:+ "]"))
          end
      end
  end.

(** [%v] of an error that may be nil. *)
Definition show_error (e : option error) : string :=
  match e with
  | Some msg => msg
  | None => "<nil>"
  end.

Definition initContainerLimits (c : Client)
    (get : nat -> error + list ContainerSpec)
    : metrics.ContainerLimits + error :=
  match retryLoop (Config c) get maxRetries 0 None with
  | inl limits => inl limits
  | inr lastErr =>
      inr ("经过" +:+ pretty (Z.of_nat maxRetries)
           +:+ "次尝试，无法获取容器资源限制: " +:+ show_error lastErr)
  end.

Definition NewClient (cfg : config.Config) (boot : Bootstrap) : Client + error :=
  match (if config.InClusterConfig cfg then
           match InClusterConfig boot with
           | Some err => Some ("创建InCluster配置失败: " +:+ err)
           | None => None
           end
         else
           match BuildConfigFromFlags boot (config.KubeconfigPath cfg) with
           | Some err => Some ("构建K8s配置失败: " +:+ err)
           | None => None
           end) with
  | Some err => inr err
  | None =>
      match KubernetesNewForConfig boot with
      | Some err => inr ("创建Kubernetes客户端失败: " +:+ err)
      | None =>
          match MetricsNewForConfig boot with
          | Some err => inr ("创建Metrics客户端失败: " +:+ err)
          | None =>
              let client := {| Config := cfg; ContainerLimits := None |} in
              match initContainerLimits client (DeploymentsGet boot) with
              | inr err => inr ("获取容器资源限制失败: " +:+ err)
              | inl containerLimits =>
                  inl {| Config := Config client;
                         ContainerLimits := Some containerLimits |}
              end
          end
      end
  end.

End k8s.


(** ** package handlers *)

Module handlers.

Import F64.
Local Open Scope f64_scope.

(** *** net/http and math/rand *)

Definition StatusOK : Z := 200.
Definition StatusBadRequest : Z := 400.
Definition StatusServiceUnavailable : Z := 503.

(** A [*rand.Rand]: [outputs] is the sequence of values its [Float64]
    returns, [drawn] the number of calls made so far. *)
Record Rand : Type := {
  outputs : nat -> float64;
  drawn : nat
}.

Definition Float64 (r : Rand) : float64 * Rand :=
  (outputs r (drawn r), {| outputs := outputs r; drawn := S (drawn r) |}).

(** [Float64] returns a number of the half-open interval from 0.0 to 1.0:
    the contract of the generator. *)
Definition unit_interval (u : float64) : Prop :=
  valid u = true /\ (zero <=? u) = true /\ (u <? of_int 1) = true.

(** *** Package-level variables *)

Record Globals : Type := {
  resourceOverLoaded : bool;
  rng : Rand;
  shouldRandomize : bool
}.

(** The state in which the package starts: [shouldRandomize = true], the
    zero value for [resourceOverLoaded], and a freshly seeded generator. *)
Definition init (seeded : nat -> float64) : Globals :=
  {| resourceOverLoaded := false;
     rng := {| outputs := seeded; drawn := 0 |};
     shouldRandomize := true |}.

(** The two values of the sticky backoff flag. *)
Inductive Sticky : Type := UNLOCKED | LOCKED_REJECT.

Definition sticky (g : Globals) : Sticky :=
  if shouldRandomize g then UNLOCKED else LOCKED_REJECT.

(** One access to a package-level variable. *)
Inductive access : Type -> Type :=
| LoadResourceOverLoaded : access bool
| StoreResourceOverLoaded (b : bool) : access unit
| LoadShouldRandomize : access bool
| StoreShouldRandomize (b : bool) : access unit
| RngFloat64 : access float64.

Definition perform {X : Type} (a : access X) (g : Globals) : X * Globals :=
  match a in access T return T * Globals with
  | LoadResourceOverLoaded => (resourceOverLoaded g, g)
  | StoreResourceOverLoaded b =>
      (tt, {| resourceOverLoaded := b;
              rng := rng g;
              shouldRandomize := shouldRandomize g |})
  | LoadShouldRandomize => (shouldRandomize g, g)
  | StoreShouldRandomize b =>
      (tt, {| resourceOverLoaded := resourceOverLoaded g;
              rng := rng g;
              shouldRandomize := b |})
  | RngFloat64 =>
      let (u, r) := Float64 (rng g) in
      (u, {| resourceOverLoaded := resourceOverLoaded g;
             rng := r;
             shouldRandomize := shouldRandomize g |})
  end.

(** A handler body: a tree of accesses ending in its result. *)
Inductive Prog (A : Type) : Type :=
| Ret (a : A)
| Vis {X : Type} (e : access X) (k : X -> Prog A).
Arguments Ret {A} a.
Arguments Vis {A X} e k.

Fixpoint bind {A B : Type} (p : Prog A) (f : A -> Prog B) : Prog B :=
  match p with
  | Ret a => f a
  | Vis e k => Vis e (fun x => bind (k x) f)
  end.

Definition trigger {X : Type} (e : access X) : Prog X := Vis e Ret.

Notation "x <- p ;; q" := (bind p (fun x => q))
  (at level 100, p at next level, right associativity).
Notation "p ;; q" := (bind p (fun _ => q))
  (at level 100, right associativity).

(** One evaluation on its own: the accesses happen back to back. *)
Fixpoint run {A : Type} (p : Prog A) (g : Globals) : A * Globals :=
  match p with
  | Ret a => (a, g)
  | Vis e k => let (x, g') := perform e g in run (k x) g'
  end.

(** The number of accesses a run makes. *)
Fixpoint accesses {A : Type} (p : Prog A) (g : Globals) : nat :=
  match p with
  | Ret _ => O
  | Vis e k => let (x, g') := perform e g in S (accesses (k x) g')
  end.

(** Goroutines: one access of one of them at a time. *)
Definition step1 {A : Type} (p : Prog A) (g : Globals) : Prog A * Globals :=
  match p with
  | Ret a => (Ret a, g)
  | Vis e k => let (x, g') := perform e g in (k x, g')
  end.

Fixpoint interleave {A : Type} (schedule : list nat) (ps : list (Prog A))
    (g : Globals) : list (Prog A) * Globals :=
  match schedule with
  | [] => (ps, g)
  | i :: rest =>
      match ps !! i with
      | None => interleave rest ps g
      | Some p =>
          let (p', g') := step1 p g in
          interleave rest (<[ i := p' ]> ps) g'
      end
  end.

Definition returned {A : Type} (p : Prog A) : option A :=
  match p with
  | Ret a => Some a
  | Vis _ _ => None
  end.

(** *** The response of the health check *)

Inductive Message : Type :=
| MsgNotReady (container : string)
| MsgPodShortage (available replicas : Z) (podsRatio minimum : float64)
| MsgResourceExhausted (mem memThreshold cpu cpuThreshold : float64)
| MsgKeeping (mem cpu randomValue : float64)
| MsgHealthy (mem cpu podsRatio : float64).

Record DeploymentDetails : Type := {
  deployment_name : string;
  replicas : Z;
  available_replicas : Z;
  availability_percent : float64
}.

Record ContainerDetails : Type := {
  container_name : string;
  ready : bool;
  memory_usage_mb : Z;
  memory_limit_mb : Z;
  memory_percent : float64;
  cpu_usage_millicores : Z;
  cpu_limit_millicores : Z;
  cpu_percent : float64
}.

Record Details : Type := {
  deployment : DeploymentDetails;
  container : ContainerDetails;
  status : string;
  message : Message
}.

Inductive Body : Type :=
| Text (s : string)
| JSONDetails (d : Details)
| JSONResourceMetrics (m : metrics.ResourceMetrics).

Record Response : Type := {
  statusCode : Z;
  body : Body
}.

(** The status label a response carries, if it carries one. *)
Definition label (r : Response) : option string :=
  match body r with
  | JSONDetails d => Some (status d)
  | _ => None
  end.

Record HealthHandler : Type := {
  K8sClient : k8s.Client;
  MetricsCollector : metrics.MetricsCollector;
  Config : config.Config
}.

(** *** health.go *)

Definition calcPodsRatio (h : HealthHandler) (m : metrics.ResourceMetrics)
    : float64 :=
  if (metrics.DeploymentReplicas m <=? 0)%Z then zero
  else of_int (metrics.DeploymentAvailableReplicas m)
       / of_int (metrics.DeploymentReplicas m) * of_int 100.

Definition calcMemoryPercent (h : HealthHandler) (m : metrics.ResourceMetrics)
    : float64 :=
  if (metrics.ContainerMemLimit m <=? 0)%Z then zero
  else of_int (metrics.ContainerMemUsage m)
       / of_int (metrics.ContainerMemLimit m) * of_int 100.

Definition calcCPUPercent (h : HealthHandler) (m : metrics.ResourceMetrics)
    : float64 :=
  if (metrics.ContainerCPULimit m <=? 0)%Z then zero
  else of_int (metrics.ContainerCPUUsage m)
       / of_int (metrics.ContainerCPULimit m) * of_int 100.

Definition collectResourceMetrics (h : HealthHandler) (api : k8s.Cluster)
    : metrics.ResourceMetrics + error :=
  let m :=
    {| metrics.DeploymentReplicas := 0;
       metrics.DeploymentAvailableReplicas := 0;
       metrics.ContainerName := config.ContainerName (Config h);
       metrics.ContainerCPULimit := 0;
       metrics.ContainerMemLimit := 0;
       metrics.ContainerReady := false;
       metrics.ContainerCPUUsage := 0;
       metrics.ContainerMemUsage := 0 |} in
  let m :=
    match k8s.GetDeploymentInfo (K8sClient h) api with
    | Failure _ => m
    | Success None => m
    | Success (Some deploymentInfo) =>
        metrics.set_DeploymentAvailableReplicas
          (metrics.AvailableReplicas deploymentInfo)
          (metrics.set_DeploymentReplicas (metrics.Replicas deploymentInfo) m)
    end in
  match k8s.GetContainerLimits (K8sClient h) with
  | inr err => inr ("无法获取容器资源限制: " +:+ err)
  | inl containerLimits =>
      let m := metrics.set_ContainerCPULimit (metrics.CPULimit containerLimits) m in
      let m := metrics.set_ContainerMemLimit (metrics.MemLimit containerLimits) m in
      let m :=
        match k8s.GetPodInfo (K8sClient h) api with
        | Failure _ => m
        | Success None => m
        | Success (Some podInfo) =>
            match metrics.Containers podInfo with
            | None => m
            | Some _ =>
                match metrics.index (metrics.Containers podInfo)
                        (config.ContainerName (Config h)) with
                | None => m
                | Some container =>
                    metrics.set_ContainerReady (metrics.Ready container) m
                end
            end
        end in
      let m :=
        match metrics.GetPodMetrics (MetricsCollector h)
                (k8s.PodMetricses api) with
        | Failure _ => m
        | Success None => m
        | Success (Some podMetrics) =>
            match metrics.Containers podMetrics with
            | None => m
            | Some _ =>
                match metrics.index (metrics.Containers podMetrics)
                        (config.ContainerName (Config h)) with
                | None => m
                | Some container =>
                    metrics.set_ContainerMemUsage (metrics.MemUsage container)
                      (metrics.set_ContainerCPUUsage
                         (metrics.CPUUsage container) m)
                end
            end
        end in
      inl m
  end.

(** The [details] map before [status] and [message] are stored in it. *)
Definition details (h : HealthHandler) (resourceMetrics : metrics.ResourceMetrics)
    (status : string) (message : Message) : Details :=
  {| deployment :=
       {| deployment_name := config.DeploymentName (Config h);
          replicas := metrics.DeploymentReplicas resourceMetrics;
          available_replicas :=
            metrics.DeploymentAvailableReplicas resourceMetrics;
          availability_percent := calcPodsRatio h resourceMetrics |};
     container :=
       {| container_name := metrics.ContainerName resourceMetrics;
          ready := metrics.ContainerReady resourceMetrics;
          memory_usage_mb := metrics.ContainerMemUsage resourceMetrics;
          memory_limit_mb := metrics.ContainerMemLimit resourceMetrics;
          memory_percent := calcMemoryPercent h resourceMetrics;
          cpu_usage_millicores := metrics.ContainerCPUUsage resourceMetrics;
          cpu_limit_millicores := metrics.ContainerCPULimit resourceMetrics;
          cpu_percent := calcCPUPercent h resourceMetrics |};
     status := status;
     message := message |}.

(** [w.WriteHeader(statusCode)] followed by [h.writeJSONResponse(w, details)]. *)
Definition respond (statusCode : Z) (d : Details) : Response :=
  {| statusCode := statusCode; body := JSONDetails d |}.

(** The decision of [ServeHTTP] once the snapshot is collected (source
    lines 82 to 176). *)
Definition evaluate (h : HealthHandler) (resourceMetrics : metrics.ResourceMetrics)
    : Prog Response :=
  let status := "HEALTHY" in
  let statusCode := StatusOK in
  if negb (metrics.ContainerReady resourceMetrics) then
    let status := "NOT_READY" in
    let message := MsgNotReady (metrics.ContainerName resourceMetrics) in
    Ret (respond statusCode (details h resourceMetrics status message))
  else
  let podsRatio := calcPodsRatio h resourceMetrics in
  if podsRatio <? config.MinimumPodsToKeepPercent (Config h) then
    let status := "POD_SHORTAGE" in
    let message :=
      MsgPodShortage (metrics.DeploymentAvailableReplicas resourceMetrics)
        (metrics.DeploymentReplicas resourceMetrics) podsRatio
        (config.MinimumPodsToKeepPercent (Config h)) in
    Ret (respond statusCode (details h resourceMetrics status message))
  else
  let memUsagePercent := calcMemoryPercent h resourceMetrics in
  let cpuUsagePercent := calcCPUPercent h resourceMetrics in
  trigger (StoreResourceOverLoaded
    ((memUsagePercent >? config.ResourceThresholdMemoryPercent (Config h))
     && (cpuUsagePercent >? config.ResourceThresholdCPUPercent (Config h)))) ;;
  overLoaded <- trigger LoadResourceOverLoaded ;;
  if overLoaded then
    randomize <- trigger LoadShouldRandomize ;;
    if randomize then
      u <- trigger RngFloat64 ;;
      let randomValue := u * of_int 100 in
      if randomValue >? config.MinimumPodsToKeepPercent (Config h) then
        trigger (StoreShouldRandomize false) ;;
        let status := "RESOURCE_EXHAUSTED" in
        let statusCode := StatusBadRequest in
        let message :=
          MsgResourceExhausted
            memUsagePercent (config.ResourceThresholdMemoryPercent (Config h))
            cpuUsagePercent (config.ResourceThresholdCPUPercent (Config h)) in
        Ret (respond statusCode (details h resourceMetrics status message))
      else
        let status := "RESOURCE_OVERLOADED_BUT_KEEPING" in
        let message := MsgKeeping memUsagePercent cpuUsagePercent randomValue in
        Ret (respond statusCode (details h resourceMetrics status message))
    else
      let status := "RESOURCE_EXHAUSTED" in
      let statusCode := StatusBadRequest in
      let message :=
        MsgResourceExhausted
          memUsagePercent (config.ResourceThresholdMemoryPercent (Config h))
          cpuUsagePercent (config.ResourceThresholdCPUPercent (Config h)) in
      Ret (respond statusCode (details h resourceMetrics status message))
  else
    trigger (StoreShouldRandomize true) ;;
    let message := MsgHealthy memUsagePercent cpuUsagePercent podsRatio in
    Ret (respond statusCode (details h resourceMetrics status message)).

Definition HealthHandler_ServeHTTP (h : HealthHandler) (api : k8s.Cluster)
    : Prog Response :=
  match collectResourceMetrics h api with
  | inr err =>
      Ret {| statusCode := StatusServiceUnavailable;
             body := Text ("健康检查失败: 无法收集资源指标 - " +:+ err) |}
  | inl resourceMetrics => evaluate h resourceMetrics
  end.

(** *** metrics.go *)

Record MetricsHandler : Type := {
  MH_K8sClient : k8s.Client;
  MH_MetricsCollector : metrics.MetricsCollector;
  MH_Config : config.Config;
  MH_HealthHandler : HealthHandler
}.

(** On success the handler never calls [WriteHeader]: the first write of
    the encoder sends [StatusOK]. *)
Definition MetricsHandler_ServeHTTP (h : MetricsHandler) (api : k8s.Cluster)
    : Prog Response :=
  match collectResourceMetrics (MH_HealthHandler h) api with
  | inr err =>
      Ret {| statusCode := StatusServiceUnavailable;
             body := Text ("Failed to collect metrics: " +:+ err) |}
  | inl metrics =>
      Ret {| statusCode := StatusOK; body := JSONResourceMetrics metrics |}
  end.

(** *** Constructors *)

Definition NewHealthHandler (k8sClient : k8s.Client)
    (metricsCollector : metrics.MetricsCollector) (cfg : config.Config)
    : HealthHandler :=
  {| K8sClient := k8sClient;
     MetricsCollector := metricsCollector;
     Config := cfg |}.

Definition NewMetricsHandler (k8sClient : k8s.Client)
    (metricsCollector : metrics.MetricsCollector) (cfg : config.Config)
    (healthHandler : HealthHandler) : MetricsHandler :=
  {| MH_K8sClient := k8sClient;
     MH_MetricsCollector := metricsCollector;
     MH_Config := cfg;
     MH_HealthHandler := healthHandler |}.

(** *** The health check before the random backoff

    The revision of [ServeHTTP] that precedes the random backoff: the
    same guards, and a refusal whenever both resources are above their
    thresholds.  It uses no package-level variable. *)
Definition evaluate_without_backoff (h : HealthHandler)
    (metrics : metrics.ResourceMetrics) : Response :=
  let status := "HEALTHY" in
  let statusCode := StatusOK in
  if negb (metrics.ContainerReady metrics) then
    let status := "NOT_READY" in
    let message := MsgNotReady (metrics.ContainerName metrics) in
    respond statusCode (details h metrics status message)
  else
  let podsRatio := calcPodsRatio h metrics in
  if podsRatio <? config.MinimumPodsToKeepPercent (Config h) then
    let status := "POD_SHORTAGE" in
    let message :=
      MsgPodShortage (metrics.DeploymentAvailableReplicas metrics)
        (metrics.DeploymentReplicas metrics) podsRatio
        (config.MinimumPodsToKeepPercent (Config h)) in
    respond statusCode (details h metrics status message)
  else
  let memUsagePercent := calcMemoryPercent h metrics in
  let cpuUsagePercent := calcCPUPercent h metrics in
  if (memUsagePercent >? config.ResourceThresholdMemoryPercent (Config h))
     && (cpuUsagePercent >? config.ResourceThresholdCPUPercent (Config h))
  then
    let status := "RESOURCE_EXHAUSTED" in
    let statusCode := StatusBadRequest in
    let message :=
      MsgResourceExhausted
        memUsagePercent (config.ResourceThresholdMemoryPercent (Config h))
        cpuUsagePercent (config.ResourceThresholdCPUPercent (Config h)) in
    respond statusCode (details h metrics status message)
  else
    let message := MsgHealthy memUsagePercent cpuUsagePercent podsRatio in
    respond statusCode (details h metrics status message).

End handlers.

(** ** Specification-side vocabulary *)

Import handlers.

(** The overload condition of a snapshot: the value line 122 of the health
    check stores in [resourceOverLoaded]. *)
Definition overloaded (h : HealthHandler) (m : metrics.ResourceMetrics) : bool :=
  F64.gtb (calcMemoryPercent h m)
          (config.ResourceThresholdMemoryPercent (Config h))
  && F64.gtb (calcCPUPercent h m)
             (config.ResourceThresholdCPUPercent (Config h)).

(** An evaluation reaches the overload test when neither guard answers
    first. *)
Definition reaches_overload_test (h : HealthHandler)
    (m : metrics.ResourceMetrics) : bool :=
  metrics.ContainerReady m
  && negb (F64.ltb (calcPodsRatio h m)
                   (config.MinimumPodsToKeepPercent (Config h))).

(** The probe is accepted exactly when it is answered with the success
    code. *)
Definition accept (r : Response) : bool := (statusCode r =? StatusOK)%Z.

(** The [accept] flag the decision list of the specification gives to each
    status label. *)
Definition verdict_accept (statusLabel : string) : bool :=
  negb (String.eqb statusLabel "RESOURCE_EXHAUSTED").

(** What the specification asks of a ratio calculator: exactly 0.0 when
    the denominator is at most zero; otherwise a division by a finite
    number other than zero and the value numerator / denominator * 100
    as it is; and never a NaN. *)
Definition ratio_contract (numerator denominator : Z) (result : float64)
    : Prop :=
  (denominator <= 0 -> result = F64.zero)
  /\ (0 < denominator ->
        F64.is_zero (F64.of_int denominator) = false
        /\ result
           = F64.mul (F64.div (F64.of_int numerator) (F64.of_int denominator))
                     (F64.of_int 100))
  /\ F64.is_nan result = false.

(** A snapshot whose fields fit their Go types. *)
Record well_typed (m : metrics.ResourceMetrics) : Prop := {
  wt_replicas : int32_range (metrics.DeploymentReplicas m);
  wt_available : int32_range (metrics.DeploymentAvailableReplicas m);
  wt_cpu_limit : int64_range (metrics.ContainerCPULimit m);
  wt_mem_limit : int64_range (metrics.ContainerMemLimit m);
  wt_cpu_usage : int64_range (metrics.ContainerCPUUsage m);
  wt_mem_usage : int64_range (metrics.ContainerMemUsage m)
}.

(** Serving a sequence of health checks one after the other. *)
Fixpoint serve_all (h : HealthHandler) (ms : list metrics.ResourceMetrics)
    (g : Globals) : list Response * Globals :=
  match ms with
  | [] => ([], g)
  | m :: rest =>
      let (r, g') := run (evaluate h m) g in
      let (rs, g'') := serve_all h rest g' in
      (r :: rs, g'')
  end.

(** Goroutines served one at a time, each to its end before the next
    starts: what a lock around the decision would enforce. *)
Fixpoint serially {A : Type} (ps : list (Prog A)) (g : Globals)
    : list A * Globals :=
  match ps with
  | [] => ([], g)
  | p :: rest =>
      let (a, g') := run p g in
      let (rest', g'') := serially rest g' in
      (a :: rest', g'')
  end.

(** The results of the goroutines that have returned. *)
Definition results {A : Type} (ps : list (Prog A)) : list (option A) :=
  map returned ps.

(** ** The scenarios of the test plan

    Limits of 1000 millicores and 1000 MB, thresholds of 80 percent for CPU
    and memory, and a minimum of 50 percent of available pods: the
    configuration of [health_test.go]. *)

Module scenario.

Definition cfg : config.Config :=
  {| config.KubeconfigPath := "";
     config.InClusterConfig := true;
     config.Namespace := "test-sp";
     config.DeploymentName := "aliexpress";
     config.ContainerName := "aliexpress";
     config.PodName := "aliexpress-6c7687ddb-gh5mb";
     config.ResourceThresholdMemoryPercent := F64.of_int 80;
     config.ResourceThresholdCPUPercent := F64.of_int 80;
     config.MinimumPodsToKeepPercent := F64.of_int 50;
     config.HttpPort := "8333" |}.

Definition limits : metrics.ContainerLimits :=
  {| metrics.CPULimit := 1000; metrics.MemLimit := 1000 |}.

Definition handler : HealthHandler :=
  {| K8sClient := {| k8s.Config := cfg; k8s.ContainerLimits := Some limits |};
     MetricsCollector := {| metrics.Config := cfg |};
     Config := cfg |}.

(** The same handler over a client whose limits were never stored. *)
Definition handler_without_limits : HealthHandler :=
  {| K8sClient := {| k8s.Config := cfg; k8s.ContainerLimits := None |};
     MetricsCollector := {| metrics.Config := cfg |};
     Config := cfg |}.

Definition snapshot (ready : bool) (replicas available cpu mem : Z)
    : metrics.ResourceMetrics :=
  {| metrics.DeploymentReplicas := replicas;
     metrics.DeploymentAvailableReplicas := available;
     metrics.ContainerName := "aliexpress";
     metrics.ContainerCPULimit := 1000;
     metrics.ContainerMemLimit := 1000;
     metrics.ContainerReady := ready;
     metrics.ContainerCPUUsage := cpu;
     metrics.ContainerMemUsage := mem |}.

(** Half of both limits in use, all replicas available. *)
Definition calm : metrics.ResourceMetrics := snapshot true 10 10 500 500.

(** Nine tenths of both limits in use, all replicas available. *)
Definition hot : metrics.ResourceMetrics := snapshot true 10 10 900 900.

(** Only the CPU above its threshold. *)
Definition cpu_only : metrics.ResourceMetrics := snapshot true 10 10 900 500.

(** Both resources exactly at their thresholds. *)
Definition at_threshold : metrics.ResourceMetrics := snapshot true 10 10 800 800.

(** The hot snapshot with two replicas of ten available. *)
Definition hot_and_thin : metrics.ResourceMetrics := snapshot true 10 2 900 900.

(** The hot snapshot with a container that is not ready. *)
Definition hot_not_ready : metrics.ResourceMetrics :=
  snapshot false 10 10 900 900.

(** Outputs of the generator: one quarter and three quarters, which the
    handler scales to 25 and 75. *)
Definition quarter : float64 := F64.div (F64.of_int 1) (F64.of_int 4).
Definition three_quarters : float64 := F64.div (F64.of_int 3) (F64.of_int 4).

(** A generator that answers [first] and then [next] for ever. *)
Definition answers (first next : float64) (n : nat) : float64 :=
  match n with
  | O => first
  | S _ => next
  end.

Definition unlocked (first next : float64) : Globals :=
  init (answers first next).

Definition locked (first next : float64) : Globals :=
  {| resourceOverLoaded := true;
     rng := {| outputs := answers first next; drawn := 0 |};
     shouldRandomize := false |}.

(** A cluster in which the pod is ready and hot, and the deployment
    answers or not. *)
Definition pod : k8s.Pod :=
  {| k8s.PodName := "aliexpress-6c7687ddb-gh5mb";
     k8s.PodNamespace := "test-sp";
     k8s.ContainerStatuses :=
       [ {| k8s.StatusName := "istio-proxy"; k8s.StatusReady := true |};
         {| k8s.StatusName := "aliexpress"; k8s.StatusReady := true |} ] |}.

Definition usage : list metrics.ContainerUsage :=
  [ {| metrics.UsageName := "aliexpress";
       metrics.CpuMilliValue := 900;
       metrics.MemoryValue := 900 * 1024 * 1024 |} ].

Definition cluster : k8s.Cluster :=
  {| k8s.Deployments :=
       inr {| k8s.DeployName := "aliexpress";
              k8s.DeployNamespace := "test-sp";
              k8s.StatusReplicas := 10;
              k8s.StatusAvailableReplicas := 10 |};
     k8s.Pods := inr pod;
     k8s.PodMetricses := inr usage |}.

Definition cluster_without_deployment : k8s.Cluster :=
  {| k8s.Deployments := inl "context deadline exceeded";
     k8s.Pods := inr pod;
     k8s.PodMetricses := inr usage |}.

End scenario.

(** ** Vocabulary of the further properties *)

(** The last element of a list that satisfies a test: what a loop that
    stores every match under one key leaves under that key. *)
Definition last_match {A : Type} (f : A -> bool) (l : list A) : option A :=
  last (List.filter f l).

(** The last container status that bears the configured name. *)
Definition last_status (cfg : config.Config) (statuses : list k8s.ContainerStatus)
    : option k8s.ContainerStatus :=
  last_match (fun s => String.eqb (k8s.StatusName s) (config.ContainerName cfg))
             statuses.

(** The last usage record that bears the configured name. *)
Definition last_usage (cfg : config.Config) (usages : list metrics.ContainerUsage)
    : option metrics.ContainerUsage :=
  last_match (fun u => String.eqb (metrics.UsageName u) (config.ContainerName cfg))
             usages.

(** A handler wired as [main] wires it: the client, the collector and the
    handler share one configuration. *)
Definition wired (h : HealthHandler) : Prop :=
  k8s.Config (K8sClient h) = Config h
  /\ metrics.Config (MetricsCollector h) = Config h.

(** The snapshot a request should collect from a cluster, field by
    field: what the cluster reports for the deployment and for the last
    listed container of the configured name, the cached limits, and the
    zero value for whatever the cluster fails to report. *)
Definition snapshot_of (cfg : config.Config) (limits : metrics.ContainerLimits)
    (api : k8s.Cluster) : metrics.ResourceMetrics :=
  {| metrics.DeploymentReplicas :=
       match k8s.Deployments api with
       | inr d => k8s.StatusReplicas d
       | inl _ => 0
       end;
     metrics.DeploymentAvailableReplicas :=
       match k8s.Deployments api with
       | inr d => k8s.StatusAvailableReplicas d
       | inl _ => 0
       end;
     metrics.ContainerName := config.ContainerName cfg;
     metrics.ContainerCPULimit := metrics.CPULimit limits;
     metrics.ContainerMemLimit := metrics.MemLimit limits;
     metrics.ContainerReady :=
       match k8s.Pods api with
       | inr pod =>
           match last_status cfg (k8s.ContainerStatuses pod) with
           | Some s => k8s.StatusReady s
           | None => false
           end
       | inl _ => false
       end;
     metrics.ContainerCPUUsage :=
       match k8s.PodMetricses api with
       | inr usages =>
           match last_usage cfg usages with
           | Some u => metrics.CpuMilliValue u
           | None => 0
           end
       | inl _ => 0
       end;
     metrics.ContainerMemUsage :=
       match k8s.PodMetricses api with
       | inr usages =>
           match last_usage cfg usages with
           | Some u => Z.quot (metrics.MemoryValue u) (1024 * 1024)
           | None => 0
           end
       | inl _ => 0
       end |}.

(** The first container of a deployment that bears the configured name
    and declares valid limits: a positive CPU limit and a memory limit of
    at least one mebibyte. *)
Definition is_valid_spec (cfg : config.Config) (c : k8s.ContainerSpec) : bool :=
  String.eqb (k8s.SpecName c) (config.ContainerName cfg)
  && (0 <? k8s.LimitsCpuMilliValue c)
  && (1024 * 1024 <=? k8s.LimitsMemoryValue c).

Definition limits_of (c : k8s.ContainerSpec) : metrics.ContainerLimits :=
  {| metrics.CPULimit := k8s.LimitsCpuMilliValue c;
     metrics.MemLimit := Z.quot (k8s.LimitsMemoryValue c) (1024 * 1024) |}.

(** The limits a single answer of the cluster yields, if any. *)
Definition answer_limits (cfg : config.Config)
    (answer : error + list k8s.ContainerSpec) : option metrics.ContainerLimits :=
  match answer with
  | inl _ => None
  | inr containers => limits_of <$> List.find (is_valid_spec cfg) containers
  end.

(** The scenario at start-up: a deployment whose template holds a
    sidecar without limits and the monitored container with limits of
    one core and 1000 MiB, read at the third attempt after two
    failures. *)
Module startup.

Definition template : list k8s.ContainerSpec :=
  [ {| k8s.SpecName := "metrics-sidecar";
       k8s.LimitsCpuMilliValue := 0;
       k8s.LimitsMemoryValue := 0 |};
    {| k8s.SpecName := "aliexpress";
       k8s.LimitsCpuMilliValue := 1000;
       k8s.LimitsMemoryValue := 1000 * 1024 * 1024 |} ].

(** The monitored container with a memory limit of 512 KiB. *)
Definition tiny_template : list k8s.ContainerSpec :=
  [ {| k8s.SpecName := "aliexpress";
       k8s.LimitsCpuMilliValue := 1000;
       k8s.LimitsMemoryValue := 512 * 1024 |} ].

Definition third_time_lucky (i : nat) : error + list k8s.ContainerSpec :=
  match i with
  | 0%nat | 1%nat => inl "connection refused"
  | _ => inr template
  end.

Definition always_tiny (i : nat) : error + list k8s.ContainerSpec :=
  inr tiny_template.

(** The configuration of the scenario with a threshold that is not a
    number, as [ParseFloat] returns for the text NaN. *)
Definition nan_cpu_threshold : config.Config :=
  {| config.KubeconfigPath := "";
     config.InClusterConfig := true;
     config.Namespace := "test-sp";
     config.DeploymentName := "aliexpress";
     config.ContainerName := "aliexpress";
     config.PodName := "aliexpress-6c7687ddb-gh5mb";
     config.ResourceThresholdMemoryPercent := F64.of_int 80;
     config.ResourceThresholdCPUPercent := S754_nan;
     config.MinimumPodsToKeepPercent := F64.of_int 50;
     config.HttpPort := "8333" |}.

Definition nan_minimum : config.Config :=
  {| config.KubeconfigPath := "";
     config.InClusterConfig := true;
     config.Namespace := "test-sp";
     config.DeploymentName := "aliexpress";
     config.ContainerName := "aliexpress";
     config.PodName := "aliexpress-6c7687ddb-gh5mb";
     config.ResourceThresholdMemoryPercent := F64.of_int 80;
     config.ResourceThresholdCPUPercent := F64.of_int 80;
     config.MinimumPodsToKeepPercent := S754_nan;
     config.HttpPort := "8333" |}.

(** The cluster of the scenario when the pod, or the metrics API, does
    not answer. *)
Definition cluster_without_pod : k8s.Cluster :=
  {| k8s.Deployments := k8s.Deployments scenario.cluster;
     k8s.Pods := inl "context deadline exceeded";
     k8s.PodMetricses := inr scenario.usage |}.

Definition cluster_without_metrics : k8s.Cluster :=
  {| k8s.Deployments := k8s.Deployments scenario.cluster;
     k8s.Pods := inr scenario.pod;
     k8s.PodMetricses := inl "the server is currently unable to handle the request" |}.

Definition metrics_handler : MetricsHandler :=
  NewMetricsHandler (K8sClient scenario.handler)
    (MetricsCollector scenario.handler) scenario.cfg scenario.handler.

Definition boot (get : nat -> error + list k8s.ContainerSpec) : k8s.Bootstrap :=
  {| k8s.InClusterConfig := None;
     k8s.BuildConfigFromFlags := fun _ => None;
     k8s.KubernetesNewForConfig := None;
     k8s.MetricsNewForConfig := None;
     k8s.DeploymentsGet := get |}.

End startup.

(** *** Goroutines that agree on the overload test

    The stages of a goroutine that reaches the overload test, when every
    goroutine stores the same value [b] in [resourceOverLoaded]: it
    stores [b], loads it back, then releases the flag ([b = false]) or
    loads the flag and finds it locked ([b = true]), and answers.  [good]
    is what its answer has to satisfy. *)
Definition answered (good : Response -> Prop) (p : Prog Response) : Prop :=
  exists r : Response, p = Ret r /\ good r.

Definition deciding (b : bool) (good : Response -> Prop) (p : Prog Response)
    : Prop :=
  if b then
    exists k, p = Vis LoadShouldRandomize k /\ answered good (k false)
  else
    exists k, p = Vis (StoreShouldRandomize true) k /\ answered good (k tt).

Definition testing (b : bool) (good : Response -> Prop) (p : Prog Response)
    : Prop :=
  exists k, p = Vis LoadResourceOverLoaded k /\ deciding b good (k b).

Definition storing (b : bool) (good : Response -> Prop) (p : Prog Response)
    : Prop :=
  exists k, p = Vis (StoreResourceOverLoaded b) k /\ testing b good (k tt).

(** A goroutine with [n] accesses left to make.  One that is about to
    load [resourceOverLoaded] relies on the variable holding [b]. *)
Definition stage (b : bool) (good : Response -> Prop) (n : nat)
    (p : Prog Response) (g : Globals) : Prop :=
  match n with
  | 0%nat => answered good p
  | 1%nat => deciding b good p
  | 2%nat => testing b good p /\ resourceOverLoaded g = b
  | 3%nat => storing b good p
  | _ => False
  end.

(** Overloaded goroutines agree only while the flag is locked. *)
Definition locked_if (b : bool) (g : Globals) : Prop :=
  b = true -> shouldRandomize g = false.

(** The answer a snapshot gets when it is served alone from any state
    that is locked if [b] is [true]. *)
Definition served_alone (h : HealthHandler) (b : bool)
    (m : metrics.ResourceMetrics) (r : Response) : Prop :=
  forall g : Globals, locked_if b g -> r = fst (run (evaluate h m) g).

(** A snapshot agrees with the value [b] when a guard answers it or its
    overload condition is [b]. *)
Definition agrees (h : HealthHandler) (b : bool) (m : metrics.ResourceMetrics)
    : bool :=
  negb (reaches_overload_test h m) || Bool.eqb (overloaded h m) b.

(** *** A sustained overload

    The number of health checks, out of [n] served in a row from draw
    [i] of the generator, that are answered before the first draw which,
    scaled by 100, is above the minimum. *)
Fixpoint kept (h : HealthHandler) (outputs : nat -> float64) (i n : nat) : nat :=
  match n with
  | O => O
  | S n' =>
      if F64.gtb (F64.mul (outputs i) (F64.of_int 100))
                 (config.MinimumPodsToKeepPercent (Config h))
      then O
      else S (kept h outputs (S i) n')
  end.

(** * Properties *)

(** ** IEEE comparisons *)

Lemma SFcompare_antisym (x y : spec_float) :
  SFcompare y x = option_map CompOpp (SFcompare x y).
Proof.
  destruct x as [sx | sx | | sx mx ex], y as [sy | sy | | sy my ey];
    simpl; try reflexivity;
    try (destruct sx; reflexivity); try (destruct sy; reflexivity);
    try (destruct sx, sy; reflexivity).
  change (PosDef.Pos.compare_cont Eq) with Pos.compare.
  rewrite (Z.compare_antisym ex ey), (Pos.compare_antisym mx my).
  destruct sx, sy; simpl; try reflexivity;
    destruct (ex ?= ey)%Z; simpl; try reflexivity;
    destruct (mx ?= my)%positive; reflexivity.
Qed.

Lemma leb_not_gtb (x y : float64) :
  F64.leb x y = true -> F64.gtb x y = false.
Proof.
  unfold F64.leb, F64.gtb, SFleb, SFltb.
  rewrite (SFcompare_antisym x y).
  destruct (SFcompare x y) as [[ | | ] | ]; simpl; congruence.
Qed.

Lemma geb_not_ltb (x y : float64) :
  F64.geb x y = true -> F64.ltb x y = false.
Proof.
  unfold F64.geb, F64.ltb, SFleb, SFltb.
  rewrite (SFcompare_antisym x y).
  destruct (SFcompare x y) as [[ | | ] | ]; simpl; congruence.
Qed.

Lemma gtb_irrefl (x : float64) : F64.gtb x x = false.
Proof.
  unfold F64.gtb, SFltb.
  pose proof (SFcompare_antisym x x) as H.
  destruct (SFcompare x x) as [[ | | ] | ]; simpl in *; congruence.
Qed.


(** ** IEEE rounding

    Facts about the rounding of [SpecFloat] that the ratio calculators
    need: a mantissa that is not negative never rounds to a NaN, and an
    integer of the [int64] range converts to a finite number. *)

Lemma iter_pos_preserves {A : Type} (P : A -> Prop) (f : A -> A) :
  (forall x, P x -> P (f x)) ->
  forall (n : positive) (x : A), P x -> P (SpecFloat.iter_pos f n x).
Proof.
  intros Hf. induction n as [n IH | n IH | ]; intros x Hx; simpl; auto.
Qed.

Lemma shr_1_div2 (r : shr_record) :
  0 <= shr_m r -> shr_m (shr_1 r) = shr_m r / 2.
Proof.
  destruct r as [m rb sb]. simpl. intros Hm.
  rewrite <- Z.div2_div.
  destruct m as [ | p | p ]; [ reflexivity | | lia ].
  destruct p; reflexivity.
Qed.

Lemma shr_1_nonneg (r : shr_record) : 0 <= shr_m r -> 0 <= shr_m (shr_1 r).
Proof.
  intros Hm. rewrite shr_1_div2 by exact Hm. apply Z.div_pos; lia.
Qed.

Lemma shr_m_iter (n : positive) :
  forall r : shr_record,
  0 <= shr_m r -> shr_m (SpecFloat.iter_pos shr_1 n r) = shr_m r / 2 ^ Zpos n.
Proof.
  induction n as [n IH | n IH | ]; intros r Hr.
  - change (SpecFloat.iter_pos shr_1 n~1 r)
      with (SpecFloat.iter_pos shr_1 n (SpecFloat.iter_pos shr_1 n (shr_1 r))).
    assert (H1 : 0 <= shr_m (shr_1 r)) by (apply shr_1_nonneg; exact Hr).
    assert (H2 : 0 <= shr_m (SpecFloat.iter_pos shr_1 n (shr_1 r)))
      by (apply iter_pos_preserves; [ apply shr_1_nonneg | exact H1 ]).
    rewrite (IH _ H2), (IH _ H1), (shr_1_div2 r Hr).
    rewrite !Z.div_div by lia.
    replace (Zpos n~1) with (1 + Zpos n + Zpos n) by lia.
    rewrite !Z.pow_add_r by lia. f_equal. lia.
  - change (SpecFloat.iter_pos shr_1 n~0 r)
      with (SpecFloat.iter_pos shr_1 n (SpecFloat.iter_pos shr_1 n r)).
    assert (H2 : 0 <= shr_m (SpecFloat.iter_pos shr_1 n r))
      by (apply iter_pos_preserves; [ apply shr_1_nonneg | exact Hr ]).
    rewrite (IH _ H2), (IH _ Hr).
    rewrite Z.div_div by lia.
    replace (Zpos n~0) with (Zpos n + Zpos n) by lia.
    rewrite Z.pow_add_r by lia. reflexivity.
  - change (SpecFloat.iter_pos shr_1 1 r) with (shr_1 r).
    rewrite (shr_1_div2 r Hr). reflexivity.
Qed.

Lemma shr_record_of_loc_m (m : Z) (l : location) :
  shr_m (shr_record_of_loc m l) = m.
Proof. destruct l as [ | [ | | ] ]; reflexivity. Qed.

Lemma round_nearest_even_bounds (m : Z) (l : location) :
  m <= round_nearest_even m l <= m + 1.
Proof.
  destruct l as [ | [ | | ] ]; simpl; try lia.
  destruct (Z.even m); lia.
Qed.

(** What [shr_fexp] does to a mantissa that is not negative. *)
Lemma shr_fexp_spec (prec emax m e : Z) (l : location) :
  0 <= m ->
  let n := Z.max (fexp prec emax (Zdigits2 m + e) - e) 0 in
  shr_m (fst (shr_fexp prec emax m e l)) = m / 2 ^ n
  /\ snd (shr_fexp prec emax m e l) = e + n.
Proof.
  intros Hm n. subst n. unfold shr_fexp, shr.
  destruct (fexp prec emax (Zdigits2 m + e) - e) as [ | p | p ]; simpl.
  - rewrite shr_record_of_loc_m, Z.div_1_r. lia.
  - rewrite shr_m_iter by (rewrite shr_record_of_loc_m; exact Hm).
    rewrite shr_record_of_loc_m. split; [ reflexivity | lia ].
  - rewrite shr_record_of_loc_m, Z.div_1_r. lia.
Qed.

Lemma binary_round_aux_not_nan (prec emax : Z) (sx : bool) (mx ex : Z)
    (lx : location) :
  0 <= mx -> binary_round_aux prec emax sx mx ex lx <> S754_nan.
Proof.
  intros Hm. unfold binary_round_aux.
  destruct (shr_fexp prec emax mx ex lx) as [mrs' e'] eqn:H1.
  destruct (shr_fexp_spec prec emax mx ex lx Hm) as [Hm1 _].
  rewrite H1 in Hm1. simpl in Hm1.
  assert (H1' : 0 <= shr_m mrs') by (rewrite Hm1; apply Z.div_pos; lia).
  pose proof (round_nearest_even_bounds (shr_m mrs') (loc_of_shr_record mrs'))
    as Hround.
  set (m1 := round_nearest_even (shr_m mrs') (loc_of_shr_record mrs')) in *.
  assert (Hm1' : 0 <= m1) by lia.
  destruct (shr_fexp prec emax m1 e' loc_Exact) as [mrs'' e''] eqn:H2.
  destruct (shr_fexp_spec prec emax m1 e' loc_Exact Hm1') as [Hm2 _].
  rewrite H2 in Hm2. simpl in Hm2.
  assert (H2' : 0 <= shr_m mrs'') by (rewrite Hm2; apply Z.div_pos; lia).
  destruct (shr_m mrs'') as [ | p | p ]; [ discriminate | | lia ].
  destruct (e'' <=? emax - prec); discriminate.
Qed.

Lemma digits2_pos_size (p : positive) : digits2_pos p = Pos.size p.
Proof. induction p as [p IH | p IH | ]; simpl; congruence. Qed.

Lemma digits2_pos_bounds (p : positive) :
  2 ^ (Zpos (digits2_pos p) - 1) <= Zpos p < 2 ^ Zpos (digits2_pos p).
Proof.
  rewrite digits2_pos_size.
  pose proof (Pos.size_gt p) as Hgt. pose proof (Pos.size_le p) as Hle.
  apply Pos2Z.pos_lt_pos in Hgt. apply Pos2Z.pos_le_pos in Hle.
  rewrite Pos2Z.inj_pow in Hgt, Hle.
  replace (Zpos (Pos.size p)) with (1 + (Zpos (Pos.size p) - 1)) in Hle by lia.
  rewrite Z.pow_add_r in Hle by lia.
  split; [ | exact Hgt ]. change (Zpos p~0) with (2 * Zpos p) in Hle. lia.
Qed.

(** A mantissa below [2 ^ k] has at most [k] digits. *)
Lemma digits2_pos_le (p : positive) (k : Z) :
  Zpos p < 2 ^ k -> Zpos (digits2_pos p) <= k.
Proof.
  intros Hp. destruct (digits2_pos_bounds p) as [Hlo _].
  assert (Hk : 0 <= k).
  { destruct (Z.lt_ge_cases k 0) as [Hneg | ]; [ | assumption ].
    rewrite Z.pow_neg_r in Hp by assumption. lia. }
  assert (H : 2 ^ (Zpos (digits2_pos p) - 1) < 2 ^ k) by lia.
  apply Z.pow_lt_mono_r_iff in H; lia.
Qed.

Lemma fexp_binary64 (x : Z) : fexp 53 1024 x = Z.max (x - 53) (-1074).
Proof. reflexivity. Qed.

(** Dividing a mantissa of [d] digits by [2 ^ n] with [n < d] leaves a
    positive mantissa. *)
Lemma shifted_mantissa_positive (p : positive) (n : Z) :
  0 <= n <= Zpos (digits2_pos p) - 1 ->
  1 <= Zpos p / 2 ^ n <= Zpos p.
Proof.
  intros Hn. destruct (digits2_pos_bounds p) as [Hlo _].
  assert (Hpow : 2 ^ n <= 2 ^ (Zpos (digits2_pos p) - 1))
    by (apply Z.pow_le_mono_r; lia).
  assert (Hpos : 0 < 2 ^ n) by (apply Z.pow_pos_nonneg; lia).
  split.
  - apply Z.div_le_lower_bound; lia.
  - apply Z.div_le_upper_bound; [ lia | nia ].
Qed.

Lemma binary_round_aux_finite (sx : bool) (p : positive) (e : Z)
    (l : location) :
  Zpos (digits2_pos p) <= 200 ->
  -200 <= e <= 200 ->
  exists (m' : positive) (e' : Z),
    binary_round_aux 53 1024 sx (Zpos p) e l = S754_finite sx m' e'.
Proof.
  intros Hd He. unfold binary_round_aux.
  destruct (shr_fexp_spec 53 1024 (Zpos p) e l ltac:(lia)) as [Hm1 He1].
  destruct (shr_fexp 53 1024 (Zpos p) e l) as [mrs' e1]. simpl in Hm1, He1.
  rewrite fexp_binary64 in Hm1, He1. simpl Zdigits2 in Hm1, He1.
  set (n1 := Z.max (Z.max (Zpos (digits2_pos p) + e - 53) (-1074) - e) 0) in *.
  destruct (shifted_mantissa_positive p n1 ltac:(lia)) as [Hlo1 Hhi1].
  rewrite <- Hm1 in Hlo1, Hhi1.
  pose proof (round_nearest_even_bounds (shr_m mrs') (loc_of_shr_record mrs'))
    as Hround.
  destruct (round_nearest_even (shr_m mrs') (loc_of_shr_record mrs'))
    as [ | p1 | p1 ]; [ lia | | lia ].
  destruct (digits2_pos_bounds p) as [_ Hp].
  assert (Hd1 : Zpos (digits2_pos p1) <= Zpos (digits2_pos p) + 1).
  { apply digits2_pos_le. rewrite Z.pow_add_r by lia. lia. }
  destruct (shr_fexp_spec 53 1024 (Zpos p1) e1 loc_Exact ltac:(lia))
    as [Hm2 He2].
  destruct (shr_fexp 53 1024 (Zpos p1) e1 loc_Exact) as [mrs'' e2].
  simpl in Hm2, He2. rewrite fexp_binary64 in Hm2, He2.
  simpl Zdigits2 in Hm2, He2.
  set (n2 := Z.max (Z.max (Zpos (digits2_pos p1) + e1 - 53) (-1074) - e1) 0)
    in *.
  destruct (shifted_mantissa_positive p1 n2 ltac:(lia)) as [Hlo2 _].
  rewrite <- Hm2 in Hlo2.
  destruct (shr_m mrs'') as [ | p2 | p2 ]; [ lia | | lia ].
  replace (e2 <=? 1024 - 53) with true by (symmetry; apply Z.leb_le; lia).
  eauto.
Qed.

Lemma digits2_pos_iter_xO (p k : positive) :
  Zpos (digits2_pos (Pos.iter xO p k)) = Zpos (digits2_pos p) + Zpos k.
Proof.
  induction k as [ | k IH ] using Pos.peano_ind.
  - simpl. lia.
  - rewrite Pos.iter_succ. simpl digits2_pos. lia.
Qed.

Lemma binary_round_int_finite (sx : bool) (p : positive) :
  Zpos p <= 2 ^ 63 ->
  exists (m : positive) (e : Z),
    binary_round 53 1024 sx p 0 = S754_finite sx m e.
Proof.
  intros Hp. unfold binary_round. rewrite fexp_binary64.
  assert (Hd : Zpos (digits2_pos p) <= 64) by (apply digits2_pos_le; lia).
  unfold shl_align.
  destruct (Z.max (Zpos (digits2_pos p) + 0 - 53) (-1074) - 0)
    as [ | k | k ] eqn:Hk.
  - apply binary_round_aux_finite; lia.
  - apply binary_round_aux_finite; lia.
  - apply binary_round_aux_finite.
    + rewrite digits2_pos_iter_xO. lia.
    + lia.
Qed.

Lemma of_int_finite (z : Z) :
  z <> 0 -> - 2 ^ 63 <= z <= 2 ^ 63 ->
  exists (m : positive) (e : Z), F64.of_int z = S754_finite (z <? 0) m e.
Proof.
  intros Hz Hr. unfold F64.of_int. destruct z as [ | p | p ]; [ congruence | | ].
  - apply binary_round_int_finite. lia.
  - apply binary_round_int_finite. lia.
Qed.

Lemma SFdiv_core_binary_nonneg (prec emax : Z) (mx my : positive) (ex ey : Z) :
  0 <= fst (fst (SFdiv_core_binary prec emax (Zpos mx) ex (Zpos my) ey)).
Proof.
  unfold SFdiv_core_binary.
  set (s := ex - ey - _).
  set (m' := match s with Z0 => Zpos mx | Zpos _ => Z.shiftl (Zpos mx) s
                        | Zneg _ => 0 end).
  assert (Hm : 0 <= m').
  { subst m'. destruct s; try lia. apply Z.shiftl_nonneg. lia. }
  pose proof (Z.div_pos m' (Zpos my) Hm ltac:(lia)) as Hq.
  unfold Z.div in Hq. destruct (Z.div_eucl m' (Zpos my)) as [q r].
  exact Hq.
Qed.

Lemma SFdiv_not_nan (x y : spec_float) (sy : bool) (my : positive) (ey : Z) :
  y = S754_finite sy my ey ->
  (exists s, x = S754_zero s) \/ (exists s m e, x = S754_finite s m e) ->
  SFdiv 53 1024 x y <> S754_nan.
Proof.
  intros -> [[s ->] | (s & m & e & ->)]; simpl; [ discriminate | ].
  pose proof (SFdiv_core_binary_nonneg 53 1024 m my e ey) as Hq.
  destruct (SFdiv_core_binary 53 1024 (Zpos m) e (Zpos my) ey) as [[mz ez] lz].
  apply binary_round_aux_not_nan. exact Hq.
Qed.

Lemma SFmul_not_nan (x y : spec_float) (sy : bool) (my : positive) (ey : Z) :
  y = S754_finite sy my ey ->
  x <> S754_nan ->
  SFmul 53 1024 x y <> S754_nan.
Proof.
  intros -> Hx. destruct x as [s | s | | s m e]; simpl;
    try discriminate; try congruence.
  apply binary_round_aux_not_nan. lia.
Qed.

(** ** The scaled draw

    A draw of the unit interval, multiplied by 100.0, rounds to a number
    of the half-open interval from 0 to 100. *)

Lemma of_int_100 :
  F64.of_int 100 = S754_finite false 7036874417766400 (-46).
Proof. reflexivity. Qed.

Lemma shr_1_round_bit (r : shr_record) :
  0 <= shr_m r -> shr_r (shr_1 r) = Z.testbit (shr_m r) 0.
Proof.
  destruct r as [m rb sb]. simpl. intros Hm.
  destruct m as [ | p | p ]; [ reflexivity | | lia ].
  destruct p; reflexivity.
Qed.

Lemma shr_r_iter (n : positive) :
  forall r : shr_record,
  0 <= shr_m r ->
  shr_r (SpecFloat.iter_pos shr_1 n r) = Z.testbit (shr_m r) (Zpos n - 1).
Proof.
  induction n as [n IH | n IH | ]; intros r Hr.
  - change (SpecFloat.iter_pos shr_1 n~1 r)
      with (SpecFloat.iter_pos shr_1 n (SpecFloat.iter_pos shr_1 n (shr_1 r))).
    assert (H1 : 0 <= shr_m (shr_1 r)) by (apply shr_1_nonneg; exact Hr).
    assert (H2 : 0 <= shr_m (SpecFloat.iter_pos shr_1 n (shr_1 r)))
      by (apply iter_pos_preserves; [ apply shr_1_nonneg | exact H1 ]).
    rewrite (IH _ H2), (shr_m_iter n _ H1), (shr_1_div2 r Hr).
    rewrite Z.div_pow2_bits by lia.
    change (shr_m r / 2) with (shr_m r / 2 ^ 1).
    rewrite Z.div_pow2_bits by lia. f_equal. lia.
  - change (SpecFloat.iter_pos shr_1 n~0 r)
      with (SpecFloat.iter_pos shr_1 n (SpecFloat.iter_pos shr_1 n r)).
    assert (H2 : 0 <= shr_m (SpecFloat.iter_pos shr_1 n r))
      by (apply iter_pos_preserves; [ apply shr_1_nonneg | exact Hr ]).
    rewrite (IH _ H2), (shr_m_iter n _ Hr).
    rewrite Z.div_pow2_bits by lia. f_equal. lia.
  - change (SpecFloat.iter_pos shr_1 1 r) with (shr_1 r).
    apply shr_1_round_bit. exact Hr.
Qed.

(** The round bit left by [shr_fexp] on an exact mantissa is the highest
    bit shifted out. *)
Lemma shr_fexp_round_bit (prec emax m e : Z) :
  0 <= m ->
  0 < fexp prec emax (Zdigits2 m + e) - e ->
  shr_r (fst (shr_fexp prec emax m e loc_Exact))
  = Z.testbit m (fexp prec emax (Zdigits2 m + e) - e - 1).
Proof.
  intros Hm Hn. unfold shr_fexp, shr.
  destruct (fexp prec emax (Zdigits2 m + e) - e) as [ | p | p ]; try lia.
  simpl fst. rewrite shr_r_iter by exact Hm. reflexivity.
Qed.

Lemma round_down_when_bit_clear (mrs : shr_record) :
  shr_r mrs = false ->
  round_nearest_even (shr_m mrs) (loc_of_shr_record mrs) = shr_m mrs.
Proof.
  destruct mrs as [m rb sb]. simpl. intros ->. destruct sb; reflexivity.
Qed.

Lemma Zdigits2_le (m k : Z) : 0 <= m < 2 ^ k -> Zdigits2 m <= Z.max k 0.
Proof.
  intros Hm. destruct m as [ | p | p ]; simpl; try lia.
  pose proof (digits2_pos_le p k ltac:(lia)). lia.
Qed.

(** The product of a mantissa of at most 53 digits, at an exponent of at
    most -53, with the mantissa of 100.0 rounds to zero or to a positive
    number below 100.0. *)
Lemma product_with_100_rounds_below_100 (m : positive) (e : Z) :
  Zpos (digits2_pos m) <= 53 ->
  e <= -53 ->
  binary_round_aux 53 1024 false (Zpos (m * 7036874417766400)) (e - 46)
    loc_Exact = S754_zero false
  \/ exists (q : positive) (e2 : Z),
       binary_round_aux 53 1024 false (Zpos (m * 7036874417766400)) (e - 46)
         loc_Exact = S754_finite false q e2
       /\ (e2 < -46 \/ (e2 = -46 /\ Zpos q < 7036874417766400)).
Proof.
  intros Hd He.
  assert (Hm : Zpos m < 2 ^ 53).
  { destruct (digits2_pos_bounds m) as [_ Hhi].
    assert (2 ^ Zpos (digits2_pos m) <= 2 ^ 53)
      by (apply Z.pow_le_mono_r; lia). lia. }
  rewrite Pos2Z.inj_mul.
  set (P := Zpos m * 7036874417766400).
  assert (HP : 0 < P <= (2 ^ 53 - 1) * 7036874417766400) by (subst P; lia).
  clearbody P.
  assert (HdP : Zdigits2 P <= 106).
  { pose proof (Zdigits2_le P 106 ltac:(lia)). lia. }
  assert (HdP0 : 0 <= Zdigits2 P).
  { destruct P as [ | p | p ]; simpl; lia. }
  assert (HPd : P < 2 ^ Zdigits2 P).
  { destruct P as [ | p | p ]; try lia. simpl.
    apply (digits2_pos_bounds p). }
  unfold binary_round_aux.
  destruct (shr_fexp_spec 53 1024 P (e - 46) loc_Exact ltac:(lia))
    as [Hm1 He1].
  pose proof (shr_fexp_round_bit 53 1024 P (e - 46) ltac:(lia)) as Hbit.
  destruct (shr_fexp 53 1024 P (e - 46) loc_Exact) as [mrs' e1].
  simpl in Hm1, He1, Hbit. rewrite fexp_binary64 in Hm1, He1, Hbit.
  set (n1 := Z.max (Z.max (Zdigits2 P + (e - 46) - 53) (-1074) - (e - 46)) 0)
    in *.
  assert (Hn1def : n1 = Z.max (Z.max (Zdigits2 P + (e - 46) - 53) (-1074)
                                 - (e - 46)) 0) by reflexivity.
  clearbody n1.
  assert (Hn1 : 0 <= n1) by lia.
  assert (Hpow1 : 0 < 2 ^ n1) by (apply Z.pow_pos_nonneg; lia).
  assert (Hm1lo : 0 <= shr_m mrs')
    by (rewrite Hm1; apply Z.div_pos; lia).
  assert (Hm1hi : shr_m mrs' < 2 ^ 53).
  { rewrite Hm1. apply Z.div_lt_upper_bound; [ lia | ].
    rewrite <- Z.pow_add_r by lia.
    assert (2 ^ Zdigits2 P <= 2 ^ (n1 + 53))
      by (apply Z.pow_le_mono_r; lia). lia. }
  pose proof (round_nearest_even_bounds (shr_m mrs') (loc_of_shr_record mrs'))
    as Hround.
  assert (Hp1 : e1 = -46 ->
                round_nearest_even (shr_m mrs') (loc_of_shr_record mrs')
                < 7036874417766400).
  { intros He46.
    assert (Hn53 : n1 = 53) by lia.
    assert (Hlt : shr_m mrs' < 7036874417766400).
    { rewrite Hm1, Hn53. apply Z.div_lt_upper_bound; lia. }
    destruct (Z.eq_dec (shr_m mrs') (7036874417766400 - 1)) as [Heq | Hne];
      [ | lia ].
    rewrite round_down_when_bit_clear; [ lia | ].
    rewrite Hbit by lia.
    replace (Z.max (Zdigits2 P + (e - 46) - 53) (-1074) - (e - 46) - 1)
      with 52 by lia.
    apply Z.testbit_false; [ lia | ].
    rewrite Hm1, Hn53 in Heq.
    pose proof (Z.div_mod P (2 ^ 53) ltac:(lia)) as Hdm.
    pose proof (Z.mod_pos_bound P (2 ^ 53) ltac:(lia)) as Hmb.
    rewrite Heq in Hdm.
    assert (Hq : P / 2 ^ 52 = 2 * (7036874417766400 - 1)).
    { symmetry. apply (Z.div_unique P (2 ^ 52) _ (P mod 2 ^ 53)); lia. }
    rewrite Hq, Z.mul_comm. apply Z.mod_mul. lia. }
  set (p1 := round_nearest_even (shr_m mrs') (loc_of_shr_record mrs')) in *.
  clearbody p1.
  assert (Hp1lo : 0 <= p1) by lia.
  destruct (shr_fexp_spec 53 1024 p1 e1 loc_Exact Hp1lo) as [Hm2 He2].
  destruct (shr_fexp 53 1024 p1 e1 loc_Exact) as [mrs'' e2].
  simpl in Hm2, He2. rewrite fexp_binary64 in Hm2, He2.
  set (n2 := Z.max (Z.max (Zdigits2 p1 + e1 - 53) (-1074) - e1) 0) in *.
  assert (Hn2def : n2 = Z.max (Z.max (Zdigits2 p1 + e1 - 53) (-1074) - e1) 0)
    by reflexivity.
  clearbody n2.
  assert (Hd1 : Zdigits2 p1 <= 54).
  { pose proof (Zdigits2_le p1 54 ltac:(lia)). lia. }
  assert (Hd1' : e1 = -46 -> Zdigits2 p1 <= 53).
  { intros He46. specialize (Hp1 He46).
    pose proof (Zdigits2_le p1 53 ltac:(lia)). lia. }
  assert (Hn2 : 0 <= n2 <= 1) by lia.
  assert (Hm2lo : 0 <= shr_m mrs'').
  { rewrite Hm2. apply Z.div_pos; [ lia | apply Z.pow_pos_nonneg; lia ]. }
  destruct (shr_m mrs'') as [ | q | q ] eqn:Hq; [ left; reflexivity | | lia ].
  right. exists q, e2.
  replace (e2 <=? 1024 - 53) with true by (symmetry; apply Z.leb_le; lia).
  split; [ reflexivity | ].
  destruct (Z.eq_dec n2 0) as [Hz | Hnz].
  - rewrite Hz, Z.pow_0_r, Z.div_1_r in Hm2.
    destruct (Z.eq_dec e1 (-46)) as [He46 | Hne]; [ | lia ].
    specialize (Hp1 He46). lia.
  - assert (Hone : n2 = 1) by lia.
    rewrite Hone in Hm2. change (2 ^ 1) with 2 in Hm2.
    assert (He1' : e1 <= -47).
    { destruct (Z.eq_dec e1 (-46)) as [He46 | Hne]; [ | lia ].
      specialize (Hd1' He46). lia. }
    assert (Hq2 : Zpos q <= 2 ^ 52).
    { rewrite Hm2. apply Z.div_le_upper_bound; lia. }
    lia.
Qed.

Lemma mul_finite_by_100 (m : positive) (e : Z) :
  F64.mul (S754_finite false m e) (S754_finite false 7036874417766400 (-46))
  = binary_round_aux 53 1024 false (Zpos (m * 7036874417766400)) (e - 46)
      loc_Exact.
Proof. reflexivity. Qed.

Lemma compare_cont_Eq (p q : positive) :
  PosDef.Pos.compare_cont Eq p q = (p ?= q)%positive.
Proof. reflexivity. Qed.

Lemma finite_below_100 (q : positive) (e2 : Z) :
  e2 < -46 \/ (e2 = -46 /\ Zpos q < 7036874417766400) ->
  F64.ltb (S754_finite false q e2) (S754_finite false 7036874417766400 (-46))
  = true.
Proof.
  intros Hlt. unfold F64.ltb, SFltb, SFcompare.
  destruct Hlt as [Hlt | [-> Hlt]].
  - apply Z.compare_lt_iff in Hlt. rewrite Hlt. reflexivity.
  - rewrite Z.compare_refl, compare_cont_Eq.
    apply Z.compare_lt_iff in Hlt. rewrite <- Pos2Z.inj_compare in Hlt.
    rewrite Hlt. reflexivity.
Qed.

Lemma of_int_1 : F64.of_int 1 = S754_finite false 4503599627370496 (-52).
Proof. reflexivity. Qed.

Lemma unit_interval_shape (u : float64) :
  unit_interval u ->
  (exists s : bool, u = S754_zero s)
  \/ exists (m : positive) (e : Z),
       u = S754_finite false m e
       /\ Zpos (digits2_pos m) <= 53 /\ e <= -53.
Proof.
  intros (Hv & H0 & H1). rewrite of_int_1 in H1.
  destruct u as [s | s | | s m e].
  - left. eauto.
  - destruct s; discriminate.
  - discriminate.
  - right. destruct s; [ discriminate | ]. exists m, e.
    split; [ reflexivity | ].
    unfold F64.valid, valid_binary, bounded, canonical_mantissa in Hv.
    apply andb_true_iff in Hv as [Hc _]. apply Z.eqb_eq in Hc.
    change (fexp F64.prec F64.emax) with (fexp 53 1024) in Hc.
    rewrite fexp_binary64 in Hc.
    split; [ lia | ].
    unfold F64.ltb, SFltb, SFcompare in H1.
    destruct (Z.compare_spec e (-52)) as [Heq | Hlt | Hgt];
      [ | lia | discriminate ].
    subst e.
    assert (Hd : Zpos (digits2_pos m) = 53) by lia.
    destruct (digits2_pos_bounds m) as [Hlo _].
    rewrite Hd in Hlo.
    rewrite compare_cont_Eq in H1.
    destruct (Pos.compare_spec m 4503599627370496) as [ | Hlt | ];
      try discriminate.
    apply Pos2Z.pos_lt_pos in Hlt. lia.
Qed.

Lemma scaled_draw_in_range (u : float64) :
  unit_interval u ->
  F64.leb F64.zero (F64.mul u (F64.of_int 100)) = true
  /\ F64.ltb (F64.mul u (F64.of_int 100)) (F64.of_int 100) = true.
Proof.
  intros Hu. rewrite of_int_100.
  destruct (unit_interval_shape u Hu) as [[s ->] | (m & e & -> & Hd & He)].
  - split; reflexivity.
  - rewrite mul_finite_by_100.
    destruct (product_with_100_rounds_below_100 m e Hd He)
      as [-> | (q & e2 & -> & Hlt)].
    + split; reflexivity.
    + split; [ reflexivity | ]. apply finite_below_100. exact Hlt.
Qed.

(** ** The six paths of one evaluation

    Each lemma gives the response and the final value of the package-level
    variables for one path through the decision. *)

Section Paths.

Variable h : HealthHandler.
Variable m : metrics.ResourceMetrics.
Variable g : Globals.

Let minimum := config.MinimumPodsToKeepPercent (Config h).
Let memThreshold := config.ResourceThresholdMemoryPercent (Config h).
Let cpuThreshold := config.ResourceThresholdCPUPercent (Config h).

Lemma evaluate_not_ready :
  metrics.ContainerReady m = false ->
  evaluate h m =
  Ret (respond StatusOK
         (details h m "NOT_READY" (MsgNotReady (metrics.ContainerName m)))).
Proof. intros Hr. unfold evaluate. rewrite Hr. reflexivity. Qed.

Lemma evaluate_pod_shortage :
  metrics.ContainerReady m = true ->
  F64.ltb (calcPodsRatio h m) minimum = true ->
  evaluate h m =
  Ret (respond StatusOK
         (details h m "POD_SHORTAGE"
            (MsgPodShortage (metrics.DeploymentAvailableReplicas m)
               (metrics.DeploymentReplicas m) (calcPodsRatio h m) minimum))).
Proof.
  intros Hr Hs. unfold evaluate. rewrite Hr. simpl negb. cbv iota.
  unfold minimum in Hs. rewrite Hs. reflexivity.
Qed.

Lemma run_healthy :
  reaches_overload_test h m = true ->
  overloaded h m = false ->
  run (evaluate h m) g =
  (respond StatusOK
     (details h m "HEALTHY"
        (MsgHealthy (calcMemoryPercent h m) (calcCPUPercent h m)
           (calcPodsRatio h m))),
   {| resourceOverLoaded := false;
      rng := rng g;
      shouldRandomize := true |}).
Proof.
  unfold reaches_overload_test, overloaded. intros Ht Ho.
  apply andb_true_iff in Ht as [Hr Hs]. apply negb_true_iff in Hs.
  unfold evaluate. rewrite Hr, Hs. simpl. rewrite Ho. reflexivity.
Qed.

Lemma run_locked :
  reaches_overload_test h m = true ->
  overloaded h m = true ->
  shouldRandomize g = false ->
  run (evaluate h m) g =
  (respond StatusBadRequest
     (details h m "RESOURCE_EXHAUSTED"
        (MsgResourceExhausted (calcMemoryPercent h m) memThreshold
           (calcCPUPercent h m) cpuThreshold)),
   {| resourceOverLoaded := true;
      rng := rng g;
      shouldRandomize := false |}).
Proof.
  unfold reaches_overload_test, overloaded. intros Ht Ho Hl.
  apply andb_true_iff in Ht as [Hr Hs]. apply negb_true_iff in Hs.
  unfold evaluate. rewrite Hr, Hs. simpl. rewrite Ho. simpl.
  rewrite Hl. reflexivity.
Qed.

Lemma run_draw_reject :
  reaches_overload_test h m = true ->
  overloaded h m = true ->
  shouldRandomize g = true ->
  F64.gtb (F64.mul (outputs (rng g) (drawn (rng g))) (F64.of_int 100))
          minimum = true ->
  run (evaluate h m) g =
  (respond StatusBadRequest
     (details h m "RESOURCE_EXHAUSTED"
        (MsgResourceExhausted (calcMemoryPercent h m) memThreshold
           (calcCPUPercent h m) cpuThreshold)),
   {| resourceOverLoaded := true;
      rng := {| outputs := outputs (rng g); drawn := S (drawn (rng g)) |};
      shouldRandomize := false |}).
Proof.
  unfold reaches_overload_test, overloaded. intros Ht Ho Hu Hd.
  apply andb_true_iff in Ht as [Hr Hs]. apply negb_true_iff in Hs.
  unfold evaluate. rewrite Hr, Hs. simpl. rewrite Ho. simpl.
  rewrite Hu. simpl. unfold minimum in Hd. rewrite Hd. reflexivity.
Qed.

Lemma run_draw_keep :
  reaches_overload_test h m = true ->
  overloaded h m = true ->
  shouldRandomize g = true ->
  F64.gtb (F64.mul (outputs (rng g) (drawn (rng g))) (F64.of_int 100))
          minimum = false ->
  run (evaluate h m) g =
  (respond StatusOK
     (details h m "RESOURCE_OVERLOADED_BUT_KEEPING"
        (MsgKeeping (calcMemoryPercent h m) (calcCPUPercent h m)
           (F64.mul (outputs (rng g) (drawn (rng g))) (F64.of_int 100)))),
   {| resourceOverLoaded := true;
      rng := {| outputs := outputs (rng g); drawn := S (drawn (rng g)) |};
      shouldRandomize := true |}).
Proof.
  unfold reaches_overload_test, overloaded. intros Ht Ho Hu Hd.
  apply andb_true_iff in Ht as [Hr Hs]. apply negb_true_iff in Hs.
  unfold evaluate. rewrite Hr, Hs. simpl. rewrite Ho. simpl.
  rewrite Hu. simpl. unfold minimum in Hd. rewrite Hd. reflexivity.
Qed.

(** A ready container with enough available replicas reaches the overload
    test. *)
Lemma ready_and_available_reaches :
  metrics.ContainerReady m = true ->
  F64.geb (calcPodsRatio h m) minimum = true ->
  reaches_overload_test h m = true.
Proof.
  intros Hr Ha. unfold reaches_overload_test. rewrite Hr. simpl.
  apply negb_true_iff. apply geb_not_ltb. exact Ha.
Qed.

End Paths.

Lemma sticky_unlocked (g : Globals) :
  sticky g = UNLOCKED <-> shouldRandomize g = true.
Proof. unfold sticky. destruct (shouldRandomize g); split; congruence. Qed.

Lemma sticky_locked (g : Globals) :
  sticky g = LOCKED_REJECT <-> shouldRandomize g = false.
Proof. unfold sticky. destruct (shouldRandomize g); split; congruence. Qed.

(** ** The guards *)

(** C6: for every snapshot whose container is not ready, whatever its
    other fields and whatever the package-level variables hold, the
    evaluation answers NOT_READY with the success code (the probe is
    accepted), makes no access to the package-level variables and so
    leaves the sticky flag and the generator as they were. *)
Theorem not_ready_is_accepted_without_touching_state
    (h : HealthHandler) (m : metrics.ResourceMetrics) (g : Globals) :
  metrics.ContainerReady m = false ->
  label (fst (run (evaluate h m) g)) = Some "NOT_READY"
  /\ statusCode (fst (run (evaluate h m) g)) = StatusOK
  /\ accept (fst (run (evaluate h m) g)) = true
  /\ snd (run (evaluate h m) g) = g
  /\ accesses (evaluate h m) g = O.
Proof.
  intros Hr. rewrite (evaluate_not_ready h m Hr). simpl.
  repeat split; reflexivity.
Qed.

Lemma not_ready_witness :
  metrics.ContainerReady scenario.hot_not_ready = false
  /\ (let g := scenario.locked scenario.three_quarters scenario.quarter in
      let r := run (evaluate scenario.handler scenario.hot_not_ready) g in
      label (fst r) = Some "NOT_READY"
      /\ statusCode (fst r) = StatusOK
      /\ accept (fst r) = true
      /\ snd r = g
      /\ accesses (evaluate scenario.handler scenario.hot_not_ready) g = O).
Proof.
  split; [ reflexivity | ].
  apply (not_ready_is_accepted_without_touching_state
           scenario.handler scenario.hot_not_ready
           (scenario.locked scenario.three_quarters scenario.quarter)).
  reflexivity.
Defined.

(** C5: for every snapshot with a ready container whose ratio of
    available replicas is strictly below the configured minimum, the
    evaluation answers POD_SHORTAGE with the success code, also when CPU
    and memory both exceed their thresholds (nothing is assumed about
    them); it makes no access to the package-level variables, so the
    sticky flag and the generator are left as they were. *)
Theorem pod_shortage_is_accepted_without_touching_state
    (h : HealthHandler) (m : metrics.ResourceMetrics) (g : Globals) :
  metrics.ContainerReady m = true ->
  F64.ltb (calcPodsRatio h m) (config.MinimumPodsToKeepPercent (Config h))
    = true ->
  label (fst (run (evaluate h m) g)) = Some "POD_SHORTAGE"
  /\ statusCode (fst (run (evaluate h m) g)) = StatusOK
  /\ accept (fst (run (evaluate h m) g)) = true
  /\ snd (run (evaluate h m) g) = g
  /\ accesses (evaluate h m) g = O.
Proof.
  intros Hr Hs. rewrite (evaluate_pod_shortage h m Hr Hs). simpl.
  repeat split; reflexivity.
Qed.

Lemma pod_shortage_witness :
  metrics.ContainerReady scenario.hot_and_thin = true
  /\ F64.ltb (calcPodsRatio scenario.handler scenario.hot_and_thin)
             (config.MinimumPodsToKeepPercent (Config scenario.handler)) = true
  /\ overloaded scenario.handler scenario.hot_and_thin = true
  /\ (let g := scenario.unlocked scenario.three_quarters scenario.quarter in
      let r := run (evaluate scenario.handler scenario.hot_and_thin) g in
      label (fst r) = Some "POD_SHORTAGE"
      /\ statusCode (fst r) = StatusOK
      /\ accept (fst r) = true
      /\ snd r = g
      /\ accesses (evaluate scenario.handler scenario.hot_and_thin) g = O).
Proof.
  split; [ reflexivity | ].
  split; [ vm_compute; reflexivity | ].
  split; [ vm_compute; reflexivity | ].
  apply (pod_shortage_is_accepted_without_touching_state
           scenario.handler scenario.hot_and_thin
           (scenario.unlocked scenario.three_quarters scenario.quarter)).
  - reflexivity.
  - vm_compute; reflexivity.
Defined.

(** ** The overload test *)

(** The flag the test stores is the overload condition of the snapshot,
    on every path that reaches the test. *)
Lemma overload_test_stores_condition
    (h : HealthHandler) (m : metrics.ResourceMetrics) (g : Globals) :
  reaches_overload_test h m = true ->
  resourceOverLoaded (snd (run (evaluate h m) g)) = overloaded h m.
Proof.
  intros Ht.
  destruct (overloaded h m) eqn:Ho.
  - destruct (shouldRandomize g) eqn:Hu.
    + destruct (F64.gtb (F64.mul (outputs (rng g) (drawn (rng g)))
                           (F64.of_int 100))
                  (config.MinimumPodsToKeepPercent (Config h))) eqn:Hd.
      * rewrite (run_draw_reject h m g Ht Ho Hu Hd). reflexivity.
      * rewrite (run_draw_keep h m g Ht Ho Hu Hd). reflexivity.
    + rewrite (run_locked h m g Ht Ho Hu). reflexivity.
  - rewrite (run_healthy h m g Ht Ho). reflexivity.
Qed.

(** Once the test is reached with the condition true, the answer is one
    of the two overload verdicts. *)
Lemma overloaded_is_never_healthy
    (h : HealthHandler) (m : metrics.ResourceMetrics) (g : Globals) :
  reaches_overload_test h m = true ->
  overloaded h m = true ->
  label (fst (run (evaluate h m) g)) = Some "RESOURCE_EXHAUSTED"
  \/ label (fst (run (evaluate h m) g)) = Some "RESOURCE_OVERLOADED_BUT_KEEPING".
Proof.
  intros Ht Ho.
  destruct (shouldRandomize g) eqn:Hu.
  - destruct (F64.gtb (F64.mul (outputs (rng g) (drawn (rng g)))
                         (F64.of_int 100))
                (config.MinimumPodsToKeepPercent (Config h))) eqn:Hd.
    + rewrite (run_draw_reject h m g Ht Ho Hu Hd). left. reflexivity.
    + rewrite (run_draw_keep h m g Ht Ho Hu Hd). right. reflexivity.
  - rewrite (run_locked h m g Ht Ho Hu). left. reflexivity.
Qed.

(** C3: in every evaluation with a ready container and a ratio of
    available replicas at least the minimum, the overload flag computed
    by the test is true exactly when the CPU percentage is strictly above
    its threshold and the memory percentage is strictly above its
    threshold; when it is false the sticky flag is set to UNLOCKED and the
    answer is HEALTHY with the success code, without a draw; when it is
    true the answer is one of the two overload verdicts. *)
Theorem overload_needs_both_resources_else_healthy_and_unlocked
    (h : HealthHandler) (m : metrics.ResourceMetrics) (g : Globals) :
  metrics.ContainerReady m = true ->
  F64.geb (calcPodsRatio h m) (config.MinimumPodsToKeepPercent (Config h))
    = true ->
  let r := run (evaluate h m) g in
  (resourceOverLoaded (snd r) = true <->
     F64.gtb (calcCPUPercent h m)
             (config.ResourceThresholdCPUPercent (Config h)) = true
     /\ F64.gtb (calcMemoryPercent h m)
                (config.ResourceThresholdMemoryPercent (Config h)) = true)
  /\ (resourceOverLoaded (snd r) = false ->
        shouldRandomize (snd r) = true
        /\ sticky (snd r) = UNLOCKED
        /\ rng (snd r) = rng g
        /\ label (fst r) = Some "HEALTHY"
        /\ statusCode (fst r) = StatusOK
        /\ accept (fst r) = true)
  /\ (resourceOverLoaded (snd r) = true ->
        label (fst r) = Some "RESOURCE_EXHAUSTED"
        \/ label (fst r) = Some "RESOURCE_OVERLOADED_BUT_KEEPING").
Proof.
  intros Hr Ha r.
  pose proof (ready_and_available_reaches h m Hr Ha) as Ht.
  assert (Hflag : resourceOverLoaded (snd r) = overloaded h m)
    by (apply overload_test_stores_condition; exact Ht).
  rewrite Hflag. split; [ | split ].
  - unfold overloaded. rewrite andb_true_iff. tauto.
  - intros Ho. subst r. rewrite (run_healthy h m g Ht Ho).
    repeat split; reflexivity.
  - intros Ho. apply overloaded_is_never_healthy; assumption.
Qed.

Lemma overload_test_witness :
  metrics.ContainerReady scenario.cpu_only = true
  /\ F64.geb (calcPodsRatio scenario.handler scenario.cpu_only)
             (config.MinimumPodsToKeepPercent (Config scenario.handler)) = true
  /\ (let g := scenario.locked scenario.three_quarters scenario.quarter in
      let r := run (evaluate scenario.handler scenario.cpu_only) g in
      (resourceOverLoaded (snd r) = true <->
         F64.gtb (calcCPUPercent scenario.handler scenario.cpu_only)
                 (config.ResourceThresholdCPUPercent (Config scenario.handler))
           = true
         /\ F64.gtb (calcMemoryPercent scenario.handler scenario.cpu_only)
                    (config.ResourceThresholdMemoryPercent
                       (Config scenario.handler)) = true)
      /\ (resourceOverLoaded (snd r) = false ->
            shouldRandomize (snd r) = true
            /\ sticky (snd r) = UNLOCKED
            /\ rng (snd r) = rng g
            /\ label (fst r) = Some "HEALTHY"
            /\ statusCode (fst r) = StatusOK
            /\ accept (fst r) = true)
      /\ (resourceOverLoaded (snd r) = true ->
            label (fst r) = Some "RESOURCE_EXHAUSTED"
            \/ label (fst r) = Some "RESOURCE_OVERLOADED_BUT_KEEPING")).
Proof.
  split; [ reflexivity | ].
  split; [ vm_compute; reflexivity | ].
  apply (overload_needs_both_resources_else_healthy_and_unlocked
           scenario.handler scenario.cpu_only
           (scenario.locked scenario.three_quarters scenario.quarter)).
  - reflexivity.
  - vm_compute; reflexivity.
Defined.

(** A breach of the CPU threshold alone, and usage exactly at both
    thresholds, are not overload: both snapshots are answered HEALTHY and
    clear a locked flag. *)
Example single_breach_and_boundary_are_healthy :
  let g := scenario.locked scenario.three_quarters scenario.quarter in
  F64.gtb (calcCPUPercent scenario.handler scenario.cpu_only)
          (F64.of_int 80) = true
  /\ overloaded scenario.handler scenario.cpu_only = false
  /\ label (fst (run (evaluate scenario.handler scenario.cpu_only) g))
     = Some "HEALTHY"
  /\ shouldRandomize (snd (run (evaluate scenario.handler scenario.cpu_only) g))
     = true
  /\ calcCPUPercent scenario.handler scenario.at_threshold = F64.of_int 80
  /\ overloaded scenario.handler scenario.at_threshold = false
  /\ label (fst (run (evaluate scenario.handler scenario.at_threshold) g))
     = Some "HEALTHY".
Proof. vm_compute. repeat split; reflexivity. Qed.

(** ** The random backoff *)

(** C1: in every evaluation with a ready container, a ratio of available
    replicas at least the minimum, the overload condition true and the
    sticky flag UNLOCKED, the handler takes exactly one value [u] from
    the generator and scales it to [r = u * 100], a number of the
    half-open interval from 0 to 100 whenever [u] is in the unit interval
    as the generator promises; if [r] is strictly above the minimum the
    flag becomes LOCKED_REJECT and the answer is RESOURCE_EXHAUSTED with
    the client-error code (the probe is refused); otherwise, and in
    particular when [r] is at most the minimum, the flag stays UNLOCKED
    and the answer is RESOURCE_OVERLOADED_BUT_KEEPING with the success
    code. *)
Theorem unlocked_overload_draws_once_and_locks_above_minimum
    (h : HealthHandler) (m : metrics.ResourceMetrics) (g : Globals) :
  metrics.ContainerReady m = true ->
  F64.geb (calcPodsRatio h m) (config.MinimumPodsToKeepPercent (Config h))
    = true ->
  overloaded h m = true ->
  sticky g = UNLOCKED ->
  let u := outputs (rng g) (drawn (rng g)) in
  let r := F64.mul u (F64.of_int 100) in
  let out := run (evaluate h m) g in
  fst (Float64 (rng g)) = u
  /\ rng (snd out) = snd (Float64 (rng g))
  /\ drawn (rng (snd out)) = S (drawn (rng g))
  /\ (unit_interval u ->
        F64.leb F64.zero r = true /\ F64.ltb r (F64.of_int 100) = true)
  /\ (F64.gtb r (config.MinimumPodsToKeepPercent (Config h)) = true ->
        sticky (snd out) = LOCKED_REJECT
        /\ label (fst out) = Some "RESOURCE_EXHAUSTED"
        /\ statusCode (fst out) = StatusBadRequest
        /\ accept (fst out) = false)
  /\ (F64.gtb r (config.MinimumPodsToKeepPercent (Config h)) = false ->
        sticky (snd out) = UNLOCKED
        /\ label (fst out) = Some "RESOURCE_OVERLOADED_BUT_KEEPING"
        /\ statusCode (fst out) = StatusOK
        /\ accept (fst out) = true)
  /\ (F64.leb r (config.MinimumPodsToKeepPercent (Config h)) = true ->
        F64.gtb r (config.MinimumPodsToKeepPercent (Config h)) = false).
Proof.
  intros Hr Ha Ho Hu u r out.
  pose proof (ready_and_available_reaches h m Hr Ha) as Ht.
  apply sticky_unlocked in Hu.
  assert (Hrange : unit_interval u ->
                   F64.leb F64.zero r = true
                   /\ F64.ltb r (F64.of_int 100) = true)
    by (apply scaled_draw_in_range).
  destruct (F64.gtb r (config.MinimumPodsToKeepPercent (Config h))) eqn:Hd.
  - subst out. rewrite (run_draw_reject h m g Ht Ho Hu Hd). simpl.
    repeat split; try reflexivity; try discriminate;
      try (apply Hrange; assumption).
    intros Hle. apply leb_not_gtb in Hle. congruence.
  - subst out. rewrite (run_draw_keep h m g Ht Ho Hu Hd). simpl.
    repeat split; try reflexivity; try discriminate;
      try (apply Hrange; assumption).
Qed.

Lemma random_backoff_witness :
  metrics.ContainerReady scenario.hot = true
  /\ F64.geb (calcPodsRatio scenario.handler scenario.hot)
             (config.MinimumPodsToKeepPercent (Config scenario.handler)) = true
  /\ overloaded scenario.handler scenario.hot = true
  /\ sticky (scenario.unlocked scenario.three_quarters scenario.quarter)
     = UNLOCKED
  /\ (let g := scenario.unlocked scenario.three_quarters scenario.quarter in
      let u := outputs (rng g) (drawn (rng g)) in
      let r := F64.mul u (F64.of_int 100) in
      let out := run (evaluate scenario.handler scenario.hot) g in
      fst (Float64 (rng g)) = u
      /\ rng (snd out) = snd (Float64 (rng g))
      /\ drawn (rng (snd out)) = S (drawn (rng g))
      /\ (unit_interval u ->
            F64.leb F64.zero r = true /\ F64.ltb r (F64.of_int 100) = true)
      /\ (F64.gtb r (config.MinimumPodsToKeepPercent (Config scenario.handler))
          = true ->
            sticky (snd out) = LOCKED_REJECT
            /\ label (fst out) = Some "RESOURCE_EXHAUSTED"
            /\ statusCode (fst out) = StatusBadRequest
            /\ accept (fst out) = false)
      /\ (F64.gtb r (config.MinimumPodsToKeepPercent (Config scenario.handler))
          = false ->
            sticky (snd out) = UNLOCKED
            /\ label (fst out) = Some "RESOURCE_OVERLOADED_BUT_KEEPING"
            /\ statusCode (fst out) = StatusOK
            /\ accept (fst out) = true)
      /\ (F64.leb r (config.MinimumPodsToKeepPercent (Config scenario.handler))
          = true ->
            F64.gtb r (config.MinimumPodsToKeepPercent (Config scenario.handler))
            = false)).
Proof.
  split; [ reflexivity | ].
  split; [ vm_compute; reflexivity | ].
  split; [ vm_compute; reflexivity | ].
  split; [ reflexivity | ].
  apply (unlocked_overload_draws_once_and_locks_above_minimum
           scenario.handler scenario.hot
           (scenario.unlocked scenario.three_quarters scenario.quarter)).
  - reflexivity.
  - vm_compute; reflexivity.
  - vm_compute; reflexivity.
  - reflexivity.
Defined.

(** The two draws of the scenario are in the unit interval. *)
Example scenario_draws_in_unit_interval :
  unit_interval scenario.three_quarters /\ unit_interval scenario.quarter.
Proof. vm_compute. repeat split; reflexivity. Qed.

(** The two outcomes of the draw on the hot snapshot: a draw scaled to 75
    locks the flag and refuses, a draw scaled to 25 keeps serving. *)
Example draws_of_75_and_25 :
  F64.mul scenario.three_quarters (F64.of_int 100) = F64.of_int 75
  /\ F64.mul scenario.quarter (F64.of_int 100) = F64.of_int 25
  /\ (let out := run (evaluate scenario.handler scenario.hot)
                   (scenario.unlocked scenario.three_quarters scenario.quarter) in
      label (fst out) = Some "RESOURCE_EXHAUSTED"
      /\ statusCode (fst out) = 400
      /\ shouldRandomize (snd out) = false
      /\ drawn (rng (snd out)) = 1%nat)
  /\ (let out := run (evaluate scenario.handler scenario.hot)
                   (scenario.unlocked scenario.quarter scenario.three_quarters) in
      label (fst out) = Some "RESOURCE_OVERLOADED_BUT_KEEPING"
      /\ statusCode (fst out) = 200
      /\ shouldRandomize (snd out) = true
      /\ drawn (rng (snd out)) = 1%nat).
Proof. vm_compute. repeat split; reflexivity. Qed.

(** ** The sticky flag *)

(** An evaluation stopped by a guard answers with the success code and
    changes nothing. *)
Lemma guarded_evaluation
    (h : HealthHandler) (m : metrics.ResourceMetrics) (g : Globals) :
  reaches_overload_test h m = false ->
  snd (run (evaluate h m) g) = g
  /\ accept (fst (run (evaluate h m) g)) = true
  /\ (label (fst (run (evaluate h m) g)) = Some "NOT_READY"
      \/ label (fst (run (evaluate h m) g)) = Some "POD_SHORTAGE").
Proof.
  unfold reaches_overload_test. intros Ht.
  destruct (metrics.ContainerReady m) eqn:Hr.
  - simpl in Ht. apply negb_false_iff in Ht.
    rewrite (evaluate_pod_shortage h m Hr Ht). simpl. auto.
  - rewrite (evaluate_not_ready h m Hr). simpl. auto.
Qed.

(** The flag is locked only by a draw at the overload test. *)
Lemma lock_only_when_overloaded
    (h : HealthHandler) (m : metrics.ResourceMetrics) (g : Globals) :
  shouldRandomize g = true ->
  shouldRandomize (snd (run (evaluate h m) g)) = false ->
  reaches_overload_test h m = true /\ overloaded h m = true.
Proof.
  intros Hu Hl.
  destruct (reaches_overload_test h m) eqn:Ht.
  - split; [ reflexivity | ].
    destruct (overloaded h m) eqn:Ho; [ reflexivity | ].
    rewrite (run_healthy h m g Ht Ho) in Hl. discriminate.
  - destruct (guarded_evaluation h m g Ht) as [Hg _].
    rewrite Hg in Hl. congruence.
Qed.

(** The flag is released only by the overload test finding no overload. *)
Lemma unlock_only_when_not_overloaded
    (h : HealthHandler) (m : metrics.ResourceMetrics) (g : Globals) :
  shouldRandomize g = false ->
  shouldRandomize (snd (run (evaluate h m) g)) = true ->
  reaches_overload_test h m = true /\ overloaded h m = false.
Proof.
  intros Hl Hu.
  destruct (reaches_overload_test h m) eqn:Ht.
  - split; [ reflexivity | ].
    destruct (overloaded h m) eqn:Ho; [ | reflexivity ].
    rewrite (run_locked h m g Ht Ho Hl) in Hu. discriminate.
  - destruct (guarded_evaluation h m g Ht) as [Hg _].
    rewrite Hg in Hu. congruence.
Qed.

(** While the flag is locked, an evaluation that is stopped by a guard or
    finds the overload condition true keeps it locked and leaves the
    generator alone. *)
Lemma locked_step
    (h : HealthHandler) (m : metrics.ResourceMetrics) (g : Globals) :
  shouldRandomize g = false ->
  reaches_overload_test h m = false \/ overloaded h m = true ->
  shouldRandomize (snd (run (evaluate h m) g)) = false
  /\ rng (snd (run (evaluate h m) g)) = rng g
  /\ (reaches_overload_test h m = true ->
        label (fst (run (evaluate h m) g)) = Some "RESOURCE_EXHAUSTED"
        /\ statusCode (fst (run (evaluate h m) g)) = StatusBadRequest
        /\ accept (fst (run (evaluate h m) g)) = false).
Proof.
  intros Hl Hm.
  destruct (reaches_overload_test h m) eqn:Ht.
  - destruct Hm as [Hm | Ho]; [ discriminate | ].
    rewrite (run_locked h m g Ht Ho Hl). simpl. auto.
  - destruct (guarded_evaluation h m g Ht) as [Hg _].
    rewrite Hg. repeat split; try assumption; try reflexivity; discriminate.
Qed.

(** The same along a sequence of evaluations: nothing short of an
    evaluation that reaches the test and finds no overload releases the
    flag or consults the generator. *)
Lemma locked_run
    (h : HealthHandler) (ms : list metrics.ResourceMetrics) :
  forall g : Globals,
  shouldRandomize g = false ->
  Forall (fun m => reaches_overload_test h m = false \/ overloaded h m = true)
         ms ->
  shouldRandomize (snd (serve_all h ms g)) = false
  /\ rng (snd (serve_all h ms g)) = rng g
  /\ Forall2 (fun m r =>
                reaches_overload_test h m = true ->
                label r = Some "RESOURCE_EXHAUSTED"
                /\ statusCode r = StatusBadRequest
                /\ accept r = false)
             ms (fst (serve_all h ms g)).
Proof.
  induction ms as [ | m rest IH ]; intros g Hl Hall.
  - simpl. repeat split; try assumption. constructor.
  - inversion Hall as [ | ? ? Hm Hrest ]; subst.
    destruct (locked_step h m g Hl Hm) as (Hl' & Hrng & Hans).
    simpl. destruct (run (evaluate h m) g) as [r g'] eqn:Hrun.
    simpl in Hl', Hrng, Hans.
    destruct (IH g' Hl' Hrest) as (Hl'' & Hrng' & Hall').
    destruct (serve_all h rest g') as [rs g''] eqn:Hserve.
    simpl in *. repeat split.
    + exact Hl''.
    + congruence.
    + constructor; assumption.
Qed.

(** C2, as the code has it: the flag goes from UNLOCKED to LOCKED_REJECT
    only in an evaluation that reaches the overload test with an
    overloaded snapshot, and from LOCKED_REJECT to UNLOCKED only in one
    that reaches the test with a snapshot that is not overloaded.  While
    the flag is LOCKED_REJECT, an evaluation of an overloaded snapshot
    never consults the generator and keeps the flag locked; it answers
    RESOURCE_EXHAUSTED with the client-error code when it reaches the
    overload test, and with the accepting verdict of the guard (NOT_READY
    or POD_SHORTAGE) when a guard stops it first.  This lasts over any
    sequence of evaluations, until one reaches the test with a snapshot
    that is not overloaded. *)
Theorem sticky_flag_moves_only_at_the_overload_test
    (h : HealthHandler) (m : metrics.ResourceMetrics) (g : Globals)
    (ms : list metrics.ResourceMetrics) :
  let out := run (evaluate h m) g in
  (sticky g = UNLOCKED -> sticky (snd out) = LOCKED_REJECT ->
     reaches_overload_test h m = true /\ overloaded h m = true)
  /\ (sticky g = LOCKED_REJECT -> sticky (snd out) = UNLOCKED ->
        reaches_overload_test h m = true /\ overloaded h m = false)
  /\ (sticky g = LOCKED_REJECT -> overloaded h m = true ->
        sticky (snd out) = LOCKED_REJECT
        /\ rng (snd out) = rng g
        /\ (reaches_overload_test h m = true ->
              label (fst out) = Some "RESOURCE_EXHAUSTED"
              /\ statusCode (fst out) = StatusBadRequest
              /\ accept (fst out) = false)
        /\ (reaches_overload_test h m = false ->
              snd out = g
              /\ accept (fst out) = true
              /\ (label (fst out) = Some "NOT_READY"
                  \/ label (fst out) = Some "POD_SHORTAGE")))
  /\ (sticky g = LOCKED_REJECT ->
      Forall (fun m' => reaches_overload_test h m' = false
                        \/ overloaded h m' = true) ms ->
        sticky (snd (serve_all h ms g)) = LOCKED_REJECT
        /\ rng (snd (serve_all h ms g)) = rng g
        /\ Forall2 (fun m' r =>
                      reaches_overload_test h m' = true ->
                      label r = Some "RESOURCE_EXHAUSTED"
                      /\ statusCode r = StatusBadRequest
                      /\ accept r = false)
                   ms (fst (serve_all h ms g))).
Proof.
  intros out. subst out. repeat rewrite sticky_unlocked.
  repeat rewrite sticky_locked. split; [ | split; [ | split ] ].
  - apply lock_only_when_overloaded.
  - apply unlock_only_when_not_overloaded.
  - intros Hl Ho.
    destruct (locked_step h m g Hl (or_intror Ho)) as (H1 & H2 & H3).
    split; [ exact H1 | ]. split; [ exact H2 | ]. split; [ exact H3 | ].
    intros Ht. apply (guarded_evaluation h m g Ht).
  - intros Hl Hall. apply locked_run; assumption.
Qed.

Lemma sticky_flag_witness :
  sticky (scenario.locked scenario.three_quarters scenario.quarter)
  = LOCKED_REJECT
  /\ overloaded scenario.handler scenario.hot = true
  /\ reaches_overload_test scenario.handler scenario.hot = true
  /\ (let g := scenario.locked scenario.three_quarters scenario.quarter in
      let out := run (evaluate scenario.handler scenario.hot) g in
      sticky (snd out) = LOCKED_REJECT
      /\ rng (snd out) = rng g
      /\ label (fst out) = Some "RESOURCE_EXHAUSTED"
      /\ statusCode (fst out) = StatusBadRequest
      /\ accept (fst out) = false).
Proof.
  assert (Ho : overloaded scenario.handler scenario.hot = true)
    by (vm_compute; reflexivity).
  assert (Ht : reaches_overload_test scenario.handler scenario.hot = true)
    by (vm_compute; reflexivity).
  split; [ reflexivity | ]. split; [ exact Ho | ]. split; [ exact Ht | ].
  destruct (sticky_flag_moves_only_at_the_overload_test
              scenario.handler scenario.hot
              (scenario.locked scenario.three_quarters scenario.quarter) [])
    as (_ & _ & H3 & _).
  destruct (H3 eq_refl Ho) as (Ha & Hb & Hc & _).
  destruct (Hc Ht) as (Hl & Hs & Hacc).
  repeat split; assumption.
Defined.

(** C2 as stated fails: with the flag locked, an overloaded snapshot from
    a fleet with two replicas of ten available is answered POD_SHORTAGE
    with the success code, not RESOURCE_EXHAUSTED. *)
Lemma locked_overloaded_evaluation_can_be_accepted :
  ~ (forall (h : HealthHandler) (m : metrics.ResourceMetrics) (g : Globals),
       sticky g = LOCKED_REJECT ->
       overloaded h m = true ->
       label (fst (run (evaluate h m) g)) = Some "RESOURCE_EXHAUSTED"
       /\ accept (fst (run (evaluate h m) g)) = false).
Proof.
  intros H.
  destruct (H scenario.handler scenario.hot_and_thin
              (scenario.locked scenario.three_quarters scenario.quarter))
    as [_ Hacc].
  - reflexivity.
  - vm_compute; reflexivity.
  - vm_compute in Hacc. discriminate.
Qed.

(** Scenario C: a draw scaled to 75 locks the flag; the same hot snapshot
    is then refused again and again without a further draw, a calm
    snapshot releases the flag, and the next hot one draws afresh. *)
Example lock_stick_release :
  let out := serve_all scenario.handler
               [scenario.hot; scenario.hot; scenario.hot_and_thin;
                scenario.hot; scenario.calm; scenario.hot]
               (scenario.unlocked scenario.three_quarters scenario.quarter) in
  map label (fst out)
  = [Some "RESOURCE_EXHAUSTED"; Some "RESOURCE_EXHAUSTED";
     Some "POD_SHORTAGE"; Some "RESOURCE_EXHAUSTED"; Some "HEALTHY";
     Some "RESOURCE_OVERLOADED_BUT_KEEPING"]
  /\ map statusCode (fst out) = [400; 400; 200; 400; 200; 200]
  /\ drawn (rng (snd out)) = 2%nat
  /\ shouldRandomize (snd out) = true.
Proof. vm_compute. repeat split; reflexivity. Qed.

(** ** The health endpoint *)

(** Every answer of the decision carries one of the five labels, and its
    status code is the success code unless the label is
    RESOURCE_EXHAUSTED, whose code is the client-error one. *)
Lemma verdict_on_the_wire
    (h : HealthHandler) (m : metrics.ResourceMetrics) (g : Globals) :
  exists statusLabel : string,
    label (fst (run (evaluate h m) g)) = Some statusLabel
    /\ In statusLabel
         ["HEALTHY"; "NOT_READY"; "POD_SHORTAGE"; "RESOURCE_EXHAUSTED";
          "RESOURCE_OVERLOADED_BUT_KEEPING"]
    /\ statusCode (fst (run (evaluate h m) g))
       = (if verdict_accept statusLabel then StatusOK else StatusBadRequest)
    /\ accept (fst (run (evaluate h m) g)) = verdict_accept statusLabel.
Proof.
  destruct (reaches_overload_test h m) eqn:Ht.
  - destruct (overloaded h m) eqn:Ho.
    + destruct (shouldRandomize g) eqn:Hu.
      * destruct (F64.gtb (F64.mul (outputs (rng g) (drawn (rng g)))
                             (F64.of_int 100))
                    (config.MinimumPodsToKeepPercent (Config h))) eqn:Hd.
        -- rewrite (run_draw_reject h m g Ht Ho Hu Hd).
           exists "RESOURCE_EXHAUSTED". simpl. tauto.
        -- rewrite (run_draw_keep h m g Ht Ho Hu Hd).
           exists "RESOURCE_OVERLOADED_BUT_KEEPING". simpl. tauto.
      * rewrite (run_locked h m g Ht Ho Hu).
        exists "RESOURCE_EXHAUSTED". simpl. tauto.
    + rewrite (run_healthy h m g Ht Ho). exists "HEALTHY". simpl. tauto.
  - unfold reaches_overload_test in Ht.
    destruct (metrics.ContainerReady m) eqn:Hr.
    + simpl in Ht. apply negb_false_iff in Ht.
      rewrite (evaluate_pod_shortage h m Hr Ht).
      exists "POD_SHORTAGE". simpl. tauto.
    + rewrite (evaluate_not_ready h m Hr). exists "NOT_READY". simpl. tauto.
Qed.

(** The collection fails exactly when the client holds no limits. *)
Lemma collect_fails_without_limits (h : HealthHandler) (api : k8s.Cluster) :
  k8s.ContainerLimits (K8sClient h) = None ->
  exists err : error, collectResourceMetrics h api = inr err.
Proof.
  intros Hn. unfold collectResourceMetrics, k8s.GetContainerLimits.
  rewrite Hn. eexists. reflexivity.
Qed.

Lemma collect_succeeds_with_limits
    (h : HealthHandler) (api : k8s.Cluster) (l : metrics.ContainerLimits) :
  k8s.ContainerLimits (K8sClient h) = Some l ->
  exists m : metrics.ResourceMetrics,
    collectResourceMetrics h api = inl m
    /\ metrics.ContainerCPULimit m = metrics.CPULimit l
    /\ metrics.ContainerMemLimit m = metrics.MemLimit l.
Proof.
  intros Hs. unfold collectResourceMetrics, k8s.GetContainerLimits.
  rewrite Hs. eexists. split; [ reflexivity | ].
  repeat match goal with
         | |- context [ match ?x with _ => _ end ] => destruct x
         end; simpl; split; reflexivity.
Qed.

(** C8: for every health-check request, served from any state of the
    package-level variables: when the container limits cannot be obtained
    the answer is the service-unavailable code (503), it carries no
    verdict, and the decision is not run (no access to the package-level
    variables, which keep their values); otherwise a snapshot is collected,
    the decision runs on it, and its verdict goes on the wire as the
    success code (200) when it accepts and as the client-error code (400)
    when it refuses, a code of the 4xx class that differs from 503. *)
Theorem health_endpoint_status_codes
    (h : HealthHandler) (api : k8s.Cluster) (g : Globals) :
  let out := run (HealthHandler_ServeHTTP h api) g in
  (k8s.ContainerLimits (K8sClient h) = None ->
     statusCode (fst out) = StatusServiceUnavailable
     /\ label (fst out) = None
     /\ snd out = g
     /\ accesses (HealthHandler_ServeHTTP h api) g = O)
  /\ (forall l : metrics.ContainerLimits,
        k8s.ContainerLimits (K8sClient h) = Some l ->
        exists (m : metrics.ResourceMetrics) (statusLabel : string),
          collectResourceMetrics h api = inl m
          /\ out = run (evaluate h m) g
          /\ label (fst out) = Some statusLabel
          /\ accept (fst out) = verdict_accept statusLabel
          /\ (verdict_accept statusLabel = true ->
                statusCode (fst out) = StatusOK)
          /\ (verdict_accept statusLabel = false ->
                statusCode (fst out) = StatusBadRequest))
  /\ StatusOK = 200
  /\ StatusBadRequest = 400
  /\ StatusServiceUnavailable = 503
  /\ StatusBadRequest <> StatusServiceUnavailable.
Proof.
  intros out. subst out. split; [ | split ].
  - intros Hn. destruct (collect_fails_without_limits h api Hn) as [err He].
    unfold HealthHandler_ServeHTTP. rewrite He. simpl.
    repeat split; reflexivity.
  - intros l Hs.
    destruct (collect_succeeds_with_limits h api l Hs) as (m & Hm & _).
    destruct (verdict_on_the_wire h m g) as (s & Hl & _ & Hc & Ha).
    exists m, s. unfold HealthHandler_ServeHTTP. rewrite Hm.
    split; [ reflexivity | ]. split; [ reflexivity | ].
    split; [ exact Hl | ]. split; [ exact Ha | ].
    rewrite Hc. split; intros Hv; rewrite Hv; reflexivity.
  - repeat split; try reflexivity. discriminate.
Qed.

Lemma health_endpoint_witness :
  k8s.ContainerLimits (K8sClient scenario.handler_without_limits) = None
  /\ (let g := scenario.unlocked scenario.three_quarters scenario.quarter in
      let out := run (HealthHandler_ServeHTTP scenario.handler_without_limits
                        scenario.cluster) g in
      statusCode (fst out) = StatusServiceUnavailable
      /\ label (fst out) = None
      /\ snd out = g
      /\ accesses (HealthHandler_ServeHTTP scenario.handler_without_limits
                     scenario.cluster) g = O).
Proof.
  split; [ reflexivity | ].
  destruct (health_endpoint_status_codes
              scenario.handler_without_limits scenario.cluster
              (scenario.unlocked scenario.three_quarters scenario.quarter))
    as (H1 & _).
  exact (H1 eq_refl).
Defined.

(** The three codes on the scenario: no limits, a calm snapshot, and a hot
    one whose draw locks. *)
Example health_endpoint_codes_on_the_scenario :
  let g := scenario.unlocked scenario.three_quarters scenario.quarter in
  statusCode (fst (run (HealthHandler_ServeHTTP
                          scenario.handler_without_limits scenario.cluster) g))
  = 503
  /\ snd (run (HealthHandler_ServeHTTP
                 scenario.handler_without_limits scenario.cluster) g) = g
  /\ collectResourceMetrics scenario.handler scenario.cluster
     = inl scenario.hot
  /\ statusCode (fst (run (HealthHandler_ServeHTTP
                             scenario.handler scenario.cluster) g)) = 400
  /\ label (fst (run (HealthHandler_ServeHTTP
                        scenario.handler scenario.cluster) g))
     = Some "RESOURCE_EXHAUSTED".
Proof. vm_compute. repeat split; reflexivity. Qed.

(** ** The metrics endpoint *)

(** C9: for every request to the metrics endpoint, served from any
    state of the package-level variables, the handler makes no access to
    them, so the sticky flag, the generator and the overload flag keep
    their values; its answer is the collected snapshot itself with the
    success code, or the service-unavailable code when the collection
    fails, and never carries a verdict. *)
Theorem metrics_endpoint_renders_snapshot_and_keeps_state
    (h : MetricsHandler) (api : k8s.Cluster) (g : Globals) :
  let out := run (MetricsHandler_ServeHTTP h api) g in
  snd out = g
  /\ sticky (snd out) = sticky g
  /\ rng (snd out) = rng g
  /\ accesses (MetricsHandler_ServeHTTP h api) g = O
  /\ label (fst out) = None
  /\ match collectResourceMetrics (MH_HealthHandler h) api with
     | inl m =>
         fst out = {| statusCode := StatusOK; body := JSONResourceMetrics m |}
     | inr err =>
         statusCode (fst out) = StatusServiceUnavailable
         /\ body (fst out) = Text ("Failed to collect metrics: " +:+ err)
     end.
Proof.
  intros out. subst out. unfold MetricsHandler_ServeHTTP.
  destruct (collectResourceMetrics (MH_HealthHandler h) api) as [m | err];
    simpl; repeat split; reflexivity.
Qed.

(** ** Failure to read the deployment *)

(** When the deployment cannot be read, the replica fields of the
    snapshot keep their zero value. *)
Lemma replicas_stay_zero_without_deployment
    (h : HealthHandler) (api : k8s.Cluster) (err : error)
    (m : metrics.ResourceMetrics) :
  k8s.Deployments api = inl err ->
  collectResourceMetrics h api = inl m ->
  metrics.DeploymentReplicas m = 0
  /\ metrics.DeploymentAvailableReplicas m = 0.
Proof.
  intros Hd Hc. unfold collectResourceMetrics, k8s.GetDeploymentInfo in Hc.
  rewrite Hd in Hc.
  destruct (k8s.GetContainerLimits (K8sClient h)); [ | discriminate ].
  injection Hc as <-.
  repeat match goal with
         | |- context [ match ?x with _ => _ end ] => destruct x
         end; simpl; split; reflexivity.
Qed.

(** C10: when the deployment cannot be read, the snapshot that is
    collected has both replica fields at zero and a ratio of available
    replicas of exactly 0.0; so, when the container is ready and the
    configured minimum is above zero, the request is answered
    POD_SHORTAGE with the success code, without any access to the
    package-level variables: the overload test is not reached and the
    sticky flag and the generator keep their values. *)
Theorem unreadable_deployment_is_a_pod_shortage
    (h : HealthHandler) (api : k8s.Cluster) (g : Globals) (err : error)
    (m : metrics.ResourceMetrics) :
  k8s.Deployments api = inl err ->
  collectResourceMetrics h api = inl m ->
  metrics.ContainerReady m = true ->
  F64.gtb (config.MinimumPodsToKeepPercent (Config h)) F64.zero = true ->
  let out := run (HealthHandler_ServeHTTP h api) g in
  metrics.DeploymentReplicas m = 0
  /\ metrics.DeploymentAvailableReplicas m = 0
  /\ calcPodsRatio h m = F64.zero
  /\ label (fst out) = Some "POD_SHORTAGE"
  /\ statusCode (fst out) = StatusOK
  /\ accept (fst out) = true
  /\ reaches_overload_test h m = false
  /\ snd out = g
  /\ accesses (HealthHandler_ServeHTTP h api) g = O.
Proof.
  intros Hd Hc Hr Hmin out. subst out.
  destruct (replicas_stay_zero_without_deployment h api err m Hd Hc)
    as [Hrep Hav].
  assert (Hratio : calcPodsRatio h m = F64.zero).
  { unfold calcPodsRatio. rewrite Hrep. reflexivity. }
  split; [ exact Hrep | ]. split; [ exact Hav | ]. split; [ exact Hratio | ].
  assert (Hs : F64.ltb (calcPodsRatio h m)
                 (config.MinimumPodsToKeepPercent (Config h)) = true).
  { rewrite Hratio. exact Hmin. }
  unfold HealthHandler_ServeHTTP. rewrite Hc.
  rewrite (evaluate_pod_shortage h m Hr Hs). simpl.
  repeat split; try reflexivity.
  unfold reaches_overload_test. rewrite Hs, Hr. reflexivity.
Qed.

Lemma unreadable_deployment_witness :
  k8s.Deployments scenario.cluster_without_deployment
  = inl "context deadline exceeded"
  /\ collectResourceMetrics scenario.handler scenario.cluster_without_deployment
     = inl (scenario.snapshot true 0 0 900 900)
  /\ metrics.ContainerReady (scenario.snapshot true 0 0 900 900) = true
  /\ F64.gtb (config.MinimumPodsToKeepPercent (Config scenario.handler))
             F64.zero = true
  /\ overloaded scenario.handler (scenario.snapshot true 0 0 900 900) = true
  /\ (let h := scenario.handler in
      let m := scenario.snapshot true 0 0 900 900 in
      let g := scenario.unlocked scenario.three_quarters scenario.quarter in
      let out := run (HealthHandler_ServeHTTP h
                        scenario.cluster_without_deployment) g in
      metrics.DeploymentReplicas m = 0
      /\ metrics.DeploymentAvailableReplicas m = 0
      /\ calcPodsRatio h m = F64.zero
      /\ label (fst out) = Some "POD_SHORTAGE"
      /\ statusCode (fst out) = StatusOK
      /\ accept (fst out) = true
      /\ reaches_overload_test h m = false
      /\ snd out = g
      /\ accesses (HealthHandler_ServeHTTP h
                     scenario.cluster_without_deployment) g = O).
Proof.
  split; [ reflexivity | ].
  split; [ vm_compute; reflexivity | ].
  split; [ reflexivity | ].
  split; [ vm_compute; reflexivity | ].
  split; [ vm_compute; reflexivity | ].
  apply (unreadable_deployment_is_a_pod_shortage
           scenario.handler scenario.cluster_without_deployment
           (scenario.unlocked scenario.three_quarters scenario.quarter)
           "context deadline exceeded"
           (scenario.snapshot true 0 0 900 900)).
  - reflexivity.
  - vm_compute; reflexivity.
  - reflexivity.
  - vm_compute; reflexivity.
Defined.

(** ** The ratio calculators *)

(** The quotient and the product that a calculator forms when its
    denominator is positive are never a NaN, and the divisor is a finite
    number other than zero. *)
Lemma percentage_not_nan (usage limit : Z) :
  0 < limit <= 2 ^ 63 ->
  - 2 ^ 63 <= usage <= 2 ^ 63 ->
  F64.is_zero (F64.of_int limit) = false
  /\ F64.is_finite (F64.of_int limit) = true
  /\ F64.is_nan (F64.mul (F64.div (F64.of_int usage) (F64.of_int limit))
                   (F64.of_int 100)) = false.
Proof.
  intros Hl Hu.
  destruct (of_int_finite limit ltac:(lia) ltac:(lia)) as (ml & el & Hlim).
  rewrite Hlim. split; [ reflexivity | ]. split; [ reflexivity | ].
  assert (Hq : F64.div (F64.of_int usage) (S754_finite (limit <? 0) ml el)
               <> S754_nan).
  { apply (SFdiv_not_nan _ _ (limit <? 0) ml el); [ reflexivity | ].
    destruct (Z.eq_dec usage 0) as [-> | Hnz].
    - left. exists false. reflexivity.
    - right. destruct (of_int_finite usage Hnz Hu) as (mu & eu & Hus).
      rewrite Hus. eauto. }
  pose proof (SFmul_not_nan _ _ false 7036874417766400 (-46) of_int_100 Hq)
    as Hp.
  change (F64.mul (F64.div (F64.of_int usage)
                     (S754_finite (limit <? 0) ml el)) (F64.of_int 100)
          <> S754_nan) in Hp.
  destruct (F64.mul (F64.div (F64.of_int usage)
                       (S754_finite (limit <? 0) ml el)) (F64.of_int 100));
    try reflexivity.
  exfalso. apply Hp. reflexivity.
Qed.

Lemma int32_in_int64 (z : Z) : int32_range z -> - 2 ^ 63 <= z <= 2 ^ 63.
Proof. unfold int32_range. lia. Qed.

Lemma int64_in_bounds (z : Z) : int64_range z -> - 2 ^ 63 <= z <= 2 ^ 63.
Proof. unfold int64_range. lia. Qed.

(** C7: the three ratio calculators are functions of the snapshot
    alone, defined on every snapshot.  Each returns exactly 0.0 when its
    denominator (the replica count or the limit) is at most zero;
    otherwise it divides by a finite number other than zero and returns
    usage / limit * 100 as computed in binary64, with no clamping.  On
    every snapshot whose fields fit their Go integer types the result is
    not a NaN. *)
Theorem ratio_calculators_are_total_and_never_nan
    (h : HealthHandler) (m : metrics.ResourceMetrics) :
  well_typed m ->
  ratio_contract (metrics.DeploymentAvailableReplicas m)
    (metrics.DeploymentReplicas m) (calcPodsRatio h m)
  /\ ratio_contract (metrics.ContainerMemUsage m)
       (metrics.ContainerMemLimit m) (calcMemoryPercent h m)
  /\ ratio_contract (metrics.ContainerCPUUsage m)
       (metrics.ContainerCPULimit m) (calcCPUPercent h m).
Proof.
  intros [Hrep Hav Hcl Hml Hcu Hmu].
  apply int32_in_int64 in Hrep, Hav. apply int64_in_bounds in Hcl, Hml, Hcu, Hmu.
  unfold calcPodsRatio, calcMemoryPercent, calcCPUPercent, ratio_contract.
  split; [ | split ].
  - destruct (Z.leb_spec (metrics.DeploymentReplicas m) 0) as [Hle | Hgt].
    + split; [ reflexivity | ]. split; [ lia | reflexivity ].
    + destruct (percentage_not_nan (metrics.DeploymentAvailableReplicas m)
                  (metrics.DeploymentReplicas m) ltac:(lia) Hav)
        as (Hz & _ & Hn).
      split; [ lia | ]. split; [ | exact Hn ]. intros _. split;
        [ exact Hz | reflexivity ].
  - destruct (Z.leb_spec (metrics.ContainerMemLimit m) 0) as [Hle | Hgt].
    + split; [ reflexivity | ]. split; [ lia | reflexivity ].
    + destruct (percentage_not_nan (metrics.ContainerMemUsage m)
                  (metrics.ContainerMemLimit m) ltac:(lia) Hmu)
        as (Hz & _ & Hn).
      split; [ lia | ]. split; [ | exact Hn ]. intros _. split;
        [ exact Hz | reflexivity ].
  - destruct (Z.leb_spec (metrics.ContainerCPULimit m) 0) as [Hle | Hgt].
    + split; [ reflexivity | ]. split; [ lia | reflexivity ].
    + destruct (percentage_not_nan (metrics.ContainerCPUUsage m)
                  (metrics.ContainerCPULimit m) ltac:(lia) Hcu)
        as (Hz & _ & Hn).
      split; [ lia | ]. split; [ | exact Hn ]. intros _. split;
        [ exact Hz | reflexivity ].
Qed.

Lemma well_typed_snapshot (ready : bool) (replicas available cpu mem : Z) :
  int32_range replicas -> int32_range available ->
  int64_range cpu -> int64_range mem ->
  well_typed (scenario.snapshot ready replicas available cpu mem).
Proof.
  intros Hr Ha Hc Hm. constructor; simpl; try assumption;
    unfold int64_range; lia.
Qed.

Lemma ratio_calculators_witness :
  well_typed scenario.hot_and_thin
  /\ ratio_contract 2 10 (calcPodsRatio scenario.handler scenario.hot_and_thin)
  /\ ratio_contract 900 1000
       (calcMemoryPercent scenario.handler scenario.hot_and_thin)
  /\ ratio_contract 900 1000
       (calcCPUPercent scenario.handler scenario.hot_and_thin).
Proof.
  assert (H : well_typed scenario.hot_and_thin).
  { apply well_typed_snapshot; unfold int32_range, int64_range; lia. }
  split; [ exact H | ].
  apply (ratio_calculators_are_total_and_never_nan
           scenario.handler scenario.hot_and_thin H).
Defined.

(** The cases of [health_test.go], a usage above its limit, which is not
    clamped to 100, and a negative denominator. *)
Example ratio_calculators_on_the_tests :
  calcPodsRatio scenario.handler (scenario.snapshot true 10 5 0 0)
  = F64.of_int 50
  /\ calcPodsRatio scenario.handler (scenario.snapshot true 0 5 0 0) = F64.zero
  /\ calcMemoryPercent scenario.handler (scenario.snapshot true 10 10 0 500)
     = F64.of_int 50
  /\ calcCPUPercent scenario.handler (scenario.snapshot true 10 10 800 0)
     = F64.of_int 80
  /\ calcCPUPercent scenario.handler (scenario.snapshot true 10 10 1500 0)
     = F64.of_int 150
  /\ F64.gtb (calcCPUPercent scenario.handler
                (scenario.snapshot true 10 10 1500 0)) (F64.of_int 100) = true
  /\ calcPodsRatio scenario.handler (scenario.snapshot true (-3) 5 0 0)
     = F64.zero.
Proof. vm_compute. repeat split; reflexivity. Qed.

(** ** Concurrent health checks *)

(** A goroutine scheduled alone behaves as [run] says. *)
Lemma interleave_alone {A : Type} (p : Prog A) :
  forall g : Globals,
  interleave (repeat O (accesses p g)) [p] g
  = ([Ret (fst (run p g))], snd (run p g)).
Proof.
  induction p as [a | X e k IH]; intros g.
  - reflexivity.
  - cbn [accesses run]. destruct (perform e g) as [x g'] eqn:He.
    cbn [repeat interleave]. change ([Vis e k] !! O) with (Some (Vis e k)).
    cbn [step1]. rewrite He. apply IH.
Qed.

(** Two goroutines evaluate an overloaded snapshot while the flag is
    UNLOCKED, and the first value of the generator locks the flag.
    Served one after the other, the second finds the flag locked and the
    generator is consulted once; scheduled so that both read the flag
    before either draws, both consult the generator. *)
Lemma second_goroutine_draws_after_the_lock
    (h : HealthHandler) (m : metrics.ResourceMetrics) (g : Globals) :
  reaches_overload_test h m = true ->
  overloaded h m = true ->
  shouldRandomize g = true ->
  F64.gtb (F64.mul (outputs (rng g) (drawn (rng g))) (F64.of_int 100))
          (config.MinimumPodsToKeepPercent (Config h)) = true ->
  drawn (rng (snd (serially [evaluate h m; evaluate h m] g)))
  = S (drawn (rng g))
  /\ drawn (rng (snd (interleave [0; 0; 0; 1; 1; 1; 0; 0; 1]%nat
                        [evaluate h m; evaluate h m] g)))
     = S (S (drawn (rng g))).
Proof.
  intros Ht Ho Hu Hd. split.
  - simpl. rewrite (run_draw_reject h m g Ht Ho Hu Hd).
    rewrite (run_locked h m
               {| resourceOverLoaded := true;
                  rng := {| outputs := outputs (rng g);
                            drawn := S (drawn (rng g)) |};
                  shouldRandomize := false |} Ht Ho eq_refl).
    reflexivity.
  - unfold reaches_overload_test, overloaded in Ht, Ho.
    apply andb_true_iff in Ht as [Hr Hs]. apply negb_true_iff in Hs.
    unfold evaluate. rewrite Hr, Hs. simpl. rewrite Ho. simpl.
    rewrite Hu. simpl. rewrite Hd. simpl.
    destruct (F64.gtb (F64.mul (outputs (rng g) (S (drawn (rng g))))
                         (F64.of_int 100))
                (config.MinimumPodsToKeepPercent (Config h)));
      reflexivity.
Qed.

(** C4 does not hold of the handler: it takes no lock, and two health
    checks of the same hot snapshot that are served concurrently can both
    read the flag as UNLOCKED and both draw.  With a generator that
    answers 0.75 and then 0.25, served one after the other they are
    both refused after a single draw; under the schedule below the first
    locks the flag and is refused while the second, which read the flag
    before, draws again and is accepted.  The overload flag itself is
    shared too: a calm snapshot whose goroutine is overtaken between its
    store and its load of [resourceOverLoaded] is refused as
    RESOURCE_EXHAUSTED, which no order of serving them one at a time
    produces. *)
Theorem concurrent_health_checks_are_not_serialized :
  let hot := evaluate scenario.handler scenario.hot in
  let calm := evaluate scenario.handler scenario.calm in
  let unlocked := scenario.unlocked scenario.three_quarters scenario.quarter in
  let locked := scenario.locked scenario.three_quarters scenario.quarter in
  (map label (fst (serially [hot; hot] unlocked))
   = [Some "RESOURCE_EXHAUSTED"; Some "RESOURCE_EXHAUSTED"]
   /\ drawn (rng (snd (serially [hot; hot] unlocked))) = 1%nat)
  /\ (let out := interleave [0; 0; 0; 1; 1; 1; 0; 0; 1]%nat [hot; hot] unlocked in
      map (option_map label) (results (fst out))
      = [Some (Some "RESOURCE_EXHAUSTED");
         Some (Some "RESOURCE_OVERLOADED_BUT_KEEPING")]
      /\ map (option_map statusCode) (results (fst out))
         = [Some 400; Some 200]
      /\ drawn (rng (snd out)) = 2%nat
      /\ sticky (snd out) = LOCKED_REJECT)
  /\ (map label (fst (serially [calm; hot] locked))
      = [Some "HEALTHY"; Some "RESOURCE_EXHAUSTED"]
      /\ map label (fst (serially [hot; calm] locked))
         = [Some "RESOURCE_EXHAUSTED"; Some "HEALTHY"])
  /\ (let out := interleave [0; 1; 0; 0; 1; 1]%nat [calm; hot] locked in
      map (option_map label) (results (fst out))
      = [Some (Some "RESOURCE_EXHAUSTED"); Some (Some "RESOURCE_EXHAUSTED")]
      /\ map (option_map statusCode) (results (fst out))
         = [Some 400; Some 400]).
Proof. vm_compute. repeat split; reflexivity. Qed.

(** * Further properties *)

(** ** The decision, path by path *)

Ltac evaluate_paths h m g :=
  let Ht := fresh "Ht" in
  let Ho := fresh "Ho" in
  let Hu := fresh "Hu" in
  let Hd := fresh "Hd" in
  let Hr := fresh "Hr" in
  destruct (reaches_overload_test h m) eqn:Ht;
  [ destruct (overloaded h m) eqn:Ho;
    [ destruct (shouldRandomize g) eqn:Hu;
      [ destruct (F64.gtb (F64.mul (outputs (rng g) (drawn (rng g)))
                             (F64.of_int 100))
                    (config.MinimumPodsToKeepPercent (Config h))) eqn:Hd;
        [ rewrite (run_draw_reject h m g Ht Ho Hu Hd)
        | rewrite (run_draw_keep h m g Ht Ho Hu Hd) ]
      | rewrite (run_locked h m g Ht Ho Hu) ]
    | rewrite (run_healthy h m g Ht Ho) ]
  | pose proof Ht as Hr; unfold reaches_overload_test in Hr;
    destruct (bool_dec (metrics.ContainerReady m) true) as [Hready | Hready];
    [ rewrite Hready in Hr; simpl in Hr; apply negb_false_iff in Hr;
      rewrite (evaluate_pod_shortage h m Hready Hr)
    | apply not_true_is_false in Hready;
      rewrite (evaluate_not_ready h m Hready) ] ].

(** X1: whatever the verdict, the body of the answer carries the
    snapshot: the name of the deployment, both replica counts, the name
    and readiness of the container, its usage and limits, and the three
    percentages as the calculators return them. *)
Theorem answer_always_echoes_the_snapshot
    (h : HealthHandler) (m : metrics.ResourceMetrics) (g : Globals) :
  exists d : Details,
    body (fst (run (evaluate h m) g)) = JSONDetails d
    /\ deployment d
       = {| deployment_name := config.DeploymentName (Config h);
            replicas := metrics.DeploymentReplicas m;
            available_replicas := metrics.DeploymentAvailableReplicas m;
            availability_percent := calcPodsRatio h m |}
    /\ container d
       = {| container_name := metrics.ContainerName m;
            ready := metrics.ContainerReady m;
            memory_usage_mb := metrics.ContainerMemUsage m;
            memory_limit_mb := metrics.ContainerMemLimit m;
            memory_percent := calcMemoryPercent h m;
            cpu_usage_millicores := metrics.ContainerCPUUsage m;
            cpu_limit_millicores := metrics.ContainerCPULimit m;
            cpu_percent := calcCPUPercent h m |}.
Proof.
  evaluate_paths h m g; simpl; eexists; repeat split; reflexivity.
Qed.

(** X2: the health check refuses the probe exactly when the container is
    ready, the ratio of available replicas is not below the minimum, CPU
    and memory are both strictly above their thresholds, and either the
    flag was already locked or the value just drawn, scaled by 100, is
    strictly above the minimum. *)
Theorem refusal_characterised
    (h : HealthHandler) (m : metrics.ResourceMetrics) (g : Globals) :
  statusCode (fst (run (evaluate h m) g)) = StatusBadRequest
  <-> metrics.ContainerReady m = true
      /\ F64.ltb (calcPodsRatio h m)
                 (config.MinimumPodsToKeepPercent (Config h)) = false
      /\ F64.gtb (calcMemoryPercent h m)
                 (config.ResourceThresholdMemoryPercent (Config h)) = true
      /\ F64.gtb (calcCPUPercent h m)
                 (config.ResourceThresholdCPUPercent (Config h)) = true
      /\ (shouldRandomize g = false
          \/ F64.gtb (F64.mul (outputs (rng g) (drawn (rng g)))
                              (F64.of_int 100))
                     (config.MinimumPodsToKeepPercent (Config h)) = true).
Proof.
  assert (Hreach : reaches_overload_test h m = true <->
                   metrics.ContainerReady m = true
                   /\ F64.ltb (calcPodsRatio h m)
                        (config.MinimumPodsToKeepPercent (Config h)) = false).
  { unfold reaches_overload_test. rewrite andb_true_iff, negb_true_iff.
    tauto. }
  assert (Hover : overloaded h m = true <->
                  F64.gtb (calcMemoryPercent h m)
                    (config.ResourceThresholdMemoryPercent (Config h)) = true
                  /\ F64.gtb (calcCPUPercent h m)
                       (config.ResourceThresholdCPUPercent (Config h)) = true).
  { unfold overloaded. apply andb_true_iff. }
  evaluate_paths h m g; simpl; split;
    try discriminate; try (intros _; tauto);
    try (intros (H1 & H2 & H3 & H4 & H5); exfalso);
    try (destruct Hover as [_ Hover]; specialize (Hover (conj H3 H4));
         congruence);
    try (destruct H5 as [H5 | H5]; congruence);
    try congruence.
Qed.

(** X3: one evaluation takes at most one value from the generator and
    never alters the values it will return; it takes one exactly when
    the overload test is reached, finds the snapshot overloaded, and the
    flag is UNLOCKED. *)
Theorem generator_is_consulted_only_for_an_unlocked_overload
    (h : HealthHandler) (m : metrics.ResourceMetrics) (g : Globals) :
  let g' := snd (run (evaluate h m) g) in
  outputs (rng g') = outputs (rng g)
  /\ (drawn (rng g') = drawn (rng g) \/ drawn (rng g') = S (drawn (rng g)))
  /\ (drawn (rng g') = S (drawn (rng g))
      <-> reaches_overload_test h m = true
          /\ overloaded h m = true
          /\ shouldRandomize g = true).
Proof.
  evaluate_paths h m g; simpl; repeat split; auto; intros;
    try (exfalso; lia); try congruence;
    try (match goal with H : _ /\ _ /\ _ |- _ => destruct H as (? & ? & ?) end;
         congruence).
Qed.

Lemma gtb_nan_r (x y : float64) : F64.is_nan y = true -> F64.gtb x y = false.
Proof. destruct y; try discriminate. intros _. reflexivity. Qed.

Lemma ltb_nan_r (x y : float64) : F64.is_nan y = true -> F64.ltb x y = false.
Proof.
  destruct y; try discriminate. intros _. destruct x; reflexivity.
Qed.

(** X4: when either resource threshold of the configuration is a NaN,
    no snapshot is ever overloaded: every evaluation is answered with the
    success code, takes nothing from the generator, and leaves the flag
    UNLOCKED whenever it reaches the overload test. *)
Theorem nan_resource_threshold_disables_refusal
    (h : HealthHandler) (m : metrics.ResourceMetrics) (g : Globals) :
  F64.is_nan (config.ResourceThresholdCPUPercent (Config h)) = true
  \/ F64.is_nan (config.ResourceThresholdMemoryPercent (Config h)) = true ->
  overloaded h m = false
  /\ statusCode (fst (run (evaluate h m) g)) = StatusOK
  /\ rng (snd (run (evaluate h m) g)) = rng g
  /\ (reaches_overload_test h m = true ->
      label (fst (run (evaluate h m) g)) = Some "HEALTHY"
      /\ shouldRandomize (snd (run (evaluate h m) g)) = true).
Proof.
  intros Hnan.
  assert (Ho : overloaded h m = false).
  { unfold overloaded. destruct Hnan as [Hn | Hn].
    - rewrite (gtb_nan_r (calcCPUPercent h m) _ Hn). apply andb_false_r.
    - rewrite (gtb_nan_r (calcMemoryPercent h m) _ Hn). reflexivity. }
  split; [ exact Ho | ].
  destruct (reaches_overload_test h m) eqn:Ht.
  - rewrite (run_healthy h m g Ht Ho). simpl. auto.
  - destruct (guarded_evaluation h m g Ht) as (Hg & Hacc & _).
    rewrite Hg. unfold accept in Hacc. apply Z.eqb_eq in Hacc.
    split; [ exact Hacc | ]. split; [ reflexivity | ].
    intros H. discriminate.
Qed.

Lemma nan_resource_threshold_witness :
  (F64.is_nan (config.ResourceThresholdCPUPercent
                 (Config (NewHealthHandler
                            (K8sClient scenario.handler)
                            (MetricsCollector scenario.handler)
                            (startup.nan_cpu_threshold)))) = true
   \/ F64.is_nan (config.ResourceThresholdMemoryPercent
                    (Config (NewHealthHandler
                               (K8sClient scenario.handler)
                               (MetricsCollector scenario.handler)
                               (startup.nan_cpu_threshold)))) = true)
  /\ (let h := NewHealthHandler (K8sClient scenario.handler)
                 (MetricsCollector scenario.handler)
                 startup.nan_cpu_threshold in
      let g := scenario.locked scenario.three_quarters scenario.quarter in
      overloaded h scenario.hot = false
      /\ statusCode (fst (run (evaluate h scenario.hot) g)) = StatusOK
      /\ rng (snd (run (evaluate h scenario.hot) g)) = rng g
      /\ (reaches_overload_test h scenario.hot = true ->
          label (fst (run (evaluate h scenario.hot) g)) = Some "HEALTHY"
          /\ shouldRandomize (snd (run (evaluate h scenario.hot) g)) = true)).
Proof.
  assert (H : F64.is_nan (config.ResourceThresholdCPUPercent
                 (Config (NewHealthHandler
                            (K8sClient scenario.handler)
                            (MetricsCollector scenario.handler)
                            (startup.nan_cpu_threshold)))) = true
   \/ F64.is_nan (config.ResourceThresholdMemoryPercent
                    (Config (NewHealthHandler
                               (K8sClient scenario.handler)
                               (MetricsCollector scenario.handler)
                               (startup.nan_cpu_threshold)))) = true)
    by (left; reflexivity).
  split; [ exact H | ].
  apply (nan_resource_threshold_disables_refusal
           (NewHealthHandler (K8sClient scenario.handler)
              (MetricsCollector scenario.handler) startup.nan_cpu_threshold)
           scenario.hot
           (scenario.locked scenario.three_quarters scenario.quarter) H).
Defined.

(** X5: when the minimum of the configuration is a NaN, the shortage
    guard never answers and the backoff never locks: a ready container is
    never answered POD_SHORTAGE, and an evaluation that starts with the
    flag UNLOCKED ends with the flag UNLOCKED and the success code. *)
Theorem nan_minimum_disables_guard_and_lock
    (h : HealthHandler) (m : metrics.ResourceMetrics) (g : Globals) :
  F64.is_nan (config.MinimumPodsToKeepPercent (Config h)) = true ->
  label (fst (run (evaluate h m) g)) <> Some "POD_SHORTAGE"
  /\ reaches_overload_test h m = metrics.ContainerReady m
  /\ (shouldRandomize g = true ->
      shouldRandomize (snd (run (evaluate h m) g)) = true
      /\ statusCode (fst (run (evaluate h m) g)) = StatusOK).
Proof.
  intros Hnan.
  pose proof (ltb_nan_r (calcPodsRatio h m) _ Hnan) as Hs.
  pose proof (gtb_nan_r (F64.mul (outputs (rng g) (drawn (rng g)))
                           (F64.of_int 100)) _ Hnan) as Hd0.
  assert (Hreach : reaches_overload_test h m = metrics.ContainerReady m).
  { unfold reaches_overload_test. rewrite Hs. apply andb_true_r. }
  evaluate_paths h m g; simpl; repeat split;
    try discriminate; try congruence; try assumption; auto;
    try (intros; congruence).
Qed.

Lemma nan_minimum_witness :
  F64.is_nan (config.MinimumPodsToKeepPercent
                (Config (NewHealthHandler (K8sClient scenario.handler)
                           (MetricsCollector scenario.handler)
                           startup.nan_minimum))) = true
  /\ (let h := NewHealthHandler (K8sClient scenario.handler)
                 (MetricsCollector scenario.handler) startup.nan_minimum in
      let g := scenario.unlocked scenario.three_quarters scenario.quarter in
      label (fst (run (evaluate h scenario.hot_and_thin) g))
      <> Some "POD_SHORTAGE"
      /\ reaches_overload_test h scenario.hot_and_thin
         = metrics.ContainerReady scenario.hot_and_thin
      /\ (shouldRandomize g = true ->
          shouldRandomize (snd (run (evaluate h scenario.hot_and_thin) g))
          = true
          /\ statusCode (fst (run (evaluate h scenario.hot_and_thin) g))
             = StatusOK)).
Proof.
  split; [ reflexivity | ].
  apply (nan_minimum_disables_guard_and_lock
           (NewHealthHandler (K8sClient scenario.handler)
              (MetricsCollector scenario.handler) startup.nan_minimum)
           scenario.hot_and_thin
           (scenario.unlocked scenario.three_quarters scenario.quarter)).
  reflexivity.
Defined.

(** X6: a snapshot that is not overloaded and reaches the overload test
    releases the flag whatever its value, so that the next overloaded
    snapshot is decided by a fresh draw: the first is answered HEALTHY,
    the second takes the next value of the generator and is refused or
    kept according to that value alone. *)
Theorem reset_then_fresh_draw
    (h : HealthHandler) (m1 m2 : metrics.ResourceMetrics) (g : Globals) :
  reaches_overload_test h m1 = true ->
  overloaded h m1 = false ->
  reaches_overload_test h m2 = true ->
  overloaded h m2 = true ->
  let out := serve_all h [m1; m2] g in
  let r := F64.mul (outputs (rng g) (drawn (rng g))) (F64.of_int 100) in
  map label (fst out)
  = [ Some "HEALTHY";
      Some (if F64.gtb r (config.MinimumPodsToKeepPercent (Config h))
            then "RESOURCE_EXHAUSTED"
            else "RESOURCE_OVERLOADED_BUT_KEEPING") ]
  /\ drawn (rng (snd out)) = S (drawn (rng g))
  /\ shouldRandomize (snd out)
     = negb (F64.gtb r (config.MinimumPodsToKeepPercent (Config h))).
Proof.
  intros Ht1 Ho1 Ht2 Ho2 out r. subst out. simpl.
  rewrite (run_healthy h m1 g Ht1 Ho1).
  destruct (F64.gtb r (config.MinimumPodsToKeepPercent (Config h))) eqn:Hd.
  - rewrite (run_draw_reject h m2
               {| resourceOverLoaded := false; rng := rng g;
                  shouldRandomize := true |} Ht2 Ho2 eq_refl Hd).
    simpl. auto.
  - rewrite (run_draw_keep h m2
               {| resourceOverLoaded := false; rng := rng g;
                  shouldRandomize := true |} Ht2 Ho2 eq_refl Hd).
    simpl. auto.
Qed.

Lemma reset_then_fresh_draw_witness :
  reaches_overload_test scenario.handler scenario.calm = true
  /\ overloaded scenario.handler scenario.calm = false
  /\ reaches_overload_test scenario.handler scenario.hot = true
  /\ overloaded scenario.handler scenario.hot = true
  /\ (let h := scenario.handler in
      let g := scenario.locked scenario.three_quarters scenario.quarter in
      let out := serve_all h [scenario.calm; scenario.hot] g in
      let r := F64.mul (outputs (rng g) (drawn (rng g))) (F64.of_int 100) in
      map label (fst out)
      = [ Some "HEALTHY";
          Some (if F64.gtb r (config.MinimumPodsToKeepPercent (Config h))
                then "RESOURCE_EXHAUSTED"
                else "RESOURCE_OVERLOADED_BUT_KEEPING") ]
      /\ drawn (rng (snd out)) = S (drawn (rng g))
      /\ shouldRandomize (snd out)
         = negb (F64.gtb r (config.MinimumPodsToKeepPercent (Config h)))).
Proof.
  assert (H1 : reaches_overload_test scenario.handler scenario.calm = true)
    by (vm_compute; reflexivity).
  assert (H2 : overloaded scenario.handler scenario.calm = false)
    by (vm_compute; reflexivity).
  assert (H3 : reaches_overload_test scenario.handler scenario.hot = true)
    by (vm_compute; reflexivity).
  assert (H4 : overloaded scenario.handler scenario.hot = true)
    by (vm_compute; reflexivity).
  split; [ exact H1 | ]. split; [ exact H2 | ].
  split; [ exact H3 | ]. split; [ exact H4 | ].
  apply (reset_then_fresh_draw scenario.handler scenario.calm scenario.hot
           (scenario.locked scenario.three_quarters scenario.quarter)
           H1 H2 H3 H4).
Defined.

(** ** Collecting the snapshot *)

Lemma last_match_cons {A : Type} (f : A -> bool) (x : A) (l : list A) :
  last_match f (x :: l)
  = match last_match f l with
    | Some y => Some y
    | None => if f x then Some x else None
    end.
Proof.
  unfold last_match. simpl. destruct (f x).
  - rewrite last_cons. reflexivity.
  - destruct (last (List.filter f l)); reflexivity.
Qed.

Lemma collectStatuses_lookup (cfg : config.Config)
    (cs : list k8s.ContainerStatus) :
  forall (acc : gmap string (option metrics.ContainerMetrics)) (key : string),
  k8s.collectStatuses cfg cs acc !! key
  = if decide (key = config.ContainerName cfg) then
      match last_status cfg cs with
      | Some s =>
          Some (Some {| metrics.Name := k8s.StatusName s;
                        metrics.CPUUsage := 0;
                        metrics.MemUsage := 0;
                        metrics.Ready := k8s.StatusReady s |})
      | None => acc !! key
      end
    else acc !! key.
Proof.
  unfold last_status.
  induction cs as [ | s rest IH ]; intros acc key.
  - simpl. destruct (decide (key = config.ContainerName cfg)); reflexivity.
  - simpl k8s.collectStatuses. rewrite last_match_cons.
    destruct (String.eqb_spec (k8s.StatusName s) (config.ContainerName cfg))
      as [Heq | Hne].
    + rewrite IH. destruct (decide (key = config.ContainerName cfg)) as [-> | Hk].
      * destruct (last_match _ rest); [ reflexivity | ].
        rewrite Heq, lookup_insert_eq. reflexivity.
      * rewrite lookup_insert_ne by congruence. reflexivity.
    + rewrite IH. destruct (decide (key = config.ContainerName cfg));
        [ | reflexivity ].
      destruct (last_match _ rest); reflexivity.
Qed.

Lemma collectContainers_lookup (cfg : config.Config)
    (cs : list metrics.ContainerUsage) :
  forall (acc : gmap string (option metrics.ContainerMetrics)) (key : string),
  metrics.collectContainers cfg cs acc !! key
  = if decide (key = config.ContainerName cfg) then
      match last_usage cfg cs with
      | Some u =>
          Some (Some {| metrics.Name := metrics.UsageName u;
                        metrics.CPUUsage := metrics.CpuMilliValue u;
                        metrics.MemUsage :=
                          Z.quot (metrics.MemoryValue u) (1024 * 1024);
                        metrics.Ready := false |})
      | None => acc !! key
      end
    else acc !! key.
Proof.
  unfold last_usage.
  induction cs as [ | u rest IH ]; intros acc key.
  - simpl. destruct (decide (key = config.ContainerName cfg)); reflexivity.
  - simpl metrics.collectContainers. rewrite last_match_cons.
    destruct (String.eqb_spec (metrics.UsageName u) (config.ContainerName cfg))
      as [Heq | Hne].
    + rewrite IH. destruct (decide (key = config.ContainerName cfg)) as [-> | Hk].
      * destruct (last_match _ rest); [ reflexivity | ].
        rewrite Heq, lookup_insert_eq. reflexivity.
      * rewrite lookup_insert_ne by congruence. reflexivity.
    + rewrite IH. destruct (decide (key = config.ContainerName cfg));
        [ | reflexivity ].
      destruct (last_match _ rest); reflexivity.
Qed.

(** X7: the container map that [GetPodInfo] returns for a pod holds the
    configured container name and nothing else: indexing it at that name
    gives the readiness of the last listed status of that name (a nil
    pointer when no status bears it), and indexing it at any other name
    gives a nil pointer.  When the pod cannot be read the call fails. *)
Theorem GetPodInfo_keeps_only_the_configured_container
    (c : k8s.Client) (api : k8s.Cluster) :
  match k8s.Pods api with
  | inl err => k8s.GetPodInfo c api = Failure ("获取Pod失败: " +:+ err)
  | inr pod =>
      exists info : metrics.PodMetrics,
        k8s.GetPodInfo c api = Success (Some info)
        /\ metrics.Ready
             <$> metrics.index (metrics.Containers info)
                   (config.ContainerName (k8s.Config c))
           = k8s.StatusReady
               <$> last_status (k8s.Config c) (k8s.ContainerStatuses pod)
        /\ forall key : string,
             key <> config.ContainerName (k8s.Config c) ->
             metrics.index (metrics.Containers info) key = None
  end.
Proof.
  unfold k8s.GetPodInfo. destruct (k8s.Pods api) as [err | pod];
    [ reflexivity | ].
  eexists. split; [ reflexivity | ]. simpl. split.
  - rewrite collectStatuses_lookup.
    destruct (decide (config.ContainerName (k8s.Config c)
                      = config.ContainerName (k8s.Config c))); [ | congruence ].
    destruct (last_status (k8s.Config c) (k8s.ContainerStatuses pod));
      reflexivity.
  - intros key Hk. rewrite collectStatuses_lookup.
    destruct (decide (key = config.ContainerName (k8s.Config c)));
      [ congruence | reflexivity ].
Qed.

(** X8: the container map that [GetPodMetrics] returns holds the
    configured container name and nothing else: indexing it at that name
    gives the usage of the last listed container of that name, with the
    CPU in millicores as reported and the memory in whole mebibytes, the
    byte count divided by 1048576 and truncated; indexing it at any other
    name gives a nil pointer. *)
Theorem GetPodMetrics_keeps_only_the_configured_container
    (mc : metrics.MetricsCollector) (usages : list metrics.ContainerUsage) :
  exists info : metrics.PodMetrics,
    metrics.GetPodMetrics mc (inr usages) = Success (Some info)
    /\ (fun c => (metrics.CPUUsage c, metrics.MemUsage c))
         <$> metrics.index (metrics.Containers info)
               (config.ContainerName (metrics.Config mc))
       = (fun u => (metrics.CpuMilliValue u,
                    Z.quot (metrics.MemoryValue u) 1048576))
           <$> last_usage (metrics.Config mc) usages
    /\ (forall key : string,
          key <> config.ContainerName (metrics.Config mc) ->
          metrics.index (metrics.Containers info) key = None)
    /\ (forall c : metrics.ContainerMetrics,
          metrics.index (metrics.Containers info)
            (config.ContainerName (metrics.Config mc)) = Some c ->
          forall u : metrics.ContainerUsage,
          last_usage (metrics.Config mc) usages = Some u ->
          0 <= metrics.MemoryValue u ->
          metrics.MemUsage c * 1048576 <= metrics.MemoryValue u
          < (metrics.MemUsage c + 1) * 1048576).
Proof.
  unfold metrics.GetPodMetrics. eexists. split; [ reflexivity | ]. simpl.
  split; [ | split ].
  - rewrite collectContainers_lookup.
    destruct (decide (config.ContainerName (metrics.Config mc)
                      = config.ContainerName (metrics.Config mc)));
      [ | congruence ].
    destruct (last_usage (metrics.Config mc) usages); reflexivity.
  - intros key Hk. rewrite collectContainers_lookup.
    destruct (decide (key = config.ContainerName (metrics.Config mc)));
      [ congruence | reflexivity ].
  - intros c Hc u Hu Hpos. rewrite collectContainers_lookup in Hc.
    destruct (decide (config.ContainerName (metrics.Config mc)
                      = config.ContainerName (metrics.Config mc)));
      [ | congruence ].
    rewrite Hu in Hc. simpl in Hc. injection Hc as <-. simpl.
    change (1024 * 1024) with 1048576.
    rewrite Z.quot_div_nonneg by lia.
    pose proof (Z.div_mod (metrics.MemoryValue u) 1048576 ltac:(lia)).
    pose proof (Z.mod_pos_bound (metrics.MemoryValue u) 1048576 ltac:(lia)).
    lia.
Qed.

Lemma collect_snapshot_of
    (h : HealthHandler) (api : k8s.Cluster) (l : metrics.ContainerLimits) :
  wired h ->
  k8s.ContainerLimits (K8sClient h) = Some l ->
  collectResourceMetrics h api = inl (snapshot_of (Config h) l api).
Proof.
  intros [Hk Hm] Hl.
  unfold collectResourceMetrics, k8s.GetContainerLimits,
    k8s.GetDeploymentInfo, k8s.GetPodInfo, metrics.GetPodMetrics,
    snapshot_of.
  rewrite Hl, Hk, Hm. f_equal.
  destruct (k8s.Deployments api) as [e1 | d];
    destruct (k8s.Pods api) as [e2 | pod];
    destruct (k8s.PodMetricses api) as [e3 | usages];
    simpl; unfold metrics.index;
    rewrite ?collectStatuses_lookup, ?collectContainers_lookup;
    destruct (decide (config.ContainerName (Config h)
                      = config.ContainerName (Config h)));
    try congruence;
    try destruct (last_status (Config h) (k8s.ContainerStatuses pod));
    try destruct (last_usage (Config h) usages);
    reflexivity.
Qed.

(** X9: for a handler wired to one configuration whose client holds the
    limits, collecting never fails and yields, field by field, what the
    cluster reported: the replica counts of the deployment, the readiness
    of the last listed status of the configured container, its usage
    with the memory in whole mebibytes, the cached limits, and the zero
    value for each part the cluster failed to report.  The metrics
    endpoint answers that snapshot with the success code. *)
Theorem collected_snapshot_is_what_the_cluster_reports
    (h : HealthHandler) (mh : MetricsHandler) (api : k8s.Cluster)
    (l : metrics.ContainerLimits) (g : Globals) :
  wired h ->
  k8s.ContainerLimits (K8sClient h) = Some l ->
  MH_HealthHandler mh = h ->
  collectResourceMetrics h api = inl (snapshot_of (Config h) l api)
  /\ run (MetricsHandler_ServeHTTP mh api) g
     = ({| statusCode := StatusOK;
           body := JSONResourceMetrics (snapshot_of (Config h) l api) |}, g).
Proof.
  intros Hw Hl Hmh.
  pose proof (collect_snapshot_of h api l Hw Hl) as Hc.
  split; [ exact Hc | ].
  unfold MetricsHandler_ServeHTTP. rewrite Hmh, Hc. reflexivity.
Qed.

Lemma scenario_is_wired : wired scenario.handler.
Proof. split; reflexivity. Qed.

Lemma collected_snapshot_witness :
  wired scenario.handler
  /\ k8s.ContainerLimits (K8sClient scenario.handler) = Some scenario.limits
  /\ MH_HealthHandler startup.metrics_handler = scenario.handler
  /\ snapshot_of scenario.cfg scenario.limits scenario.cluster = scenario.hot
  /\ collectResourceMetrics scenario.handler scenario.cluster
     = inl (snapshot_of (Config scenario.handler) scenario.limits
              scenario.cluster)
  /\ run (MetricsHandler_ServeHTTP startup.metrics_handler scenario.cluster)
         (scenario.locked scenario.quarter scenario.quarter)
     = ({| statusCode := StatusOK;
           body := JSONResourceMetrics
                     (snapshot_of (Config scenario.handler) scenario.limits
                        scenario.cluster) |},
        scenario.locked scenario.quarter scenario.quarter).
Proof.
  split; [ exact scenario_is_wired | ].
  split; [ reflexivity | ]. split; [ reflexivity | ].
  split; [ vm_compute; reflexivity | ].
  apply (collected_snapshot_is_what_the_cluster_reports
           scenario.handler startup.metrics_handler scenario.cluster
           scenario.limits (scenario.locked scenario.quarter scenario.quarter)
           scenario_is_wired eq_refl eq_refl).
Defined.

(** X10: when the pod cannot be read, or lists no status of the
    configured container, a wired handler that holds the limits answers
    the health check NOT_READY with the success code, whatever the
    deployment and the usage are, and leaves the package-level variables
    as they were. *)
Theorem unreadable_pod_is_not_ready
    (h : HealthHandler) (api : k8s.Cluster) (l : metrics.ContainerLimits)
    (g : Globals) :
  wired h ->
  k8s.ContainerLimits (K8sClient h) = Some l ->
  (exists err, k8s.Pods api = inl err)
  \/ (exists pod, k8s.Pods api = inr pod
                  /\ last_status (Config h) (k8s.ContainerStatuses pod) = None) ->
  label (fst (run (HealthHandler_ServeHTTP h api) g)) = Some "NOT_READY"
  /\ statusCode (fst (run (HealthHandler_ServeHTTP h api) g)) = StatusOK
  /\ snd (run (HealthHandler_ServeHTTP h api) g) = g.
Proof.
  intros Hw Hl Hpod.
  pose proof (collect_snapshot_of h api l Hw Hl) as Hc.
  assert (Hr : metrics.ContainerReady (snapshot_of (Config h) l api) = false).
  { unfold snapshot_of. simpl.
    destruct Hpod as [[err ->] | (pod & -> & ->)]; reflexivity. }
  unfold HealthHandler_ServeHTTP. rewrite Hc.
  rewrite (evaluate_not_ready h _ Hr). simpl. auto.
Qed.

Lemma unreadable_pod_witness :
  wired scenario.handler
  /\ k8s.ContainerLimits (K8sClient scenario.handler) = Some scenario.limits
  /\ ((exists err, k8s.Pods startup.cluster_without_pod = inl err)
      \/ (exists pod,
            k8s.Pods startup.cluster_without_pod = inr pod
            /\ last_status (Config scenario.handler)
                 (k8s.ContainerStatuses pod) = None))
  /\ (let g := scenario.locked scenario.quarter scenario.quarter in
      let out := run (HealthHandler_ServeHTTP scenario.handler
                        startup.cluster_without_pod) g in
      label (fst out) = Some "NOT_READY"
      /\ statusCode (fst out) = StatusOK
      /\ snd out = g).
Proof.
  assert (H : (exists err, k8s.Pods startup.cluster_without_pod = inl err)
      \/ (exists pod,
            k8s.Pods startup.cluster_without_pod = inr pod
            /\ last_status (Config scenario.handler)
                 (k8s.ContainerStatuses pod) = None)).
  { left. eexists. reflexivity. }
  split; [ exact scenario_is_wired | ]. split; [ reflexivity | ].
  split; [ exact H | ].
  apply (unreadable_pod_is_not_ready scenario.handler
           startup.cluster_without_pod scenario.limits
           (scenario.locked scenario.quarter scenario.quarter)
           scenario_is_wired eq_refl H).
Defined.

(** ** Usage that cannot be read *)

Lemma of_int_0 : F64.of_int 0 = S754_zero false.
Proof. reflexivity. Qed.

(** With a usage of zero a percentage is a zero. *)
Lemma percentage_of_zero_usage (limit : Z) :
  - 2 ^ 63 <= limit <= 2 ^ 63 ->
  exists s : bool,
    (if limit <=? 0 then F64.zero
     else F64.mul (F64.div (F64.of_int 0) (F64.of_int limit)) (F64.of_int 100))
    = S754_zero s.
Proof.
  intros Hl. destruct (Z.leb_spec limit 0) as [Hle | Hgt].
  - exists false. reflexivity.
  - destruct (of_int_finite limit ltac:(lia) Hl) as (ml & el & ->).
    rewrite of_int_0, of_int_100. eexists. reflexivity.
Qed.

(** A zero is not above a threshold that is at least zero. *)
Lemma zero_not_above_nonnegative (s : bool) (threshold : float64) :
  F64.leb F64.zero threshold = true ->
  F64.gtb (S754_zero s) threshold = false.
Proof.
  destruct threshold as [s' | s' | | s' m e]; try discriminate;
    destruct s'; try discriminate; intros _; destruct s; reflexivity.
Qed.

(** X11: when the usage of the pod cannot be read, the snapshot of a
    wired handler holds a usage of zero, both percentages are zeros, and
    provided one of the two resource thresholds is at least zero the
    health check is never refused: the answer has the success code, the
    generator is not consulted, and an evaluation that reaches the
    overload test answers HEALTHY and releases the flag. *)
Theorem unreadable_usage_never_refuses
    (h : HealthHandler) (api : k8s.Cluster) (l : metrics.ContainerLimits)
    (err : error) (g : Globals) :
  wired h ->
  k8s.ContainerLimits (K8sClient h) = Some l ->
  int64_range (metrics.CPULimit l) ->
  int64_range (metrics.MemLimit l) ->
  k8s.PodMetricses api = inl err ->
  F64.leb F64.zero (config.ResourceThresholdCPUPercent (Config h)) = true
  \/ F64.leb F64.zero (config.ResourceThresholdMemoryPercent (Config h)) = true ->
  let m := snapshot_of (Config h) l api in
  let out := run (HealthHandler_ServeHTTP h api) g in
  metrics.ContainerCPUUsage m = 0
  /\ metrics.ContainerMemUsage m = 0
  /\ F64.is_zero (calcCPUPercent h m) = true
  /\ F64.is_zero (calcMemoryPercent h m) = true
  /\ statusCode (fst out) = StatusOK
  /\ rng (snd out) = rng g
  /\ (reaches_overload_test h m = true ->
      label (fst out) = Some "HEALTHY" /\ shouldRandomize (snd out) = true).
Proof.
  intros Hw Hl Hcl Hml Hpm Hthr m out.
  pose proof (collect_snapshot_of h api l Hw Hl) as Hc.
  assert (Hcu : metrics.ContainerCPUUsage m = 0)
    by (subst m; unfold snapshot_of; simpl; rewrite Hpm; reflexivity).
  assert (Hmu : metrics.ContainerMemUsage m = 0)
    by (subst m; unfold snapshot_of; simpl; rewrite Hpm; reflexivity).
  destruct (percentage_of_zero_usage (metrics.CPULimit l)
              (int64_in_bounds _ Hcl)) as [sc Hpc].
  destruct (percentage_of_zero_usage (metrics.MemLimit l)
              (int64_in_bounds _ Hml)) as [sm Hpmem].
  assert (Hcpu : calcCPUPercent h m = S754_zero sc).
  { unfold calcCPUPercent. rewrite Hcu. exact Hpc. }
  assert (Hmem : calcMemoryPercent h m = S754_zero sm).
  { unfold calcMemoryPercent. rewrite Hmu. exact Hpmem. }
  assert (Ho : overloaded h m = false).
  { unfold overloaded. rewrite Hcpu, Hmem. destruct Hthr as [Ht | Ht].
    - rewrite (zero_not_above_nonnegative sc _ Ht). apply andb_false_r.
    - rewrite (zero_not_above_nonnegative sm _ Ht). reflexivity. }
  split; [ exact Hcu | ]. split; [ exact Hmu | ].
  split; [ rewrite Hcpu; reflexivity | ].
  split; [ rewrite Hmem; reflexivity | ].
  subst out. unfold HealthHandler_ServeHTTP. rewrite Hc. fold m.
  destruct (reaches_overload_test h m) eqn:Ht.
  - rewrite (run_healthy h m g Ht Ho). simpl. auto.
  - destruct (guarded_evaluation h m g Ht) as (Hg & Hacc & _).
    rewrite Hg. unfold accept in Hacc. apply Z.eqb_eq in Hacc.
    split; [ exact Hacc | ]. split; [ reflexivity | ].
    intros H. discriminate.
Qed.

Lemma unreadable_usage_witness :
  wired scenario.handler
  /\ k8s.ContainerLimits (K8sClient scenario.handler) = Some scenario.limits
  /\ int64_range (metrics.CPULimit scenario.limits)
  /\ int64_range (metrics.MemLimit scenario.limits)
  /\ k8s.PodMetricses startup.cluster_without_metrics
     = inl "the server is currently unable to handle the request"
  /\ (F64.leb F64.zero
        (config.ResourceThresholdCPUPercent (Config scenario.handler)) = true
      \/ F64.leb F64.zero
           (config.ResourceThresholdMemoryPercent (Config scenario.handler))
         = true)
  /\ (let h := scenario.handler in
      let g := scenario.locked scenario.quarter scenario.quarter in
      let m := snapshot_of (Config h) scenario.limits
                 startup.cluster_without_metrics in
      let out := run (HealthHandler_ServeHTTP h
                        startup.cluster_without_metrics) g in
      metrics.ContainerCPUUsage m = 0
      /\ metrics.ContainerMemUsage m = 0
      /\ F64.is_zero (calcCPUPercent h m) = true
      /\ F64.is_zero (calcMemoryPercent h m) = true
      /\ statusCode (fst out) = StatusOK
      /\ rng (snd out) = rng g
      /\ (reaches_overload_test h m = true ->
          label (fst out) = Some "HEALTHY"
          /\ shouldRandomize (snd out) = true)).
Proof.
  assert (H1 : int64_range (metrics.CPULimit scenario.limits))
    by (unfold int64_range; simpl; lia).
  assert (H2 : int64_range (metrics.MemLimit scenario.limits))
    by (unfold int64_range; simpl; lia).
  assert (H3 : F64.leb F64.zero
        (config.ResourceThresholdCPUPercent (Config scenario.handler)) = true
      \/ F64.leb F64.zero
           (config.ResourceThresholdMemoryPercent (Config scenario.handler))
         = true) by (left; reflexivity).
  split; [ exact scenario_is_wired | ]. split; [ reflexivity | ].
  split; [ exact H1 | ]. split; [ exact H2 | ].
  split; [ reflexivity | ]. split; [ exact H3 | ].
  apply (unreadable_usage_never_refuses scenario.handler
           startup.cluster_without_metrics scenario.limits
           "the server is currently unable to handle the request"
           (scenario.locked scenario.quarter scenario.quarter)
           scenario_is_wired eq_refl H1 H2 eq_refl H3).
Defined.

(** ** Reading the limits at start-up *)

Lemma quot_mebibyte_positive (bytes : Z) :
  (Z.quot bytes (1024 * 1024) <=? 0) = negb (1024 * 1024 <=? bytes).
Proof.
  change (1024 * 1024) with 1048576.
  destruct (Z.leb_spec 1048576 bytes) as [Hge | Hlt]; simpl;
    apply Z.leb_le || apply Z.leb_gt.
  - rewrite Z.quot_div_nonneg by lia.
    apply Z.div_str_pos. lia.
  - destruct (Z.le_gt_cases 0 bytes) as [Hpos | Hneg].
    + rewrite Z.quot_small by lia. lia.
    + pose proof (Z.quot_opp_l bytes 1048576 ltac:(lia)) as Hopp.
      assert (0 <= Z.quot (- bytes) 1048576)
        by (apply Z.quot_pos; lia).
      lia.
Qed.

Lemma scanContainers_find (cfg : config.Config)
    (containers : list k8s.ContainerSpec) :
  forall lastErr : option error,
  match List.find (is_valid_spec cfg) containers with
  | Some c => k8s.scanContainers cfg containers lastErr = inl (limits_of c)
  | None => exists e, k8s.scanContainers cfg containers lastErr = inr e
  end.
Proof.
  induction containers as [ | c rest IH ]; intros lastErr; simpl.
  - eauto.
  - unfold is_valid_spec at 1.
    destruct (String.eqb (k8s.SpecName c) (config.ContainerName cfg)); simpl.
    + rewrite quot_mebibyte_positive.
      rewrite (Z.leb_antisym 0 (k8s.LimitsCpuMilliValue c)).
      rewrite <- negb_andb.
      destruct ((0 <? k8s.LimitsCpuMilliValue c)
                && (1024 * 1024 <=? k8s.LimitsMemoryValue c)); simpl.
      * reflexivity.
      * apply IH.
    + apply IH.
Qed.

Lemma scanContainers_answer (cfg : config.Config)
    (containers : list k8s.ContainerSpec) (lastErr : option error) :
  match answer_limits cfg (inr containers) with
  | Some l => k8s.scanContainers cfg containers lastErr = inl l
  | None => exists e, k8s.scanContainers cfg containers lastErr = inr e
  end.
Proof.
  pose proof (scanContainers_find cfg containers lastErr) as H.
  unfold answer_limits.
  destruct (List.find (is_valid_spec cfg) containers); exact H.
Qed.

(** The loop succeeds with the limits of the first attempt that yields
    some. *)
Lemma retryLoop_inl (cfg : config.Config)
    (get : nat -> error + list k8s.ContainerSpec) (l : metrics.ContainerLimits) :
  forall (n i : nat) (lastErr : option error),
  k8s.retryLoop cfg get n i lastErr = inl l
  <-> exists k : nat,
        (k < n)%nat
        /\ answer_limits cfg (get (i + k)%nat) = Some l
        /\ forall j : nat, (j < k)%nat ->
                           answer_limits cfg (get (i + j)%nat) = None.
Proof.
  induction n as [ | n IH ]; intros i lastErr; simpl.
  - split; [ discriminate | intros (k & Hk & _); lia ].
  - assert (Hstep :
              (exists k : nat,
                 (k < n)%nat
                 /\ answer_limits cfg (get (S i + k)%nat) = Some l
                 /\ forall j : nat, (j < k)%nat ->
                      answer_limits cfg (get (S i + j)%nat) = None)
              -> answer_limits cfg (get i) = None
              -> exists k : nat,
                   (k < S n)%nat
                   /\ answer_limits cfg (get (i + k)%nat) = Some l
                   /\ forall j : nat, (j < k)%nat ->
                        answer_limits cfg (get (i + j)%nat) = None).
    { intros (k & Hk & Hl & Hbefore) Hnone. exists (S k).
      split; [ lia | ]. split.
      - replace (i + S k)%nat with (S i + k)%nat by lia. exact Hl.
      - intros j Hj. destruct j as [ | j ].
        + rewrite Nat.add_0_r. exact Hnone.
        + replace (i + S j)%nat with (S i + j)%nat by lia.
          apply Hbefore. lia. }
    assert (Hback : (exists k : nat,
                   (k < S n)%nat
                   /\ answer_limits cfg (get (i + k)%nat) = Some l
                   /\ forall j : nat, (j < k)%nat ->
                        answer_limits cfg (get (i + j)%nat) = None)
              -> answer_limits cfg (get i) = None
              -> exists k : nat,
                 (k < n)%nat
                 /\ answer_limits cfg (get (S i + k)%nat) = Some l
                 /\ forall j : nat, (j < k)%nat ->
                      answer_limits cfg (get (S i + j)%nat) = None).
    { intros (k & Hk & Hl & Hbefore) Hnone. destruct k as [ | k ].
      - rewrite Nat.add_0_r in Hl. congruence.
      - exists k. split; [ lia | ]. split.
        + replace (S i + k)%nat with (i + S k)%nat by lia. exact Hl.
        + intros j Hj. replace (S i + j)%nat with (i + S j)%nat by lia.
          apply Hbefore. lia. }
    destruct (get i) as [err | containers] eqn:Hget.
    + rewrite IH. split.
      * intros H. apply (Hstep H). reflexivity.
      * intros H. apply Hback; [ exact H | ]. reflexivity.
    + pose proof (scanContainers_answer cfg containers lastErr) as Hscan.
      destruct (answer_limits cfg (inr containers)) as [l0 | ] eqn:Hans.
      * rewrite Hscan. split.
        -- intros [= <-]. exists 0%nat. split; [ lia | ].
           rewrite Nat.add_0_r, Hget. split; [ exact Hans | ].
           intros j Hj. lia.
        -- intros (k & Hk & Hl & Hbefore). destruct k as [ | k ].
           ++ rewrite Nat.add_0_r, Hget, Hans in Hl. congruence.
           ++ specialize (Hbefore 0%nat ltac:(lia)).
              rewrite Nat.add_0_r, Hget, Hans in Hbefore. discriminate.
      * destruct Hscan as [e ->]. rewrite IH. split.
        -- intros H. apply (Hstep H). reflexivity.
        -- intros H. apply Hback; [ exact H | ]. reflexivity.
Qed.

(** When the loop gives up, the error it holds speaks of its last
    attempt alone. *)
Lemma retryLoop_inr (cfg : config.Config)
    (get : nat -> error + list k8s.ContainerSpec) :
  forall (n i : nat) (lastErr e : option error),
  k8s.retryLoop cfg get (S n) i lastErr = inr e ->
  e = Some match get (i + n)%nat with
           | inl err => "获取Deployment失败: " +:+ err
           | inr _ =>
               "在Deployment[" +:+ config.DeploymentName cfg
               +:+ "]中未找到容器[" +:+ config.ContainerName cfg +:+ "]"
           end.
Proof.
  induction n as [ | n IH ]; intros i lastErr e.
  - simpl. rewrite Nat.add_0_r. destruct (get i) as [err | containers].
    + intros [= <-]. reflexivity.
    + destruct (k8s.scanContainers cfg containers lastErr);
        [ discriminate | ]. intros [= <-]. reflexivity.
  - change (k8s.retryLoop cfg get (S (S n)) i lastErr)
      with (match get i with
            | inl err =>
                k8s.retryLoop cfg get (S n) (S i)
                  (Some ("获取Deployment失败: " +:+ err))
            | inr containers =>
                match k8s.scanContainers cfg containers lastErr with
                | inl limits => inl limits
                | inr _ =>
                    k8s.retryLoop cfg get (S n) (S i)
                      (Some ("在Deployment[" +:+ config.DeploymentName cfg
                             +:+ "]中未找到容器[" +:+ config.ContainerName cfg
                             +:+ "]"))
                end
            end).
    replace (i + S n)%nat with (S i + n)%nat by lia.
    destruct (get i) as [err | containers].
    + apply IH.
    + destruct (k8s.scanContainers cfg containers lastErr);
        [ discriminate | ]. apply IH.
Qed.

(** X12: [initContainerLimits] makes at most five attempts and returns
    the limits of the first attempt whose deployment lists a container of
    the configured name with a positive CPU limit and a memory limit of
    at least one mebibyte, taking the first such container and giving the
    memory in whole mebibytes; attempts that fail before it are retried,
    and answers after the fifth are never looked at. *)
Theorem initContainerLimits_returns_first_valid_attempt
    (c : k8s.Client) (get : nat -> error + list k8s.ContainerSpec)
    (l : metrics.ContainerLimits) :
  (k8s.initContainerLimits c get = inl l
   <-> exists k : nat,
         (k < 5)%nat
         /\ answer_limits (k8s.Config c) (get k) = Some l
         /\ forall j : nat, (j < k)%nat ->
                            answer_limits (k8s.Config c) (get j) = None)
  /\ (forall get' : nat -> error + list k8s.ContainerSpec,
        (forall i : nat, (i < 5)%nat -> get' i = get i) ->
        k8s.initContainerLimits c get' = k8s.initContainerLimits c get).
Proof.
  assert (Hiff : forall g0,
            k8s.initContainerLimits c g0 = inl l
            <-> exists k : nat,
                  (k < 5)%nat
                  /\ answer_limits (k8s.Config c) (g0 k) = Some l
                  /\ forall j : nat, (j < k)%nat ->
                       answer_limits (k8s.Config c) (g0 j) = None).
  { intros g0. unfold k8s.initContainerLimits.
    pose proof (retryLoop_inl (k8s.Config c) g0 l k8s.maxRetries 0 None)
      as Hloop.
    simpl Nat.add in Hloop. change k8s.maxRetries with 5%nat in Hloop.
    change k8s.maxRetries with 5%nat.
    destruct (k8s.retryLoop (k8s.Config c) g0 5 0 None) as [l0 | e].
    - rewrite <- Hloop. split; congruence.
    - rewrite <- Hloop. split; discriminate. }
  split; [ apply Hiff | ].
  intros get' Hsame. unfold k8s.initContainerLimits.
  assert (Hloop : k8s.retryLoop (k8s.Config c) get' k8s.maxRetries 0 None
                  = k8s.retryLoop (k8s.Config c) get k8s.maxRetries 0 None).
  { unfold k8s.maxRetries. simpl.
    rewrite !Hsame by lia.
    repeat match goal with
           | |- context [ match get ?i with _ => _ end ] =>
               destruct (get i)
           | |- context [ match k8s.scanContainers ?a ?b ?c with _ => _ end ] =>
               destruct (k8s.scanContainers a b c)
           end; reflexivity. }
  rewrite Hloop. reflexivity.
Qed.

(** A loop that gives up has found no limits at any of its attempts. *)
Lemma retryLoop_inr_none (cfg : config.Config)
    (get : nat -> error + list k8s.ContainerSpec) :
  forall (n i : nat) (lastErr e : option error),
  k8s.retryLoop cfg get n i lastErr = inr e ->
  forall k : nat, (k < n)%nat -> answer_limits cfg (get (i + k)%nat) = None.
Proof.
  induction n as [ | n IH ]; intros i lastErr e Hloop k Hk; [ lia | ].
  simpl in Hloop.
  assert (Hhere : answer_limits cfg (get i) = None
                  /\ exists e0, k8s.retryLoop cfg get n (S i) e0 = inr e).
  { destruct (get i) as [err | containers].
    - split; [ reflexivity | eauto ].
    - pose proof (scanContainers_answer cfg containers lastErr) as Hscan.
      destruct (answer_limits cfg (inr containers)) as [l0 | ].
      + rewrite Hscan in Hloop. discriminate.
      + destruct Hscan as [e1 Hscan]. rewrite Hscan in Hloop.
        split; [ reflexivity | eauto ]. }
  destruct Hhere as [Hnone [e0 Hrest]].
  destruct k as [ | k ].
  - rewrite Nat.add_0_r. exact Hnone.
  - replace (i + S k)%nat with (S i + k)%nat by lia.
    apply (IH (S i) e0 e Hrest). lia.
Qed.

(** X13: when [initContainerLimits] gives up, none of its five attempts
    has yielded limits, and the error it returns speaks of the fifth
    attempt alone: the failure to read the deployment at that attempt, or
    else that the container was not found.  Limits that were found but
    rejected as not valid are reported as a container that was not
    found. *)
Theorem initContainerLimits_reports_only_the_last_attempt
    (c : k8s.Client) (get : nat -> error + list k8s.ContainerSpec)
    (e : error) :
  k8s.initContainerLimits c get = inr e ->
  (forall k : nat, (k < 5)%nat ->
                   answer_limits (k8s.Config c) (get k) = None)
  /\ e = "经过5次尝试，无法获取容器资源限制: "
         +:+ match get 4%nat with
             | inl err => "获取Deployment失败: " +:+ err
             | inr _ =>
                 "在Deployment[" +:+ config.DeploymentName (k8s.Config c)
                 +:+ "]中未找到容器[" +:+ config.ContainerName (k8s.Config c)
                 +:+ "]"
             end.
Proof.
  unfold k8s.initContainerLimits. change k8s.maxRetries with 5%nat.
  destruct (k8s.retryLoop (k8s.Config c) get 5 0 None) as [l | lastErr]
    eqn:Hloop; [ discriminate | ].
  intros [= <-]. split.
  - intros k Hk.
    exact (retryLoop_inr_none (k8s.Config c) get 5 0 None lastErr Hloop k Hk).
  - pose proof (retryLoop_inr (k8s.Config c) get 4 0 None lastErr Hloop)
      as ->.
    reflexivity.
Qed.

Lemma initContainerLimits_failure_witness :
  let c := {| k8s.Config := scenario.cfg; k8s.ContainerLimits := None |} in
  k8s.initContainerLimits c startup.always_tiny
  = inr ("经过5次尝试，无法获取容器资源限制: "
         +:+ "在Deployment[aliexpress]中未找到容器[aliexpress]")
  /\ forall k : nat, (k < 5)%nat ->
       answer_limits scenario.cfg (startup.always_tiny k) = None.
Proof.
  intros c.
  assert (H : k8s.initContainerLimits c startup.always_tiny
              = inr ("经过5次尝试，无法获取容器资源限制: "
                     +:+ "在Deployment[aliexpress]中未找到容器[aliexpress]"))
    by (vm_compute; reflexivity).
  split; [ exact H | ].
  exact (proj1 (initContainerLimits_reports_only_the_last_attempt
                  c startup.always_tiny _ H)).
Defined.

(** ** A client that was built *)

(** Limits that an answer yields are positive. *)
Lemma answer_limits_positive (cfg : config.Config)
    (answer : error + list k8s.ContainerSpec) (l : metrics.ContainerLimits) :
  answer_limits cfg answer = Some l ->
  0 < metrics.CPULimit l /\ 0 < metrics.MemLimit l.
Proof.
  destruct answer as [err | containers]; simpl; [ discriminate | ].
  destruct (List.find (is_valid_spec cfg) containers) as [c | ] eqn:Hfind;
    simpl; [ | discriminate ].
  intros [= <-]. apply List.find_some in Hfind. destruct Hfind as [_ Hvalid].
  unfold is_valid_spec in Hvalid.
  apply andb_true_iff in Hvalid. destruct Hvalid as [Hvalid Hmem].
  apply andb_true_iff in Hvalid. destruct Hvalid as [_ Hcpu].
  apply Z.ltb_lt in Hcpu. apply Z.leb_le in Hmem.
  unfold limits_of. simpl. split; [ exact Hcpu | ].
  change (1024 * 1024) with 1048576 in *.
  rewrite Z.quot_div_nonneg by lia. apply Z.div_str_pos. lia.
Qed.

Lemma NewClient_inl (cfg : config.Config) (boot : k8s.Bootstrap)
    (c : k8s.Client) :
  k8s.NewClient cfg boot = inl c ->
  k8s.Config c = cfg
  /\ exists l : metrics.ContainerLimits,
       k8s.ContainerLimits c = Some l
       /\ 0 < metrics.CPULimit l /\ 0 < metrics.MemLimit l.
Proof.
  unfold k8s.NewClient.
  destruct (if config.InClusterConfig cfg
            then match k8s.InClusterConfig boot with
                 | Some err => Some ("创建InCluster配置失败: " +:+ err)
                 | None => None
                 end
            else match k8s.BuildConfigFromFlags boot
                         (config.KubeconfigPath cfg) with
                 | Some err => Some ("构建K8s配置失败: " +:+ err)
                 | None => None
                 end); [ discriminate | ].
  destruct (k8s.KubernetesNewForConfig boot); [ discriminate | ].
  destruct (k8s.MetricsNewForConfig boot); [ discriminate | ].
  destruct (k8s.initContainerLimits _ _) as [l | err] eqn:Hinit;
    [ | discriminate ].
  intros [= <-]. split; [ reflexivity | ]. exists l.
  split; [ reflexivity | ].
  unfold k8s.initContainerLimits in Hinit.
  destruct (k8s.retryLoop _ _ _ _ _) as [l0 | e] eqn:Hloop; [ | discriminate ].
  injection Hinit as ->.
  apply retryLoop_inl in Hloop. destruct Hloop as (k & _ & Hans & _).
  exact (answer_limits_positive _ _ _ Hans).
Qed.

(** X14: a client that [NewClient] has built holds positive limits, and
    the two handlers that [main] builds around it never answer with the
    service-unavailable code: whatever the cluster answers later, the
    snapshot is collected, the health check answers 200 or 400 and the
    metrics endpoint answers 200.  On that snapshot the guards of the two
    resource calculators against a limit of zero are never taken. *)
Theorem built_client_never_answers_unavailable
    (cfg : config.Config) (boot : k8s.Bootstrap) (c : k8s.Client)
    (api : k8s.Cluster) (g : Globals) :
  k8s.NewClient cfg boot = inl c ->
  let metricsCollector := metrics.NewMetricsCollector cfg in
  let healthHandler := NewHealthHandler c metricsCollector cfg in
  let metricsHandler :=
    NewMetricsHandler c metricsCollector cfg healthHandler in
  exists l : metrics.ContainerLimits,
    k8s.ContainerLimits c = Some l
    /\ 0 < metrics.CPULimit l
    /\ 0 < metrics.MemLimit l
    /\ collectResourceMetrics healthHandler api = inl (snapshot_of cfg l api)
    /\ (statusCode (fst (run (HealthHandler_ServeHTTP healthHandler api) g))
        = StatusOK
        \/ statusCode (fst (run (HealthHandler_ServeHTTP healthHandler api) g))
           = StatusBadRequest)
    /\ statusCode (fst (run (MetricsHandler_ServeHTTP metricsHandler api) g))
       = StatusOK
    /\ calcCPUPercent healthHandler (snapshot_of cfg l api)
       = F64.mul
           (F64.div
              (F64.of_int (metrics.ContainerCPUUsage (snapshot_of cfg l api)))
              (F64.of_int (metrics.CPULimit l)))
           (F64.of_int 100)
    /\ calcMemoryPercent healthHandler (snapshot_of cfg l api)
       = F64.mul
           (F64.div
              (F64.of_int (metrics.ContainerMemUsage (snapshot_of cfg l api)))
              (F64.of_int (metrics.MemLimit l)))
           (F64.of_int 100).
Proof.
  intros Hnew metricsCollector healthHandler metricsHandler.
  destruct (NewClient_inl cfg boot c Hnew) as (Hcfg & l & Hl & Hcpu & Hmem).
  assert (Hw : wired healthHandler) by (split; [ exact Hcfg | reflexivity ]).
  pose proof (collect_snapshot_of healthHandler api l Hw Hl) as Hc.
  change (Config healthHandler) with cfg in Hc.
  exists l. split; [ exact Hl | ]. split; [ exact Hcpu | ].
  split; [ exact Hmem | ]. split; [ exact Hc | ].
  split; [ | split; [ | split ] ].
  - unfold HealthHandler_ServeHTTP. rewrite Hc.
    destruct (verdict_on_the_wire healthHandler (snapshot_of cfg l api) g)
      as (lbl & _ & _ & Hcode & _).
    rewrite Hcode. destruct (verdict_accept lbl); auto.
  - unfold MetricsHandler_ServeHTTP.
    change (MH_HealthHandler metricsHandler) with healthHandler.
    rewrite Hc. reflexivity.
  - unfold calcCPUPercent.
    change (metrics.ContainerCPULimit (snapshot_of cfg l api))
      with (metrics.CPULimit l).
    destruct (Z.leb_spec (metrics.CPULimit l) 0); [ lia | reflexivity ].
  - unfold calcMemoryPercent.
    change (metrics.ContainerMemLimit (snapshot_of cfg l api))
      with (metrics.MemLimit l).
    destruct (Z.leb_spec (metrics.MemLimit l) 0); [ lia | reflexivity ].
Qed.

Lemma built_client_witness :
  let c := {| k8s.Config := scenario.cfg;
              k8s.ContainerLimits := Some scenario.limits |} in
  let api := scenario.cluster in
  let g := scenario.unlocked scenario.quarter scenario.quarter in
  k8s.NewClient scenario.cfg (startup.boot startup.third_time_lucky) = inl c
  /\ (let metricsCollector := metrics.NewMetricsCollector scenario.cfg in
      let healthHandler := NewHealthHandler c metricsCollector scenario.cfg in
      let metricsHandler :=
        NewMetricsHandler c metricsCollector scenario.cfg healthHandler in
      exists l : metrics.ContainerLimits,
        k8s.ContainerLimits c = Some l
        /\ 0 < metrics.CPULimit l
        /\ 0 < metrics.MemLimit l
        /\ collectResourceMetrics healthHandler api
           = inl (snapshot_of scenario.cfg l api)
        /\ (statusCode
              (fst (run (HealthHandler_ServeHTTP healthHandler api) g))
            = StatusOK
            \/ statusCode
                 (fst (run (HealthHandler_ServeHTTP healthHandler api) g))
               = StatusBadRequest)
        /\ statusCode
             (fst (run (MetricsHandler_ServeHTTP metricsHandler api) g))
           = StatusOK
        /\ calcCPUPercent healthHandler (snapshot_of scenario.cfg l api)
           = F64.mul
               (F64.div
                  (F64.of_int
                     (metrics.ContainerCPUUsage
                        (snapshot_of scenario.cfg l api)))
                  (F64.of_int (metrics.CPULimit l)))
               (F64.of_int 100)
        /\ calcMemoryPercent healthHandler (snapshot_of scenario.cfg l api)
           = F64.mul
               (F64.div
                  (F64.of_int
                     (metrics.ContainerMemUsage
                        (snapshot_of scenario.cfg l api)))
                  (F64.of_int (metrics.MemLimit l)))
               (F64.of_int 100)).
Proof.
  intros c api g.
  assert (H : k8s.NewClient scenario.cfg
                (startup.boot startup.third_time_lucky) = inl c)
    by (vm_compute; reflexivity).
  split; [ exact H | ].
  apply (built_client_never_answers_unavailable
           scenario.cfg (startup.boot startup.third_time_lucky) c api g H).
Defined.

(** ** The health check before and after the random backoff *)

Lemma without_backoff_reached (h : HealthHandler) (m : metrics.ResourceMetrics) :
  reaches_overload_test h m = true ->
  evaluate_without_backoff h m
  = if overloaded h m then
      respond StatusBadRequest
        (details h m "RESOURCE_EXHAUSTED"
           (MsgResourceExhausted
              (calcMemoryPercent h m)
              (config.ResourceThresholdMemoryPercent (Config h))
              (calcCPUPercent h m)
              (config.ResourceThresholdCPUPercent (Config h))))
    else
      respond StatusOK
        (details h m "HEALTHY"
           (MsgHealthy (calcMemoryPercent h m) (calcCPUPercent h m)
              (calcPodsRatio h m))).
Proof.
  unfold reaches_overload_test, overloaded. intros Ht.
  apply andb_true_iff in Ht as [Hr Hs]. apply negb_true_iff in Hs.
  unfold evaluate_without_backoff. rewrite Hr, Hs. reflexivity.
Qed.

Lemma without_backoff_guarded (h : HealthHandler) (m : metrics.ResourceMetrics)
    (g : Globals) :
  reaches_overload_test h m = false ->
  evaluate_without_backoff h m = fst (run (evaluate h m) g).
Proof.
  unfold reaches_overload_test. intros Ht.
  destruct (metrics.ContainerReady m) eqn:Hr.
  - simpl in Ht. apply negb_false_iff in Ht.
    rewrite (evaluate_pod_shortage h m Hr Ht).
    unfold evaluate_without_backoff. rewrite Hr, Ht. reflexivity.
  - rewrite (evaluate_not_ready h m Hr).
    unfold evaluate_without_backoff. rewrite Hr. reflexivity.
Qed.

(** X15: the random backoff changes the answer of the earlier, stateless
    health check in one case only.  When the overload test is reached,
    the snapshot is overloaded, the flag is UNLOCKED and the scaled draw
    is not above the minimum, the earlier check refuses with
    RESOURCE_EXHAUSTED and the present one accepts with
    RESOURCE_OVERLOADED_BUT_KEEPING.  In every other case the two
    responses are equal, code, label, message and details. *)
Theorem backoff_differs_from_the_stateless_check_only_when_keeping
    (h : HealthHandler) (m : metrics.ResourceMetrics) (g : Globals) :
  let now := fst (run (evaluate h m) g) in
  let before := evaluate_without_backoff h m in
  if reaches_overload_test h m && overloaded h m && shouldRandomize g
     && negb (F64.gtb (F64.mul (outputs (rng g) (drawn (rng g)))
                               (F64.of_int 100))
                      (config.MinimumPodsToKeepPercent (Config h)))
  then statusCode before = StatusBadRequest
       /\ label before = Some "RESOURCE_EXHAUSTED"
       /\ statusCode now = StatusOK
       /\ label now = Some "RESOURCE_OVERLOADED_BUT_KEEPING"
  else now = before.
Proof.
  intros now before. subst now before.
  destruct (reaches_overload_test h m) eqn:Ht.
  - rewrite (without_backoff_reached h m Ht).
    destruct (overloaded h m) eqn:Ho.
    + destruct (shouldRandomize g) eqn:Hu.
      * destruct (F64.gtb (F64.mul (outputs (rng g) (drawn (rng g)))
                             (F64.of_int 100))
                    (config.MinimumPodsToKeepPercent (Config h))) eqn:Hd.
        -- rewrite (run_draw_reject h m g Ht Ho Hu Hd). reflexivity.
        -- rewrite (run_draw_keep h m g Ht Ho Hu Hd). simpl. auto.
      * rewrite (run_locked h m g Ht Ho Hu). reflexivity.
    + rewrite (run_healthy h m g Ht Ho). reflexivity.
  - simpl. symmetry. apply without_backoff_guarded. exact Ht.
Qed.


(** ** Concurrent health checks that agree *)

Lemma stage_step (b : bool) (good : Response -> Prop) (n : nat)
    (p : Prog Response) (g : Globals) :
  stage b good n p g ->
  locked_if b g ->
  stage b good (pred n) (fst (step1 p g)) (snd (step1 p g))
  /\ rng (snd (step1 p g)) = rng g
  /\ (resourceOverLoaded g = b -> resourceOverLoaded (snd (step1 p g)) = b)
  /\ locked_if b (snd (step1 p g)).
Proof.
  unfold locked_if. destruct n as [ | [ | [ | [ | n ] ] ] ]; simpl.
  - intros (r & -> & Hr) Hl. simpl. split; [ | auto ]. exists r. auto.
  - destruct b; simpl.
    + intros (k & -> & Hk) Hl. simpl. rewrite (Hl eq_refl). auto.
    + intros (k & -> & Hk) Hl. simpl. repeat split; auto; discriminate.
  - intros [(k & -> & Hk) Hg] Hl. simpl. rewrite Hg. auto.
  - intros (k & -> & Hk) Hl. simpl. auto.
  - intros [].
Qed.

Lemma stage_mono (b : bool) (good : Response -> Prop) (n : nat)
    (p : Prog Response) (g g' : Globals) :
  (resourceOverLoaded g = b -> resourceOverLoaded g' = b) ->
  stage b good n p g -> stage b good n p g'.
Proof.
  intros Hg. destruct n as [ | [ | [ | [ | n ] ] ] ]; simpl; auto.
  intros [Ht Hf]. auto.
Qed.

Lemma stage_returned (b : bool) (good : Response -> Prop) (n : nat)
    (r : Response) (g : Globals) :
  stage b good n (Ret r) g -> good r.
Proof.
  destruct n as [ | [ | [ | [ | n ] ] ] ]; simpl.
  - intros (r' & [= <-] & Hr). exact Hr.
  - destruct b; intros (k & Hk & _); discriminate.
  - intros [(k & Hk & _) _]. discriminate.
  - intros (k & Hk & _). discriminate.
  - intros [].
Qed.

(** A snapshot that agrees with [b] starts with at most three accesses
    to make. *)
Lemma evaluate_stage (h : HealthHandler) (b : bool)
    (m : metrics.ResourceMetrics) (g : Globals) :
  agrees h b m = true ->
  stage b (served_alone h b m)
    (if reaches_overload_test h m then 3 else 0) (evaluate h m) g.
Proof.
  unfold agrees. intros Hb.
  destruct (reaches_overload_test h m) eqn:Ht.
  - simpl in Hb. apply eqb_prop in Hb.
    assert (Halone : served_alone h b m
              (if b then
                 respond StatusBadRequest
                   (details h m "RESOURCE_EXHAUSTED"
                      (MsgResourceExhausted
                         (calcMemoryPercent h m)
                         (config.ResourceThresholdMemoryPercent (Config h))
                         (calcCPUPercent h m)
                         (config.ResourceThresholdCPUPercent (Config h))))
               else
                 respond StatusOK
                   (details h m "HEALTHY"
                      (MsgHealthy (calcMemoryPercent h m)
                         (calcCPUPercent h m) (calcPodsRatio h m))))).
    { intros g0 Hl. unfold locked_if in Hl. destruct b.
      - rewrite (run_locked h m g0 Ht Hb (Hl eq_refl)). reflexivity.
      - rewrite (run_healthy h m g0 Ht Hb). reflexivity. }
    unfold reaches_overload_test, overloaded in Ht, Hb.
    apply andb_true_iff in Ht as [Hr Hs]. apply negb_true_iff in Hs.
    unfold evaluate. rewrite Hr, Hs. simpl. rewrite Hb.
    eexists. split; [ reflexivity | ].
    eexists. split; [ reflexivity | ].
    destruct b; simpl.
    + eexists. split; [ reflexivity | ].
      eexists. split; [ reflexivity | ]. exact Halone.
    + eexists. split; [ reflexivity | ].
      eexists. split; [ reflexivity | ]. exact Halone.
  - simpl. exists (fst (run (evaluate h m) g)).
    unfold reaches_overload_test in Ht.
    destruct (metrics.ContainerReady m) eqn:Hr.
    + simpl in Ht. apply negb_false_iff in Ht.
      rewrite (evaluate_pod_shortage h m Hr Ht).
      split; [ reflexivity | ]. intros g0 _.
      rewrite (evaluate_pod_shortage h m Hr Ht). reflexivity.
    + rewrite (evaluate_not_ready h m Hr).
      split; [ reflexivity | ]. intros g0 _.
      rewrite (evaluate_not_ready h m Hr). reflexivity.
Qed.

(** Under any schedule, goroutines that follow the stages keep doing so:
    each access of goroutine [i] takes it one stage further and leaves the
    others where they are. *)
Lemma interleave_stages (h : HealthHandler) (b : bool)
    (ms : list metrics.ResourceMetrics) :
  forall (schedule : list nat) (ps : list (Prog Response)) (g : Globals)
         (ns : nat -> nat),
  length ps = length ms ->
  locked_if b g ->
  (forall (i : nat) (m : metrics.ResourceMetrics),
     ms !! i = Some m ->
     exists p, ps !! i = Some p
               /\ stage b (served_alone h b m) (ns i) p g) ->
  rng (snd (interleave schedule ps g)) = rng g
  /\ locked_if b (snd (interleave schedule ps g))
  /\ forall (i : nat) (m : metrics.ResourceMetrics),
       ms !! i = Some m ->
       exists p,
         fst (interleave schedule ps g) !! i = Some p
         /\ stage b (served_alone h b m)
              (ns i - count_occ Nat.eq_dec schedule i) p
              (snd (interleave schedule ps g)).
Proof.
  induction schedule as [ | i rest IH ]; intros ps g ns Hlen Hlock Hinv.
  - simpl. split; [ reflexivity | ]. split; [ exact Hlock | ].
    intros i m Hm.
    destruct (Hinv i m Hm) as (p & Hp & Hstage). exists p.
    rewrite Nat.sub_0_r. auto.
  - cbn [interleave]. destruct (ps !! i) as [p | ] eqn:Hpi.
    + assert (Hmi : exists m, ms !! i = Some m).
      { apply lookup_lt_is_Some. rewrite <- Hlen.
        apply lookup_lt_is_Some. eauto. }
      destruct Hmi as [mi Hmi].
      destruct (Hinv i mi Hmi) as (p0 & Hp0 & Hstage).
      assert (p0 = p) by congruence. subst p0.
      destruct (stage_step _ _ _ _ _ Hstage Hlock)
        as (Hnext & Hrng & Hkeep & Hlock').
      destruct (step1 p g) as [p' g'] eqn:Hstep.
      simpl in Hnext, Hrng, Hkeep, Hlock'.
      destruct (IH (<[ i := p' ]> ps) g'
                  (fun j => if decide (j = i) then pred (ns j) else ns j))
        as (Hr & Hl & Hall).
      * rewrite length_insert. exact Hlen.
      * exact Hlock'.
      * intros j m Hm. destruct (decide (j = i)) as [-> | Hne].
        -- exists p'. split.
           ++ apply list_lookup_insert_eq. apply lookup_lt_is_Some. eauto.
           ++ assert (m = mi) by congruence. subst m. exact Hnext.
        -- destruct (Hinv j m Hm) as (q & Hq & Hsq). exists q. split.
           ++ rewrite list_lookup_insert_ne by congruence. exact Hq.
           ++ apply (stage_mono _ _ _ _ g g' Hkeep Hsq).
      * split; [ congruence | ]. split; [ exact Hl | ]. intros j m Hm.
        destruct (Hall j m Hm) as (q & Hq & Hsq). exists q.
        split; [ exact Hq | ].
        cbn [count_occ]. destruct (Nat.eq_dec i j) as [Heq | Hne].
        -- subst j. destruct (decide (i = i)); [ | congruence ].
           replace (ns i - S (count_occ Nat.eq_dec rest i))%nat
             with (pred (ns i) - count_occ Nat.eq_dec rest i)%nat by lia.
           exact Hsq.
        -- destruct (decide (j = i)); [ congruence | ]. exact Hsq.
    + destruct (IH ps g ns Hlen Hlock Hinv) as (Hr & Hl & Hall).
      split; [ exact Hr | ]. split; [ exact Hl | ]. intros j m Hm.
      destruct (Hall j m Hm) as (q & Hq & Hsq). exists q.
      split; [ exact Hq | ].
      cbn [count_occ]. destruct (Nat.eq_dec i j) as [Heq | Hne];
        [ | exact Hsq ].
      subst j. exfalso.
      assert (His : is_Some (ps !! i)).
      { apply lookup_lt_is_Some. rewrite Hlen.
        apply lookup_lt_is_Some. eauto. }
      rewrite Hpi in His. destruct His as [? His]. discriminate.
Qed.

(** X16: health checks that agree on the overload test are safe to serve
    concurrently.  Let every snapshot be answered by a guard or have the
    same overload condition [b], and let the flag be LOCKED if [b] is
    true.  Then under every schedule of the accesses of their
    goroutines: the generator is never consulted; a locked flag stays
    locked; a goroutine that has returned has given the answer it gives
    when served alone, a refusal exactly when it reaches the overload
    test and [b] is true; and a goroutine that was scheduled three times
    has returned. *)
Theorem agreeing_health_checks_are_safe_to_interleave
    (h : HealthHandler) (b : bool) (ms : list metrics.ResourceMetrics)
    (schedule : list nat) (g : Globals) :
  Forall (fun m => agrees h b m = true) ms ->
  (b = true -> shouldRandomize g = false) ->
  let out := interleave schedule (map (evaluate h) ms) g in
  rng (snd out) = rng g
  /\ (b = true -> shouldRandomize (snd out) = false)
  /\ (forall (i : nat) (m : metrics.ResourceMetrics) (r : Response),
        ms !! i = Some m ->
        fst out !! i = Some (Ret r) ->
        r = fst (run (evaluate h m) g)
        /\ statusCode r
           = if reaches_overload_test h m && b
             then StatusBadRequest else StatusOK)
  /\ (forall (i : nat) (m : metrics.ResourceMetrics),
        ms !! i = Some m ->
        (3 <= count_occ Nat.eq_dec schedule i)%nat ->
        exists r : Response, fst out !! i = Some (Ret r)).
Proof.
  intros Hb Hlock out.
  assert (Hbi : forall i m, ms !! i = Some m -> agrees h b m = true).
  { intros i m Hm. exact (proj1 (Forall_lookup _ ms) Hb i m Hm). }
  destruct (interleave_stages h b ms schedule (map (evaluate h) ms) g
              (fun i => match ms !! i with
                        | Some m => if reaches_overload_test h m
                                    then 3%nat else 0%nat
                        | None => 0%nat
                        end))
    as (Hrng & Hl & Hall).
  { apply length_map. }
  { exact Hlock. }
  { intros i m Hm. exists (evaluate h m). split.
    - rewrite list_lookup_fmap, Hm. reflexivity.
    - rewrite Hm. apply evaluate_stage. exact (Hbi i m Hm). }
  fold out in Hrng, Hl, Hall.
  split; [ exact Hrng | ]. split; [ exact Hl | ]. split.
  - intros i m r Hm Hout.
    destruct (Hall i m Hm) as (p & Hp & Hstage).
    assert (p = Ret r) by congruence. subst p.
    apply stage_returned in Hstage.
    split; [ apply Hstage; exact Hlock | ].
    rewrite (Hstage g Hlock).
    pose proof (Hbi i m Hm) as Hbm. unfold agrees in Hbm.
    destruct (reaches_overload_test h m) eqn:Ht.
    + simpl in Hbm. apply eqb_prop in Hbm. destruct b.
      * rewrite (run_locked h m g Ht Hbm (Hlock eq_refl)). reflexivity.
      * rewrite (run_healthy h m g Ht Hbm). reflexivity.
    + destruct (guarded_evaluation h m g Ht) as (_ & Hacc & _).
      unfold accept in Hacc. apply Z.eqb_eq in Hacc. exact Hacc.
  - intros i m Hm Hcount.
    destruct (Hall i m Hm) as (p & Hp & Hstage).
    rewrite Hm in Hstage.
    replace ((if reaches_overload_test h m then 3 else 0)
             - count_occ Nat.eq_dec schedule i)%nat with 0%nat in Hstage
      by (destruct (reaches_overload_test h m); lia).
    destruct Hstage as (r & -> & _). exists r. exact Hp.
Qed.

Lemma agreeing_health_checks_witness :
  let h := scenario.handler in
  let ms := [scenario.hot; scenario.hot_not_ready; scenario.hot] in
  let schedule := [2; 0; 0; 2; 1; 0; 2]%nat in
  let g := scenario.locked scenario.three_quarters scenario.quarter in
  Forall (fun m => agrees h true m = true) ms
  /\ (true = true -> shouldRandomize g = false)
  /\ (let out := interleave schedule (map (evaluate h) ms) g in
      rng (snd out) = rng g
      /\ (true = true -> shouldRandomize (snd out) = false)
      /\ (forall (i : nat) (m : metrics.ResourceMetrics) (r : Response),
            ms !! i = Some m ->
            fst out !! i = Some (Ret r) ->
            r = fst (run (evaluate h m) g)
            /\ statusCode r
               = if reaches_overload_test h m && true
                 then StatusBadRequest else StatusOK)
      /\ (forall (i : nat) (m : metrics.ResourceMetrics),
            ms !! i = Some m ->
            (3 <= count_occ Nat.eq_dec schedule i)%nat ->
            exists r : Response, fst out !! i = Some (Ret r))).
Proof.
  intros h ms schedule g.
  assert (H : Forall (fun m => agrees h true m = true) ms).
  { repeat constructor; vm_compute; reflexivity. }
  assert (Hl : true = true -> shouldRandomize g = false)
    by (intros _; reflexivity).
  split; [ exact H | ]. split; [ exact Hl | ].
  apply (agreeing_health_checks_are_safe_to_interleave
           h true ms schedule g H Hl).
Defined.

(** ** The percentages are finite *)

Lemma Zdigits2_bounds (m : Z) :
  0 <= m -> 0 <= Zdigits2 m /\ m < 2 ^ Zdigits2 m.
Proof.
  intros Hm. destruct m as [ | p | p ]; simpl; [ lia | | lia ].
  destruct (digits2_pos_bounds p) as [_ Hp]. split; [ lia | exact Hp ].
Qed.

(** The shift of [shr_fexp] leaves a mantissa of at most 53 digits. *)
Lemma shr_fexp_bounded (m e : Z) (l : location) :
  0 <= m -> -500 <= e ->
  0 <= shr_m (fst (shr_fexp 53 1024 m e l)) < 2 ^ 53
  /\ snd (shr_fexp 53 1024 m e l) = e + Z.max (Zdigits2 m - 53) 0.
Proof.
  intros Hm He.
  destruct (shr_fexp_spec 53 1024 m e l Hm) as [Hm1 He1].
  rewrite fexp_binary64 in Hm1, He1.
  destruct (Zdigits2_bounds m Hm) as [Hd Hlt].
  replace (Z.max (Z.max (Zdigits2 m + e - 53) (-1074) - e) 0)
    with (Z.max (Zdigits2 m - 53) 0) in Hm1, He1 by lia.
  split; [ | exact He1 ]. rewrite Hm1.
  set (n := Z.max (Zdigits2 m - 53) 0) in *.
  assert (Hn : 0 <= n) by (subst n; lia).
  assert (Hdn : Zdigits2 m <= n + 53) by (subst n; lia).
  clearbody n.
  assert (Hpos : 0 < 2 ^ n) by (apply Z.pow_pos_nonneg; lia).
  split.
  - apply Z.div_pos; [ exact Hm | exact Hpos ].
  - apply Z.div_lt_upper_bound; [ exact Hpos | ].
    rewrite <- Z.pow_add_r by lia.
    eapply Z.lt_le_trans; [ exact Hlt | ].
    apply Z.pow_le_mono_r; lia.
Qed.

(** Rounding a mantissa that is not negative, of moderate size and
    exponent, gives a zero or a finite number whose mantissa has at most
    53 digits and whose exponent grows by the digits that were dropped. *)
Lemma binary_round_aux_bounded (sx : bool) (mx e : Z) (l : location) :
  0 <= mx -> Zdigits2 mx <= 400 -> -500 <= e <= 500 ->
  binary_round_aux 53 1024 sx mx e l = S754_zero sx
  \/ exists (m' : positive) (e' : Z),
       binary_round_aux 53 1024 sx mx e l = S754_finite sx m' e'
       /\ Zpos m' < 2 ^ 53
       /\ e <= e' <= e + Z.max (Zdigits2 mx - 53) 0 + 1.
Proof.
  intros Hm Hd He. unfold binary_round_aux.
  destruct (shr_fexp_bounded mx e l Hm ltac:(lia)) as [Hm1 He1].
  destruct (shr_fexp 53 1024 mx e l) as [mrs' e1]. simpl in Hm1, He1.
  pose proof (round_nearest_even_bounds (shr_m mrs') (loc_of_shr_record mrs'))
    as Hround.
  set (m1 := round_nearest_even (shr_m mrs') (loc_of_shr_record mrs')) in *.
  clearbody m1.
  assert (Hm1' : 0 <= m1 < 2 ^ 54) by lia.
  assert (Hd1 : Zdigits2 m1 <= 54).
  { pose proof (Zdigits2_le m1 54 Hm1'). lia. }
  destruct (shr_fexp_bounded m1 e1 loc_Exact ltac:(lia) ltac:(lia))
    as [Hm2 He2].
  destruct (shr_fexp 53 1024 m1 e1 loc_Exact) as [mrs'' e2].
  simpl in Hm2, He2.
  destruct (shr_m mrs'') as [ | p2 | p2 ]; [ left; reflexivity | | lia ].
  right.
  replace (e2 <=? 1024 - 53) with true by (symmetry; apply Z.leb_le; lia).
  exists p2, e2. split; [ reflexivity | ]. split; [ lia | lia ].
Qed.

Lemma binary_round_int_bounded (sx : bool) (p : positive) :
  Zpos p <= 2 ^ 63 ->
  exists (m : positive) (e : Z),
    binary_round 53 1024 sx p 0 = S754_finite sx m e
    /\ Zpos m < 2 ^ 53 /\ -52 <= e <= 12.
Proof.
  intros Hp. destruct (binary_round_int_finite sx p Hp) as (m0 & e0 & Hfin).
  revert Hfin. unfold binary_round. rewrite fexp_binary64.
  assert (Hd : Zpos (digits2_pos p) <= 64) by (apply digits2_pos_le; lia).
  unfold shl_align.
  destruct (Z.max (Zpos (digits2_pos p) + 0 - 53) (-1074) - 0)
    as [ | k | k ] eqn:Hk; intros Hfin.
  - destruct (binary_round_aux_bounded sx (Zpos p) 0 loc_Exact)
      as [Hz | (m & e & Heq & Hm & He)]; simpl Zdigits2; try lia;
      [ congruence | ].
    simpl Zdigits2 in He. exists m, e. split; [ exact Heq | ]. lia.
  - destruct (binary_round_aux_bounded sx (Zpos p) 0 loc_Exact)
      as [Hz | (m & e & Heq & Hm & He)]; simpl Zdigits2; try lia;
      [ congruence | ].
    simpl Zdigits2 in He. exists m, e. split; [ exact Heq | ]. lia.
  - pose proof (digits2_pos_iter_xO p k) as Hdk.
    destruct (binary_round_aux_bounded sx (Zpos (Pos.iter xO p k))
                (Z.max (Zpos (digits2_pos p) + 0 - 53) (-1074)) loc_Exact)
      as [Hz | (m & e & Heq & Hm & He)]; simpl Zdigits2; try lia;
      [ congruence | ].
    simpl Zdigits2 in He. exists m, e. split; [ exact Heq | ]. lia.
Qed.

Lemma of_int_bounded (z : Z) :
  z <> 0 -> - 2 ^ 63 <= z <= 2 ^ 63 ->
  exists (m : positive) (e : Z),
    F64.of_int z = S754_finite (z <? 0) m e
    /\ Zpos m < 2 ^ 53 /\ -52 <= e <= 12.
Proof.
  intros Hz Hr. unfold F64.of_int. destruct z as [ | p | p ]; [ congruence | | ].
  - apply binary_round_int_bounded. lia.
  - apply binary_round_int_bounded. lia.
Qed.

(** The quotient of two converted integers is a zero or a finite number
    of moderate exponent. *)
Lemma SFdiv_bounded (s1 s2 : bool) (m1 m2 : positive) (e1 e2 : Z) :
  Zpos m1 < 2 ^ 53 -> -52 <= e1 <= 12 ->
  Zpos m2 < 2 ^ 53 -> -52 <= e2 <= 12 ->
  SFdiv 53 1024 (S754_finite s1 m1 e1) (S754_finite s2 m2 e2)
  = S754_zero (xorb s1 s2)
  \/ exists (m : positive) (e : Z),
       SFdiv 53 1024 (S754_finite s1 m1 e1) (S754_finite s2 m2 e2)
       = S754_finite (xorb s1 s2) m e
       /\ Zpos m < 2 ^ 53 /\ -200 <= e <= 200.
Proof.
  intros Hm1 He1 Hm2 He2. cbn [SFdiv]. unfold SFdiv_core_binary.
  rewrite fexp_binary64. simpl Zdigits2.
  pose proof (digits2_pos_le m1 53 Hm1) as Hd1.
  pose proof (digits2_pos_le m2 53 Hm2) as Hd2.
  destruct (digits2_pos_bounds m1) as [_ Hb1].
  set (d1 := Zpos (digits2_pos m1)) in *.
  set (d2 := Zpos (digits2_pos m2)) in *.
  assert (Hd1' : 1 <= d1) by (subst d1; lia).
  assert (Hd2' : 1 <= d2) by (subst d2; lia).
  clearbody d1 d2.
  set (e' := Z.min (Z.max (d1 + e1 - (d2 + e2) - 53) (-1074)) (e1 - e2)).
  assert (He' : -169 <= e' <= 64) by (subst e'; lia).
  set (s := e1 - e2 - e').
  assert (Hs : 0 <= s <= 105) by (subst s e'; lia).
  clearbody s e'.
  set (m' := match s with
             | 0 => Zpos m1
             | Zpos _ => Z.shiftl (Zpos m1) s
             | Zneg _ => 0
             end).
  assert (Hm' : 0 <= m' < 2 ^ (d1 + s)).
  { assert (Heq : m' = Zpos m1 * 2 ^ s).
    { subst m'. destruct s as [ | k | k ]; [ simpl; lia | | lia ].
      rewrite Z.shiftl_mul_pow2 by lia. reflexivity. }
    assert (Hpos : 0 < 2 ^ s) by (apply Z.pow_pos_nonneg; lia).
    rewrite Heq, Z.pow_add_r by lia. clear Heq. clearbody m'.
    split; [ lia | ]. apply Z.mul_lt_mono_pos_r; assumption. }
  clearbody m'.
  assert (Hq : 0 <= m' / Zpos m2 <= m').
  { split; [ apply Z.div_pos; lia | ].
    apply Z.div_le_upper_bound; [ lia | ].
    destruct Hm' as [Hm0 _]. clear - Hm0. nia. }
  unfold Z.div in Hq.
  destruct (Z.div_eucl m' (Zpos m2)) as [q r].
  assert (Hdq : Zdigits2 q <= d1 + s).
  { pose proof (Zdigits2_le q (d1 + s)) as H.
    assert (0 <= q < 2 ^ (d1 + s)) as Hq'
      by (split; [ tauto | eapply Z.le_lt_trans; [ apply Hq | apply Hm' ] ]).
    specialize (H Hq'). clear - H Hd1' Hs. lia. }
  clear Hm' Hb1.
  destruct (binary_round_aux_bounded (xorb s1 s2) q e'
              (new_location (Zpos m2) r))
    as [Hz | (m & e & Heq & Hm & He)]; try lia.
  - left. exact Hz.
  - right. exists m, e. split; [ exact Heq | ]. split; [ exact Hm | ]. lia.
Qed.

(** A percentage is a zero or a finite number, and is not negative when
    the usage is not. *)
Lemma percentage_finite (usage limit : Z) :
  - 2 ^ 63 <= limit <= 2 ^ 63 ->
  - 2 ^ 63 <= usage <= 2 ^ 63 ->
  let percent :=
    if limit <=? 0 then F64.zero
    else F64.mul (F64.div (F64.of_int usage) (F64.of_int limit))
                 (F64.of_int 100) in
  F64.is_finite percent = true
  /\ (0 <= usage -> F64.leb F64.zero percent = true).
Proof.
  intros Hl Hu percent. subst percent.
  destruct (Z.leb_spec limit 0) as [Hle | Hgt]; [ split; reflexivity | ].
  destruct (of_int_bounded limit ltac:(lia) Hl) as (ml & el & -> & Hml & Hel).
  replace (limit <? 0) with false by (symmetry; apply Z.ltb_ge; lia).
  rewrite of_int_100.
  destruct (Z.eq_dec usage 0) as [-> | Hnz].
  - rewrite of_int_0. split; reflexivity.
  - destruct (of_int_bounded usage Hnz Hu) as (mu & eu & -> & Hmu & Heu).
    change F64.div with (SFdiv 53 1024).
    destruct (SFdiv_bounded (usage <? 0) false mu ml eu el Hmu Heu Hml Hel)
      as [-> | (m & e & -> & Hm & He)].
    + split; [ reflexivity | ]. intros Hpos.
      replace (usage <? 0) with false by (symmetry; apply Z.ltb_ge; lia).
      reflexivity.
    + change F64.mul with (SFmul 53 1024). cbn [SFmul].
      assert (Hprod : Zdigits2 (Zpos (m * 7036874417766400)) <= 400).
      { pose proof (Zdigits2_le (Zpos (m * 7036874417766400)) 106) as H.
        rewrite Pos2Z.inj_mul in H. rewrite Pos2Z.inj_mul.
        assert (0 <= Zpos m * 7036874417766400 < 2 ^ 106) as Hb by lia.
        specialize (H Hb). lia. }
      destruct (binary_round_aux_bounded
                  (xorb (xorb (usage <? 0) false) false)
                  (Zpos (m * 7036874417766400)) (e + -46) loc_Exact)
        as [-> | (m' & e' & -> & _)]; try lia.
      * split; [ reflexivity | ]. intros Hpos.
        replace (usage <? 0) with false by (symmetry; apply Z.ltb_ge; lia).
        reflexivity.
      * split; [ reflexivity | ]. intros Hpos.
        replace (usage <? 0) with false by (symmetry; apply Z.ltb_ge; lia).
        reflexivity.
Qed.

(** X17: on every snapshot whose fields fit their Go integer types the
    three percentages are finite numbers, never an infinity and never
    a NaN, so that the details of an answer always hold numbers; and a
    percentage is not negative when its numerator is not. *)
Theorem percentages_are_finite_numbers
    (h : HealthHandler) (m : metrics.ResourceMetrics) :
  well_typed m ->
  (F64.is_finite (calcPodsRatio h m) = true
   /\ F64.is_finite (calcMemoryPercent h m) = true
   /\ F64.is_finite (calcCPUPercent h m) = true)
  /\ (0 <= metrics.DeploymentAvailableReplicas m ->
      F64.leb F64.zero (calcPodsRatio h m) = true)
  /\ (0 <= metrics.ContainerMemUsage m ->
      F64.leb F64.zero (calcMemoryPercent h m) = true)
  /\ (0 <= metrics.ContainerCPUUsage m ->
      F64.leb F64.zero (calcCPUPercent h m) = true).
Proof.
  intros [Hrep Hav Hcl Hml Hcu Hmu].
  apply int32_in_int64 in Hrep, Hav. apply int64_in_bounds in Hcl, Hml, Hcu, Hmu.
  destruct (percentage_finite (metrics.DeploymentAvailableReplicas m)
              (metrics.DeploymentReplicas m) Hrep Hav) as [Hf1 Hp1].
  destruct (percentage_finite (metrics.ContainerMemUsage m)
              (metrics.ContainerMemLimit m) Hml Hmu) as [Hf2 Hp2].
  destruct (percentage_finite (metrics.ContainerCPUUsage m)
              (metrics.ContainerCPULimit m) Hcl Hcu) as [Hf3 Hp3].
  unfold calcPodsRatio, calcMemoryPercent, calcCPUPercent.
  repeat split; assumption.
Qed.

Lemma percentages_witness :
  well_typed scenario.hot_and_thin
  /\ (F64.is_finite (calcPodsRatio scenario.handler scenario.hot_and_thin)
      = true
      /\ F64.is_finite
           (calcMemoryPercent scenario.handler scenario.hot_and_thin) = true
      /\ F64.is_finite
           (calcCPUPercent scenario.handler scenario.hot_and_thin) = true)
  /\ (0 <= metrics.DeploymentAvailableReplicas scenario.hot_and_thin ->
      F64.leb F64.zero (calcPodsRatio scenario.handler scenario.hot_and_thin)
      = true)
  /\ (0 <= metrics.ContainerMemUsage scenario.hot_and_thin ->
      F64.leb F64.zero
        (calcMemoryPercent scenario.handler scenario.hot_and_thin) = true)
  /\ (0 <= metrics.ContainerCPUUsage scenario.hot_and_thin ->
      F64.leb F64.zero
        (calcCPUPercent scenario.handler scenario.hot_and_thin) = true).
Proof.
  assert (H : well_typed scenario.hot_and_thin).
  { apply well_typed_snapshot; unfold int32_range, int64_range; lia. }
  split; [ exact H | ].
  apply (percentages_are_finite_numbers
           scenario.handler scenario.hot_and_thin H).
Defined.


(** ** A sustained overload *)

(** Served in a row while the flag is locked, overloaded snapshots are
    all refused without a draw. *)
Lemma locked_overload_run (h : HealthHandler)
    (ms : list metrics.ResourceMetrics) :
  forall g : Globals,
  Forall (fun m => reaches_overload_test h m && overloaded h m = true) ms ->
  shouldRandomize g = false ->
  map label (fst (serve_all h ms g))
  = replicate (length ms) (Some "RESOURCE_EXHAUSTED")
  /\ map statusCode (fst (serve_all h ms g))
     = replicate (length ms) StatusBadRequest
  /\ rng (snd (serve_all h ms g)) = rng g
  /\ shouldRandomize (snd (serve_all h ms g)) = false.
Proof.
  induction ms as [ | m rest IH ]; intros g Hall Hl.
  - simpl. auto.
  - inversion Hall as [ | ? ? Hm Hrest ]; subst.
    apply andb_true_iff in Hm as [Ht Ho].
    cbn [serve_all]. rewrite (run_locked h m g Ht Ho Hl).
    destruct (IH {| resourceOverLoaded := true; rng := rng g;
                    shouldRandomize := false |} Hrest eq_refl)
      as (H1 & H2 & H3 & H4).
    destruct (serve_all h rest _) as [rs g'].
    simpl in *. rewrite H1, H2. auto.
Qed.

(** X18: a run of health checks on overloaded snapshots that reach the
    overload test, served one after the other from an UNLOCKED flag, is
    answered RESOURCE_OVERLOADED_BUT_KEEPING with the success code up to
    the first draw that is above the minimum, and RESOURCE_EXHAUSTED
    with the client-error code from that draw on.  Each answer before
    the lock takes one value from the generator, none after it does, and
    the flag ends LOCKED unless every draw kept the pod. *)
Theorem sustained_overload_keeps_until_the_first_high_draw
    (h : HealthHandler) (ms : list metrics.ResourceMetrics) (g : Globals) :
  Forall (fun m => reaches_overload_test h m && overloaded h m = true) ms ->
  shouldRandomize g = true ->
  let k := kept h (outputs (rng g)) (drawn (rng g)) (length ms) in
  let out := serve_all h ms g in
  map label (fst out)
  = replicate k (Some "RESOURCE_OVERLOADED_BUT_KEEPING")
    ++ replicate (length ms - k) (Some "RESOURCE_EXHAUSTED")
  /\ map statusCode (fst out)
     = replicate k StatusOK ++ replicate (length ms - k) StatusBadRequest
  /\ drawn (rng (snd out))
     = (drawn (rng g) + Nat.min (length ms) (S k))%nat
  /\ outputs (rng (snd out)) = outputs (rng g)
  /\ shouldRandomize (snd out) = (k =? length ms)%nat.
Proof.
  revert g. induction ms as [ | m rest IH ]; intros g Hall Hu k out.
  - subst k out. simpl. rewrite Nat.add_0_r. auto.
  - inversion Hall as [ | ? ? Hm Hrest ]; subst.
    apply andb_true_iff in Hm as [Ht Ho].
    subst k out. cbn [serve_all kept length].
    destruct (F64.gtb (F64.mul (outputs (rng g) (drawn (rng g)))
                         (F64.of_int 100))
                (config.MinimumPodsToKeepPercent (Config h))) eqn:Hd.
    + rewrite (run_draw_reject h m g Ht Ho Hu Hd).
      destruct (locked_overload_run h rest
                  {| resourceOverLoaded := true;
                     rng := {| outputs := outputs (rng g);
                               drawn := S (drawn (rng g)) |};
                     shouldRandomize := false |} Hrest eq_refl)
        as (H1 & H2 & H3 & H4).
      destruct (serve_all h rest _) as [rs g'].
      simpl in *. rewrite H1, H2, H3, H4. simpl.
      repeat split; try reflexivity. lia.
    + rewrite (run_draw_keep h m g Ht Ho Hu Hd).
      specialize (IH {| resourceOverLoaded := true;
                        rng := {| outputs := outputs (rng g);
                                  drawn := S (drawn (rng g)) |};
                        shouldRandomize := true |} Hrest eq_refl).
      cbv zeta in IH. simpl rng in IH. simpl outputs in IH.
      simpl drawn in IH.
      destruct IH as (H1 & H2 & H3 & H4 & H5).
      destruct (serve_all h rest _) as [rs g'].
      simpl in *. rewrite H1, H2, H3, H4, H5.
      repeat split; try reflexivity. lia.
Qed.

Lemma sustained_overload_witness :
  let h := scenario.handler in
  let ms := [scenario.hot; scenario.hot; scenario.hot] in
  let g := scenario.unlocked scenario.quarter scenario.three_quarters in
  Forall (fun m => reaches_overload_test h m && overloaded h m = true) ms
  /\ shouldRandomize g = true
  /\ kept h (outputs (rng g)) (drawn (rng g)) (length ms) = 1%nat
  /\ (let k := kept h (outputs (rng g)) (drawn (rng g)) (length ms) in
      let out := serve_all h ms g in
      map label (fst out)
      = replicate k (Some "RESOURCE_OVERLOADED_BUT_KEEPING")
        ++ replicate (length ms - k) (Some "RESOURCE_EXHAUSTED")
      /\ map statusCode (fst out)
         = replicate k StatusOK
           ++ replicate (length ms - k) StatusBadRequest
      /\ drawn (rng (snd out))
         = (drawn (rng g) + Nat.min (length ms) (S k))%nat
      /\ outputs (rng (snd out)) = outputs (rng g)
      /\ shouldRandomize (snd out) = (k =? length ms)%nat).
Proof.
  intros h ms g.
  assert (H : Forall (fun m => reaches_overload_test h m && overloaded h m
                               = true) ms).
  { repeat constructor; vm_compute; reflexivity. }
  split; [ exact H | ]. split; [ reflexivity | ].
  split; [ vm_compute; reflexivity | ].
  apply (sustained_overload_keeps_until_the_first_high_draw h ms g H eq_refl).
Defined.
